(** * third_party_license_test.py: a shallow embedding and its properties

    The script checks and generates the THIRD_PARTY_NOTICES file.  The
    embedding follows [src/license_check/third_party_license_test.py]
    function by function.

    - Python [str] values are Rocq [string]s; a character is a code point
      below 256, and the character classes ([str.split()] whitespace, line
      boundaries of [str.splitlines()], printability for [repr]) are the ones
      CPython uses on that range.
    - Effects (HTTP requests, printing, the notices file, [sys.exit], uncaught
      exceptions) are threaded through a state-and-outcome monad [M].
    - The two libraries outside the repository, [requests] and
      [xml.etree.ElementTree], are the variables of Section [Script]. *)

From Stdlib Require Import String Ascii List Bool Arith ZArith Lia Permutation.
Import ListNotations.
Local Open Scope list_scope.
Local Open Scope string_scope.

(* ================================================================= *)
(** ** Python string operations used by the script *)

Module PyStr.

(** Characters that carry no literal of their own. *)
Definition TAB : ascii := "009"%char.
Definition LF : ascii := "010"%char.
Definition CR : ascii := "013"%char.
Definition DQUOTE : ascii := "034"%char.
Definition SQUOTE : ascii := "'"%char.
Definition BACKSLASH : ascii := "\"%char.

Definition chr (c : ascii) : string := String c "".

(** [s.startswith(pre)] *)
Fixpoint startswith (s pre : string) : bool :=
  match pre with
  | "" => true
  | String a pre' =>
      match s with
      | "" => false
      | String b s' => Ascii.eqb a b && startswith s' pre'
      end
  end.

(** [sub in s] *)
Fixpoint contains (sub s : string) : bool :=
  startswith s sub
  || match s with
     | "" => false
     | String _ s' => contains sub s'
     end.

(** [s.endswith(suf)]: some tail of [s] is [suf]. *)
Fixpoint endswith (s suf : string) : bool :=
  String.eqb s suf
  || match s with
     | "" => false
     | String _ s' => endswith s' suf
     end.

(** [s.replace(old, new)] for a non-empty [old]: occurrences are taken
    left to right and do not overlap.  [skip] counts the characters of a
    matched occurrence that are still to be passed over. *)
Fixpoint replace_from (skip : nat) (s old new : string) : string :=
  match s with
  | "" => ""
  | String c s' =>
      match skip with
      | S k => replace_from k s' old new
      | O =>
          if startswith s old
          then new ++ replace_from (String.length old - 1) s' old new
          else String c (replace_from 0 s' old new)
      end
  end.

Definition replace (s old new : string) : string := replace_from 0 s old new.

(** [s.split(sep)] for a non-empty [sep].  The result is never empty: it is
    returned as its first piece and the list of the pieces after it. *)
Fixpoint split_from (skip : nat) (s sep : string) : string * list string :=
  match s with
  | "" => ("", [])
  | String c s' =>
      match skip with
      | S k => split_from k s' sep
      | O =>
          if startswith s sep
          then let (h, t) := split_from (String.length sep - 1) s' sep in
               ("", h :: t)
          else let (h, t) := split_from 0 s' sep in
               (String c h, t)
      end
  end.

Definition split (s sep : string) : list string :=
  let (h, t) := split_from 0 s sep in h :: t.

(** [s[:-n]] *)
Definition drop_last (n : nat) (s : string) : string :=
  substring 0 (String.length s - n) s.

(** Whitespace of [str.split()] and [str.isspace()] below code point 256. *)
Definition isspace (c : ascii) : bool :=
  let n := nat_of_ascii c in
  ((9 <=? n)%nat && (n <=? 13)%nat) || ((28 <=? n)%nat && (n <=? 32)%nat)
  || (n =? 133)%nat || (n =? 160)%nat.

(** [s.split()]: maximal runs of non-whitespace characters.  [cur] is the
    run being read. *)
Fixpoint split_ws_from (cur s : string) : list string :=
  match s with
  | "" => match cur with "" => [] | _ => [cur] end
  | String c s' =>
      if isspace c
      then match cur with
           | "" => split_ws_from "" s'
           | _ => cur :: split_ws_from "" s'
           end
      else split_ws_from (cur ++ chr c) s'
  end.

Definition split_ws (s : string) : list string := split_ws_from "" s.

(** Line boundaries of [str.splitlines()] below code point 256. *)
Definition islinebreak (c : ascii) : bool :=
  let n := nat_of_ascii c in
  ((10 <=? n)%nat && (n <=? 13)%nat) || ((28 <=? n)%nat && (n <=? 30)%nat)
  || (n =? 133)%nat.

(** [s.splitlines()]: a carriage return followed by a line feed is one
    boundary; a final line is listed only when it is not empty. *)
Fixpoint splitlines_from (cur s : string) : list string :=
  match s with
  | "" => match cur with "" => [] | _ => [cur] end
  | String c s' =>
      if islinebreak c
      then (if Ascii.eqb c CR
            then match s' with
                 | String d s'' =>
                     if Ascii.eqb d LF
                     then cur :: splitlines_from "" s''
                     else cur :: splitlines_from "" s'
                 | "" => cur :: splitlines_from "" s'
                 end
            else cur :: splitlines_from "" s')
      else splitlines_from (cur ++ chr c) s'
  end.

Definition splitlines (s : string) : list string := splitlines_from "" s.

(** [s.lstrip(c)], [s.rstrip(c)] and [s.strip(c)] for a one-character set. *)
Fixpoint lstrip (c : ascii) (s : string) : string :=
  match s with
  | "" => ""
  | String a s' => if Ascii.eqb a c then lstrip c s' else s
  end.

Fixpoint rstrip (c : ascii) (s : string) : string :=
  match s with
  | "" => ""
  | String a s' =>
      match rstrip c s' with
      | "" => if Ascii.eqb a c then "" else chr a
      | r => String a r
      end
  end.

Definition strip (c : ascii) (s : string) : string := rstrip c (lstrip c s).

(** [sep.join(l)] *)
Fixpoint join (sep : string) (l : list string) : string :=
  match l with
  | [] => ""
  | [x] => x
  | x :: l' => x ++ sep ++ join sep l'
  end.

(** *** [repr] of a [str] and [str] of a list of [str] *)

Definition hex_digit (n : nat) : ascii :=
  nth n ["0"; "1"; "2"; "3"; "4"; "5"; "6"; "7"; "8"; "9";
         "a"; "b"; "c"; "d"; "e"; "f"]%char "0"%char.

Definition hex2 (c : ascii) : string :=
  let n := nat_of_ascii c in
  String (hex_digit (n / 16)) (String (hex_digit (n mod 16)) "").

(** [str.isprintable] on one character below code point 256. *)
Definition isprintable (c : ascii) : bool :=
  let n := nat_of_ascii c in
  (32 <=? n)%nat && negb (n =? 127)%nat
  && negb ((128 <=? n)%nat && (n <=? 160)%nat) && negb (n =? 173)%nat.

Fixpoint has_char (c : ascii) (s : string) : bool :=
  match s with
  | "" => false
  | String a s' => Ascii.eqb a c || has_char c s'
  end.

(** The quote [repr] chooses: double quotes only when the string holds a
    single quote and no double quote. *)
Definition repr_quote (s : string) : ascii :=
  if has_char SQUOTE s && negb (has_char DQUOTE s) then DQUOTE else SQUOTE.

Definition repr_char (q c : ascii) : string :=
  if Ascii.eqb c q || Ascii.eqb c BACKSLASH then String BACKSLASH (chr c)
  else if Ascii.eqb c TAB then "\t"
  else if Ascii.eqb c LF then "\n"
  else if Ascii.eqb c CR then "\r"
  else if isprintable c then chr c
  else "\x" ++ hex2 c.

Fixpoint repr_body (q : ascii) (s : string) : string :=
  match s with
  | "" => ""
  | String c s' => repr_char q c ++ repr_body q s'
  end.

Definition repr (s : string) : string :=
  let q := repr_quote s in
  String q (repr_body q s ++ chr q).

(** [str(l)] for a list [l] of strings. *)
Definition str_list (l : list string) : string :=
  "[" ++ join ", " (map repr l) ++ "]".

(** ['%s' % x] where [x] is a string or [None]. *)
Definition str_option (x : option string) : string :=
  match x with
  | Some s => s
  | None => "None"
  end.

End PyStr.
Import PyStr.

Definition nl : string := chr LF.

(* ================================================================= *)
(** ** Dictionaries

    A Python [dict] keeps its keys in insertion order, and the script
    iterates over one: a dictionary is the list of its items in that order. *)

Definition dict (V : Type) : Type := list (string * V).

Fixpoint dict_get {V : Type} (d : dict V) (k : string) : option V :=
  match d with
  | [] => None
  | (k', v) :: d' => if String.eqb k' k then Some v else dict_get d' k
  end.

(** [k in d] *)
Definition dict_in {V : Type} (k : string) (d : dict V) : bool :=
  match dict_get d k with
  | Some _ => true
  | None => false
  end.

(** [d[k] = v]: an existing key keeps its place, a new one goes last. *)
Fixpoint dict_set {V : Type} (d : dict V) (k : string) (v : V) : dict V :=
  match d with
  | [] => [(k, v)]
  | (k', v') :: d' =>
      if String.eqb k' k then (k', v) :: d' else (k', v') :: dict_set d' k v
  end.

Definition dict_keys {V : Type} (d : dict V) : list string := map fst d.

(* ================================================================= *)
(** ** Element trees

    What the script reads of an [xml.etree.ElementTree.Element]: its
    qualified tag, its text and its children. *)

#[warnings="-register-all"]
Inductive element : Type :=
| Element (tag : string) (text : option string) (children : list element).

Definition tag (e : element) : string := let (t, _, _) := e in t.
Definition text_of (e : element) : option string := let (_, t, _) := e in t.
Definition children (e : element) : list element := let (_, _, c) := e in c.

(** The tag a path of the form [prefix:local] stands for under the prefix
    map [ns], as ElementPath resolves it: [{uri}local]. *)
Definition qualified (path : string) (ns : dict string) : string :=
  match split path ":" with
  | [pre; loc] =>
      match dict_get ns pre with
      | Some uri => "{" ++ uri ++ "}" ++ loc
      | None => path
      end
  | _ => path
  end.

(** [e.find(path, ns)] for a path that is one tag: the first child of [e]
    with that tag, or [None]. *)
Definition find (e : element) (path : string) (ns : dict string)
  : option element :=
  List.find (fun c => String.eqb (tag c) (qualified path ns)) (children e).

(* ================================================================= *)
(** ** Effects *)

(** The exceptions that can escape the script. *)
Inductive exn : Type :=
| AttributeError     (* an attribute of [None] *)
| IndexError         (* a list index out of range *)
| KeyError           (* a missing dictionary key *)
| ParseError         (* [ET.fromstring] on text that is not XML *)
| RequestException   (* [requests.get] without a response *)
| FileNotFoundError. (* [open] of a missing file for reading *)

(** How a computation ends: with a value, with [sys.exit(code)], or with an
    uncaught exception. *)
Inductive outcome (A : Type) : Type :=
| Ret (a : A)
| Exit (code : Z)
| Raise (e : exn).
Arguments Ret {A} a.
Arguments Exit {A} code.
Arguments Raise {A} e.

(** The exit status of the process: [sys.exit()] and falling off the end
    give 0, an uncaught exception gives 1. *)
Definition exit_status {A : Type} (o : outcome A) : Z :=
  match o with
  | Ret _ => 0
  | Exit code => code
  | Raise _ => 1
  end.

(** What an HTTP response is to the script. *)
Record response : Type := Response { status_code : Z; text : string }.

(** The world around a run: the URLs requested so far (oldest first), the
    lines printed so far (oldest first, one entry per [print]), and the text
    files by path. *)
Record state : Type := State {
  requests : list string;
  stdout : list string;
  files : string -> option string
}.

Definition M (A : Type) : Type := state -> outcome A * state.

Definition ret {A : Type} (a : A) : M A := fun st => (Ret a, st).

Definition bind {A B : Type} (m : M A) (k : A -> M B) : M B :=
  fun st =>
    match m st with
    | (Ret a, st') => k a st'
    | (Exit code, st') => (Exit code, st')
    | (Raise e, st') => (Raise e, st')
    end.

Notation "x <- m ;; k" := (bind m (fun x => k))
  (at level 61, m at next level, right associativity).
Notation "m ;; k" := (bind m (fun _ => k))
  (at level 61, right associativity).

Definition raise {A : Type} (e : exn) : M A := fun st => (Raise e, st).

(** [sys.exit(code)]; [sys.exit()] is [sys_exit 0]. *)
Definition sys_exit {A : Type} (code : Z) : M A := fun st => (Exit code, st).

(** [print(a, b, ...)]: the arguments joined by one space. *)
Definition print (args : list string) : M unit :=
  fun st =>
    (Ret tt, State (requests st) (stdout st ++ [join " " args]) (files st)).

(** [l[i]] on a list *)
Definition list_getitem {A : Type} (l : list A) (i : nat) : M A :=
  match nth_error l i with
  | Some x => ret x
  | None => raise IndexError
  end.

(** [d[k]] on a dictionary *)
Definition dict_getitem {V : Type} (d : dict V) (k : string) : M V :=
  match dict_get d k with
  | Some v => ret v
  | None => raise KeyError
  end.

(** Reading a text file translates the line endings CR LF and CR to LF
    (universal newlines, the default of [open]). *)
Fixpoint universal_newlines (s : string) : string :=
  match s with
  | "" => ""
  | String c s' =>
      if Ascii.eqb c CR
      then match s' with
           | String d s'' =>
               if Ascii.eqb d LF
               then String LF (universal_newlines s'')
               else String LF (universal_newlines s')
           | "" => String LF ""
           end
      else String c (universal_newlines s')
  end.

(** [open(path).read()] *)
Definition read_file (path : string) : M string :=
  fun st =>
    match files st path with
    | Some content => (Ret (universal_newlines content), st)
    | None => (Raise FileNotFoundError, st)
    end.

(** [fh = open(path, 'w'); fh.write(content); fh.close()], where the line
    separator of the platform is LF and the path can be written. *)
Definition write_file (path content : string) : M unit :=
  fun st =>
    (Ret tt,
     State (requests st) (stdout st)
       (fun p => if String.eqb p path then Some content else files st p)).

(* ================================================================= *)
(** ** The script *)

(** *** Constants *)

Definition GITHUB_PREFIX : string := "https://github.com/".
Definition RAW_FILE_PREFIX : string := "https://raw.githubusercontent.com/".

Definition POM_FILE_SUFFIX : string := ".xml".
Definition GRADLE_FILE_SUFFIX : string := ".gradle".

Definition RULE : string :=
  "==============================================================================="
  ++ nl.

Definition SPACER : string := nl ++ nl ++ RULE ++ RULE ++ RULE ++ nl.

Section Script.

(** [requests.get]: the response to a GET of a URL, or [None] when the
    library raises instead of answering.  The first argument is the number
    of requests made before this one, so that the same URL may answer
    differently over a run. *)
Variable remote : nat -> string -> option response.

(** [ET.fromstring]: the root element of a document, or [None] when the
    text does not parse. *)
Variable fromstring : string -> option element.

Definition requests_get (url : string) : M response :=
  fun st =>
    let st' := State (requests st ++ [url]) (stdout st) (files st) in
    match remote (List.length (requests st)) url with
    | Some r => (Ret r, st')
    | None => (Raise RequestException, st')
    end.

Definition ET_fromstring (content : string) : M element :=
  match fromstring content with
  | Some root => ret root
  | None => raise ParseError
  end.

(** *** [get_file_from_github] *)

(** The loop over [branch_roots], left at the first marker found. *)
Fixpoint raw_file_url_loop (branch_roots : list string)
    (raw_file_url_with_blob raw_file_url : string) : M string :=
  match branch_roots with
  | [] => ret raw_file_url
  | br :: branch_roots' =>
      if contains br raw_file_url_with_blob
      then
        let split_url := split raw_file_url_with_blob br in
        s0 <- list_getitem split_url 0 ;;
        s1 <- list_getitem split_url 1 ;;
        ret (drop_last 5 s0 ++ br ++ s1)
      else raw_file_url_loop branch_roots' raw_file_url_with_blob raw_file_url
  end.

Definition get_file_from_github (github_url : string) : M (option string) :=
  let raw_file_url_with_blob :=
    replace github_url GITHUB_PREFIX RAW_FILE_PREFIX in
  let branch_roots := ["master/"; "main/"] in
  raw_file_url <- raw_file_url_loop branch_roots raw_file_url_with_blob "" ;;
  if String.eqb raw_file_url "" then ret None
  else
    response <- requests_get raw_file_url ;;
    if negb (status_code response =? 200)%Z then ret None
    else ret (Some (text response)).

(** *** [get_pom_artifact_name] *)

(** [x.find(path, ns)] where [x] may be [None] *)
Definition find_in (x : option element) (path : string) (ns : dict string)
  : M (option element) :=
  match x with
  | Some e => ret (find e path ns)
  | None => raise AttributeError
  end.

(** [x.text] where [x] may be [None] *)
Definition text_in (x : option element) : M (option string) :=
  match x with
  | Some e => ret (text_of e)
  | None => raise AttributeError
  end.

Definition get_pom_artifact_name (pom_xml_github_url : string) : M string :=
  pom_xml_content <- get_file_from_github pom_xml_github_url ;;
  match pom_xml_content with
  | None =>
      print ["Github Returned Error status when reading :";
             pom_xml_github_url] ;;
      sys_exit 1
  | Some pom_xml_content =>
      root <- ET_fromstring pom_xml_content ;;
      let ns := [("mvn", "http://maven.apache.org/POM/4.0.0")] in
      let parent := find root "mvn:parent" ns in
      group_elt <- find_in parent "mvn:groupId" ns ;;
      group_id <- text_in group_elt ;;
      artifact_id <- text_in (find root "mvn:artifactId" ns) ;;
      ret (str_option group_id ++ ":" ++ str_option artifact_id)
  end.

(** *** [get_grad_rval] and [get_gradle_artifact_name] *)

(** [l[-1]] *)
Definition list_last (l : list string) : M string :=
  match l with
  | [] => raise IndexError
  | x :: l' => ret (List.last l' x)
  end.

Definition get_grad_rval (line : string) : M string :=
  tok <- list_last (split_ws line) ;;
  ret (strip SQUOTE tok).

(** The loop over the lines of a gradle file. *)
Fixpoint gradle_loop (lines : list string) (group_id artifact_id : string)
  : M (string * string) :=
  match lines with
  | [] => ret (group_id, artifact_id)
  | line :: lines' =>
      group_id <-
        (if contains "groupId" line then get_grad_rval line
         else ret group_id) ;;
      artifact_id <-
        (if contains "artifactId" line then get_grad_rval line
         else ret artifact_id) ;;
      gradle_loop lines' group_id artifact_id
  end.

Definition get_gradle_artifact_name (url : string) : M string :=
  content <- get_file_from_github url ;;
  match content with
  | None => raise AttributeError (* [None.splitlines()] *)
  | Some content =>
      ids <- gradle_loop (splitlines content) "" "" ;;
      ret (fst ids ++ ":" ++ snd ids)
  end.

(** *** [get_github_root_url] *)

(** The loop over [branch_roots]; it is not left early, so the last marker
    found decides. *)
Fixpoint github_root_loop (branch_roots : list string)
    (url github_root : string) : M string :=
  match branch_roots with
  | [] => ret github_root
  | br :: branch_roots' =>
      if contains br url
      then
        let split_url := split url br in
        s0 <- list_getitem split_url 0 ;;
        github_root_loop branch_roots' url (s0 ++ br)
      else github_root_loop branch_roots' url github_root
  end.

Definition get_github_root_url (url : string) : M string :=
  let branch_roots := ["master/"; "main/"] in
  github_root <- github_root_loop branch_roots url "" ;;
  if String.eqb github_root ""
  then
    print ["Cannot find the main branch root directory for the pom/gradle ";
           "file: "; url] ;;
    sys_exit 1
  else ret github_root.

(** *** [get_license_from_pom] *)

(** The loop over [license_filenames], left at the first file found. *)
Fixpoint license_loop (license_filenames : list string)
    (github_branch_root : string)
    (license_content : option string) (license_url : string)
  : M (option string * string) :=
  match license_filenames with
  | [] => ret (license_content, license_url)
  | filename :: license_filenames' =>
      let license_url := github_branch_root ++ filename in
      license_content <- get_file_from_github license_url ;;
      match license_content with
      | Some _ => ret (license_content, license_url)
      | None =>
          license_loop license_filenames' github_branch_root
            license_content license_url
      end
  end.

Definition get_license_from_pom (url : string) : M (string * string) :=
  github_branch_root <- get_github_root_url url ;;
  let license_filenames := ["LICENSE"; "COPYING"] in
  found <- license_loop license_filenames github_branch_root None "" ;;
  match found with
  | (None, _) =>
      print ["Cannot get license information for pom/gradle file: "; url] ;;
      sys_exit 1
  | (Some license_content, license_url) =>
      ret (license_url, license_content)
  end.

(** *** [main]

    [main] is embedded from line 159 on, the point where the two lists of
    [maven_artifacts.bzl] are loaded: its arguments are the parsed command
    line ([update], the two paths) and the lists [MAVEN_ARTIFACTS] and
    [ORDERED_POM_OR_GRADLE_FILE_LIST].

    Lines 129-157 are not embedded.  There [argparse] parses the command
    line (with [-h] it prints the help and exits with status 0, on a usage
    error it prints to the error stream and exits with status 2), the file
    of the lists is opened and read, its text is run by [exec], and the two
    lists are read from the resulting dictionary (a [KeyError] when one of
    them is not defined).  A property of [main] below is therefore a
    property of a run from line 159 on, for whatever lists were loaded. *)

(** The loop over [pom_gradle_filelist]. *)
Fixpoint pom_gradle_loop (pom_gradle_filelist : list string)
    (artifact_list_from_github : list string)
    (package_name_to_pom : dict string)
  : M (list string * dict string) :=
  match pom_gradle_filelist with
  | [] => ret (artifact_list_from_github, package_name_to_pom)
  | url :: pom_gradle_filelist' =>
      if endswith url POM_FILE_SUFFIX
      then
        tmp <- get_pom_artifact_name url ;;
        pom_gradle_loop pom_gradle_filelist'
          (artifact_list_from_github ++ [tmp])%list
          (dict_set package_name_to_pom tmp url)
      else if endswith url GRADLE_FILE_SUFFIX
      then
        tmp <- get_gradle_artifact_name url ;;
        pom_gradle_loop pom_gradle_filelist'
          (artifact_list_from_github ++ [tmp])%list
          (dict_set package_name_to_pom tmp url)
      else
        print ["Neither a Pom, nor a Gradle a file found in the list. exiting."] ;;
        sys_exit 1
  end.

(** The loop over [maven_artifacts]. *)
Fixpoint maven_loop (maven_artifacts : list string)
    (artifact_list_from_maven : list string) : M (list string) :=
  match maven_artifacts with
  | [] => ret artifact_list_from_maven
  | artifact_name :: maven_artifacts' =>
      let split_artifact_name := split artifact_name ":" in
      s0 <- list_getitem split_artifact_name 0 ;;
      s1 <- list_getitem split_artifact_name 1 ;;
      maven_loop maven_artifacts'
        (artifact_list_from_maven ++ [(s0 ++ ":" ++ s1)%string])%list
  end.

(** The loop over [artifact_list_from_github] that fills the two
    dictionaries keyed by license URL. *)
Fixpoint package_loop (packages : list string)
    (package_name_to_pom : dict string)
    (license_url_to_package : dict (list string))
    (license_url_to_content : dict string)
  : M (dict (list string) * dict string) :=
  match packages with
  | [] => ret (license_url_to_package, license_url_to_content)
  | package :: packages' =>
      pom <- dict_getitem package_name_to_pom package ;;
      lic <- get_license_from_pom pom ;;
      let (license_url, license_content) := lic in
      if dict_in license_url license_url_to_package
      then
        l <- dict_getitem license_url_to_package license_url ;;
        package_loop packages' package_name_to_pom
          (dict_set license_url_to_package license_url (l ++ [package])%list)
          license_url_to_content
      else
        package_loop packages' package_name_to_pom
          (dict_set license_url_to_package license_url [package])
          (dict_set license_url_to_content license_url license_content)
  end.

(** The loop over the keys of [license_url_to_package] that writes the
    notices. *)
Fixpoint notices_loop (license_urls : list string)
    (license_url_to_package : dict (list string))
    (license_url_to_content : dict string)
    (third_party_notices_content : string) : M string :=
  match license_urls with
  | [] => ret third_party_notices_content
  | license_url :: license_urls' =>
      packages <- dict_getitem license_url_to_package license_url ;;
      let c1 :=
        third_party_notices_content
        ++ ("License for package(s): " ++ str_list packages) in
      let c2 := c1 ++ (nl ++ nl) in
      content <- dict_getitem license_url_to_content license_url ;;
      let c3 := c2 ++ content in
      let c4 := c3 ++ SPACER in
      notices_loop license_urls' license_url_to_package
        license_url_to_content c4
  end.

(** Lines 159-196: the length check, the two lists of names and their
    comparison. *)
Definition main_reconcile (maven_artifacts_file : string)
    (maven_artifacts pom_gradle_filelist : list string)
  : M (list string * dict string) :=
  (if negb (List.length maven_artifacts =? List.length pom_gradle_filelist)%nat
   then
     print ["artifact list length and pom/gradle file list length is not equal. ";
            "Please check the file :"; maven_artifacts_file] ;;
     sys_exit 1
   else ret tt) ;;
  derived <- pom_gradle_loop pom_gradle_filelist [] [] ;;
  let (artifact_list_from_github, package_name_to_pom) := derived in
  artifact_list_from_maven <- maven_loop maven_artifacts [] ;;
  (if list_eq_dec string_dec artifact_list_from_github artifact_list_from_maven
   then ret tt
   else
     print ["Artifact names from github and maven are different."] ;;
     print ["Github artifact list: "; str_list artifact_list_from_github] ;;
     print ["Maven artifact list: "; str_list artifact_list_from_maven] ;;
     sys_exit 1) ;;
  ret (artifact_list_from_github, package_name_to_pom).

(** Lines 198-219: the licenses and the notices text. *)
Definition main_aggregate (artifact_list_from_github : list string)
    (package_name_to_pom : dict string) : M string :=
  grouped <- package_loop artifact_list_from_github package_name_to_pom [] [] ;;
  let (license_url_to_package, license_url_to_content) := grouped in
  notices_loop (dict_keys license_url_to_package)
    license_url_to_package license_url_to_content "".

(** Lines 221-239: write the notices file, or compare with it. *)
Definition main_sync (update : bool)
    (third_party_notices_file third_party_notices_content : string)
  : M unit :=
  if update
  then
    write_file third_party_notices_file third_party_notices_content ;;
    sys_exit 0
  else
    old_third_party_notices_content <- read_file third_party_notices_file ;;
    if String.eqb old_third_party_notices_content third_party_notices_content
    then sys_exit 0
    else
      print ["Changes detected in THIRD_PARTY_NOTICES file!"] ;;
      print ["Please run the following command to update the license file: " ++ nl] ;;
      print [" python3 \"] ;;
      print ["     third_party/third_party_license_test.py \"] ;;
      print ["     third_party/maven_artifacts.bzl \"] ;;
      print ["     third_party/THIRD_PARTY_NOTICES --update"] ;;
      sys_exit 1.

(** Lines 159-239: [main] once the command line is parsed and the two lists
    are loaded. *)
Definition main (maven_artifacts_file third_party_notices_file : string)
    (update : bool) (maven_artifacts pom_gradle_filelist : list string)
  : M unit :=
  reconciled <-
    main_reconcile maven_artifacts_file maven_artifacts pom_gradle_filelist ;;
  let (artifact_list_from_github, package_name_to_pom) := reconciled in
  third_party_notices_content <-
    main_aggregate artifact_list_from_github package_name_to_pom ;;
  main_sync update third_party_notices_file third_party_notices_content.

End Script.

(* ================================================================= *)
(** ** The benchmark script

    The command line of [src/native/bench/bench.py].  Running the command
    and timing it are outside the embedding. *)

Definition COMMAND_CLOSURE_SIMPLE : list string :=
  ["bazel";
   "run";
   "--ui_event_filters=-info,-stdout,-stderr";
   "--noshow_progress";
   "%binary%";
   "--";
   "--compilation_level=SIMPLE";
   "--js=%input%";
   "--js_output_file=%output%";
   "2>";
   "/dev/null"].

Definition render_command_segment (seg target bundle target_label : string)
  : string :=
  replace
    (replace
       (replace seg "%binary%" target)
       "%input%"
       ("$(bazel info workspace)/native/bench/subjects/" ++ bundle ++ ".js"))
    "%output%"
    ("$(bazel info workspace)/native/bench/reports/" ++ bundle ++ "."
     ++ target_label ++ ".min.js").

Definition compile_command (target target_label bundle : string)
    (args : list string) : list string :=
  let base_args :=
    map (fun i => render_command_segment i target bundle target_label)
      COMMAND_CLOSURE_SIMPLE in
  (base_args ++ args)%list.

(* ================================================================= *)
(** ** Definitions used to state the properties *)

(** [s[n:]] *)
Fixpoint drop (n : nat) (s : string) : string :=
  match n, s with
  | O, _ => s
  | S k, "" => ""
  | S k, String _ s' => drop k s'
  end.

(** The branch marker [get_file_from_github] settles on in the rewritten
    location [w]: the first of [master/], [main/] that occurs in it. *)
Definition chosen_marker (w : string) : option string :=
  if contains "master/" w then Some "master/"
  else if contains "main/" w then Some "main/"
  else None.

(** The URL [get_file_from_github] builds for a location, [None] when it
    builds none. *)
Definition raw_file_url (github_url : string) : option string :=
  let w := replace github_url GITHUB_PREFIX RAW_FILE_PREFIX in
  match chosen_marker w with
  | Some br =>
      match split w br with
      | s0 :: s1 :: _ => Some (drop_last 5 s0 ++ br ++ s1)
      | _ => None
      end
  | None => None
  end.

(** What [get_file_from_github] makes of the answer of [requests.get]. *)
Definition fetched (answer : option response) : outcome (option string) :=
  match answer with
  | Some r => if (status_code r =? 200)%Z then Ret (Some (text r)) else Ret None
  | None => Raise RequestException
  end.

(** The state after one more request. *)
Definition requested (url : string) (st : state) : state :=
  State (requests st ++ [url]) (stdout st) (files st).

(** The state after one more printed line. *)
Definition printed (line : string) (st : state) : state :=
  State (requests st) (stdout st ++ [line]) (files st).

(** The line printed when the two lists differ in length. *)
Definition length_mismatch_message (maven_artifacts_file : string) : string :=
  join " "
    ["artifact list length and pom/gradle file list length is not equal. ";
     "Please check the file :"; maven_artifacts_file].

(** The lines printed when the notices file differs from the new text. *)
Definition drift_messages : list string :=
  ["Changes detected in THIRD_PARTY_NOTICES file!";
   "Please run the following command to update the license file: " ++ nl;
   " python3 \";
   "     third_party/third_party_license_test.py \";
   "     third_party/maven_artifacts.bzl \";
   "     third_party/THIRD_PARTY_NOTICES --update"].

(** The hosting root [get_github_root_url] derives: the text before the
    first occurrence of the marker, and the marker; [main/] decides when both
    markers occur, and the root is empty when none does. *)
Definition github_root (url : string) : string :=
  if contains "main/" url
  then fst (split_from 0 url "main/") ++ "main/"
  else if contains "master/" url
  then fst (split_from 0 url "master/") ++ "master/"
  else "".

(** The line printed when a location has no branch marker. *)
Definition no_root_message (url : string) : string :=
  join " "
    ["Cannot find the main branch root directory for the pom/gradle ";
     "file: "; url].

(** The line printed when no license file is found. *)
Definition no_license_message (url : string) : string :=
  join " " ["Cannot get license information for pom/gradle file: "; url].

(** The prefix map of [get_pom_artifact_name]. *)
Definition mvn : dict string := [("mvn", "http://maven.apache.org/POM/4.0.0")].

(** The last of [lines] that contains [token]. *)
Definition last_line_with (token : string) (lines : list string)
  : option string :=
  List.find (contains token) (rev lines).

(** The last whitespace-delimited token of a line. *)
Definition last_token (line : string) : string :=
  List.last (split_ws line) "".

(** The field a gradle file gives for [token]: the last token, without its
    single quotes, of the last line containing [token]; [otherwise] when no
    line contains it. *)
Definition gradle_field (token : string) (lines : list string)
    (otherwise : string) : string :=
  match last_line_with token lines with
  | Some line => strip SQUOTE (last_token line)
  | None => otherwise
  end.

Fixpoint all_space (s : string) : bool :=
  match s with
  | "" => true
  | String c s' => isspace c && all_space s'
  end.

(** A declared name cut down to its first two colon-delimited segments;
    [None] when it has fewer than two. *)
Definition truncated (artifact_name : string) : option string :=
  match split artifact_name ":" with
  | group :: artifact :: _ => Some (group ++ ":" ++ artifact)
  | _ => None
  end.

Fixpoint truncated_all (maven_artifacts : list string)
  : option (list string) :=
  match maven_artifacts with
  | [] => Some []
  | artifact_name :: maven_artifacts' =>
      match truncated artifact_name, truncated_all maven_artifacts' with
      | Some t, Some ts => Some (t :: ts)
      | _, _ => None
      end
  end.

(** The lines printed when the two lists of names differ. *)
Definition mismatch_messages (github maven : list string) : list string :=
  ["Artifact names from github and maven are different.";
   join " " ["Github artifact list: "; str_list github];
   join " " ["Maven artifact list: "; str_list maven]].

(** *** The notices, as the specification words them *)

(** A package with its resolved license: [(package, (location, content))]. *)
Definition entry : Type := (string * (string * string))%type.

Definition location (e : entry) : string := fst (snd e).

(** The distinct elements of a list, in the order they are first seen. *)
Fixpoint first_seen (l : list string) : list string :=
  match l with
  | [] => []
  | x :: l' => x :: filter (fun y => negb (String.eqb y x)) (first_seen l')
  end.

(** The distinct license locations, in first-seen order. *)
Definition locations (entries : list entry) : list string :=
  first_seen (map location entries).

(** The packages resolved to [license_url], in the order of the entries. *)
Definition packages_at (license_url : string) (entries : list entry)
  : list string :=
  map fst (filter (fun e => String.eqb (location e) license_url) entries).

(** The content of the first entry resolved to [license_url]. *)
Definition content_at (license_url : string) (entries : list entry) : string :=
  match List.find (fun e => String.eqb (location e) license_url) entries with
  | Some e => snd (snd e)
  | None => ""
  end.

(** One block: the header with the packages, a blank line, the license and
    the separator. *)
Definition block (packages : list string) (content : string) : string :=
  "License for package(s): " ++ str_list packages ++ (nl ++ nl)
  ++ content ++ SPACER.

Definition concat_all (l : list string) : string := fold_right append "" l.

(** The notices: one block per distinct location, in first-seen order. *)
Definition notices (entries : list entry) : string :=
  concat_all
    (map (fun u => block (packages_at u entries) (content_at u entries))
       (locations entries)).

(** The licenses of the packages, resolved one after the other as
    [main] does. *)
Fixpoint resolve_all (remote : nat -> string -> option response)
    (packages : list string) (package_name_to_pom : dict string)
  : M (list (string * string)) :=
  match packages with
  | [] => ret []
  | package :: packages' =>
      pom <- dict_getitem package_name_to_pom package ;;
      lic <- get_license_from_pom remote pom ;;
      lics <- resolve_all remote packages' package_name_to_pom ;;
      ret (lic :: lics)
  end.

(** What one round of the loop over the packages does to the two
    dictionaries. *)
Definition group_step (acc : dict (list string) * dict string) (e : entry)
  : dict (list string) * dict string :=
  match dict_get (fst acc) (location e) with
  | Some l => (dict_set (fst acc) (location e) (l ++ [fst e])%list, snd acc)
  | None =>
      (dict_set (fst acc) (location e) [fst e],
       dict_set (snd acc) (location e) (snd (snd e)))
  end.

(** The marker [m] occurs neither in [org/], nor in [repo/], nor in
    [rest]. *)
Definition marker_free (m org repo rest : string) : bool :=
  negb (contains m (org ++ "/")) && negb (contains m (repo ++ "/"))
  && negb (contains m rest).

(** A computation that leaves every file as it found it. *)
Definition keeps_files {A : Type} (m : M A) : Prop :=
  forall st, files (snd (m st)) = files st.

(** Some character of [s] is whitespace. *)
Fixpoint has_space (s : string) : bool :=
  match s with
  | "" => false
  | String c s' => isspace c || has_space s'
  end.

(** A computation that, when it exits, exits with status 1, and that never
    raises [KeyError]. *)
Definition tidy {A : Type} (m : M A) : Prop :=
  forall st,
    match fst (m st) with
    | Ret _ => True
    | Exit code => code = 1%Z
    | Raise e => e <> KeyError
    end.

(** A computation that adds at most [k] requests to the log and removes
    none. *)
Definition within (k : nat) {A : Type} (m : M A) : Prop :=
  forall st,
    exists l, requests (snd (m st)) = (requests st ++ l)%list
              /\ List.length l <= k.

(** A state in which the notices file holds the notices of the example. *)
Definition example_synced : state :=
  State [] []
    (fun p =>
       if String.eqb p "THIRD_PARTY_NOTICES"
       then Some ("License for package(s): ['g1:a1']" ++ nl ++ nl ++ "MIT"
                  ++ SPACER
                  ++ "License for package(s): ['com.example:lib']" ++ nl ++ nl
                  ++ "GPL" ++ SPACER)
       else None).

(** A computation that only adds lines to the output, and adds some
    exactly when it exits with status 1: it is silent when it returns, when
    it exits with status 0 and when an exception escapes, and it exits with
    no other status. *)
Definition loud {A : Type} (m : M A) : Prop :=
  forall st,
    exists l,
      stdout (snd (m st)) = (stdout st ++ l)%list
      /\ match fst (m st) with
         | Exit code => (code = 1%Z /\ l <> []) \/ (code = 0%Z /\ l = [])
         | _ => l = []
         end.

(** A computation that prints what it prints and then exits with status
    1. *)
Definition fatal {A : Type} (m : M A) : Prop :=
  forall st,
    exists l, stdout (snd (m st)) = (stdout st ++ l)%list
              /\ fst (m st) = Exit 1.

(* ================================================================= *)
(** ** A small world to run the script in *)

Definition ok (body : string) : option response := Some (Response 200 body).
Definition not_found : option response := Some (Response 404 "404: Not Found").

Definition example_gradle : string :=
  "publishing {" ++ nl
  ++ "  groupId = 'com.old'" ++ nl
  ++ "  groupId = 'com.example'" ++ nl
  ++ "  artifactId = 'lib'" ++ nl
  ++ "}" ++ nl.

Definition example_pom : string := "<project>g1 a1</project>".

(** The element tree of a POM with a parent block (group [g1]), a top-level
    group [top] and the artifact [a1]. *)
Definition example_root : element :=
  Element "{http://maven.apache.org/POM/4.0.0}project" None
    [Element "{http://maven.apache.org/POM/4.0.0}groupId" (Some "top") [];
     Element "{http://maven.apache.org/POM/4.0.0}parent" None
       [Element "{http://maven.apache.org/POM/4.0.0}groupId" (Some "g1") []];
     Element "{http://maven.apache.org/POM/4.0.0}artifactId" (Some "a1") []].

(** The same without the parent block. *)
Definition example_flat_pom : string := "<project>top a1</project>".

Definition example_flat_root : element :=
  Element "{http://maven.apache.org/POM/4.0.0}project" None
    [Element "{http://maven.apache.org/POM/4.0.0}groupId" (Some "top") [];
     Element "{http://maven.apache.org/POM/4.0.0}artifactId" (Some "a1") []].

Definition example_fromstring (content : string) : option element :=
  if String.eqb content example_pom then Some example_root
  else if String.eqb content example_flat_pom then Some example_flat_root
  else None.

(** [org/repo] (branch [main]) has a POM and a LICENSE; [org/flat] has a POM
    only; [org/lib] (branch [master]) has a gradle file and a COPYING but no
    LICENSE. *)
Definition example_remote (n : nat) (url : string) : option response :=
  if String.eqb url "https://raw.githubusercontent.com/org/repo/main/pom.xml"
  then ok example_pom
  else if String.eqb url "https://raw.githubusercontent.com/org/flat/main/pom.xml"
  then ok example_flat_pom
  else if String.eqb url "https://raw.githubusercontent.com/org/repo/main/LICENSE"
  then ok "MIT"
  else if String.eqb url "https://raw.githubusercontent.com/org/lib/master/build.gradle"
  then ok example_gradle
  else if String.eqb url "https://raw.githubusercontent.com/org/lib/master/COPYING"
  then ok "GPL"
  else not_found.

Definition example_state : state := State [] [] (fun _ => None).

(** [org/repo] with a LICENSE served with CR LF line endings. *)
Definition example_crlf_remote (n : nat) (url : string) : option response :=
  if String.eqb url "https://raw.githubusercontent.com/org/repo/main/pom.xml"
  then ok example_pom
  else if String.eqb url "https://raw.githubusercontent.com/org/repo/main/LICENSE"
  then ok ("MIT" ++ chr CR ++ nl)
  else not_found.

(** The notices of that repository, and the same text with LF line
    endings. *)
Definition example_crlf_notices : string :=
  "License for package(s): ['g1:a1']" ++ nl ++ nl
  ++ "MIT" ++ chr CR ++ nl ++ SPACER.

Definition example_lf_notices : string :=
  "License for package(s): ['g1:a1']" ++ nl ++ nl
  ++ "MIT" ++ nl ++ SPACER.

(** A state in which the notices file holds exactly those notices. *)
Definition example_crlf_synced : state :=
  State [] []
    (fun p =>
       if String.eqb p "THIRD_PARTY_NOTICES"
       then Some example_crlf_notices
       else None).

(** [org/repo] with its POM below [src/main/]. *)
Definition example_nested_remote (n : nat) (url : string) : option response :=
  if String.eqb url
       "https://raw.githubusercontent.com/org/repo/main/src/main/pom.xml"
  then ok example_pom
  else not_found.

Definition example_maven : list string := ["g1:a1:1.0"; "com.example:lib:2.0"].

Definition example_poms : list string :=
  ["https://github.com/org/repo/blob/main/pom.xml";
   "https://github.com/org/lib/blob/master/build.gradle"].

(** The state after the two descriptors of [example_poms] were fetched. *)
Definition example_fetched : state :=
  requested "https://raw.githubusercontent.com/org/lib/master/build.gradle"
    (requested "https://raw.githubusercontent.com/org/repo/main/pom.xml"
       example_state).

(* ================================================================= *)
(** ** Facts about the string operations *)

Module PyStrFacts.

Lemma append_nil_r (s : string) : s ++ "" = s.
Proof. induction s as [|c s IH]; simpl; [reflexivity | now rewrite IH]. Qed.

Lemma append_assoc (a b c : string) : (a ++ b) ++ c = a ++ b ++ c.
Proof. induction a as [|x a IH]; simpl; [reflexivity | now rewrite IH]. Qed.

Lemma length_append (a b : string) :
  String.length (a ++ b) = String.length a + String.length b.
Proof. induction a as [|x a IH]; simpl; [reflexivity | now rewrite IH]. Qed.

Lemma startswith_nil (s : string) : startswith s "" = true.
Proof. destruct s; reflexivity. Qed.

Lemma startswith_app (p s : string) : startswith (p ++ s) p = true.
Proof.
  induction p as [|a p IH]; simpl.
  - apply startswith_nil.
  - now rewrite Ascii.eqb_refl, IH.
Qed.

(** [startswith] reads no further than the length of the prefix. *)
Lemma startswith_app_long (p a b : string) :
  String.length p <= String.length a ->
  startswith (a ++ b) p = startswith a p.
Proof.
  revert a; induction p as [|x p IH]; intros a Hlen.
  - now rewrite !startswith_nil.
  - destruct a as [|y a]; simpl in Hlen; [lia|].
    simpl. rewrite IH by lia. reflexivity.
Qed.

Lemma contains_cons (sub : string) (c : ascii) (s : string) :
  contains sub (String c s) = startswith (String c s) sub || contains sub s.
Proof. reflexivity. Qed.

Lemma contains_startswith (sub s : string) :
  startswith s sub = true -> contains sub s = true.
Proof.
  intros H. destruct s as [|c s].
  - destruct sub; [reflexivity | discriminate].
  - now rewrite contains_cons, H.
Qed.

Lemma contains_tail (sub : string) (c : ascii) (s : string) :
  contains sub s = true -> contains sub (String c s) = true.
Proof. intros H. rewrite contains_cons, H. apply orb_true_r. Qed.

Lemma contains_app_l (sub a b : string) :
  contains sub b = true -> contains sub (a ++ b) = true.
Proof.
  intros H. induction a as [|c a IH]; simpl append; [exact H|].
  now apply contains_tail.
Qed.

Lemma contains_drop (sub : string) (k : nat) (s : string) :
  contains sub (drop k s) = true -> contains sub s = true.
Proof.
  revert s; induction k as [|k IH]; intros s H; [exact H|].
  destruct s as [|c s]; [exact H|].
  apply contains_tail, IH, H.
Qed.

Lemma contains_prefix (sub b : string) : contains sub (sub ++ b) = true.
Proof. apply contains_startswith, startswith_app. Qed.

Lemma contains_occurrence (sub a b : string) :
  contains sub (a ++ sub ++ b) = true.
Proof. apply contains_app_l, contains_startswith, startswith_app. Qed.

(** *** [split] *)

(** Where the separator occurs, [split] returns at least two pieces. *)
Lemma split_from_tail (sep s : string) :
  sep <> "" -> contains sep s = true -> snd (split_from 0 s sep) <> [].
Proof.
  intros Hsep. induction s as [|c s IH]; intros H.
  - destruct sep; [congruence | discriminate].
  - cbn [split_from]. rewrite contains_cons in H.
    destruct (startswith (String c s) sep).
    + destruct (split_from (String.length sep - 1) s sep); simpl.
      intros E; discriminate E.
    + specialize (IH H). destruct (split_from 0 s sep); exact IH.
Qed.

Lemma split_two (sep s : string) :
  sep <> "" -> contains sep s = true ->
  exists s0 s1 rest, split s sep = s0 :: s1 :: rest.
Proof.
  intros Hsep H. pose proof (split_from_tail sep s Hsep H) as Ht.
  unfold split. destruct (split_from 0 s sep) as [h [|y t]]; [easy|].
  now exists h, y, t.
Qed.

Lemma split_head (sep s : string) : exists s0 rest, split s sep = s0 :: rest.
Proof. unfold split. destruct (split_from 0 s sep) as [h t]. now exists h, t. Qed.

(** Passing over the characters of a matched separator. *)
Lemma split_from_skip (sep z s : string) :
  split_from (String.length z) (z ++ s) sep = split_from 0 s sep.
Proof.
  induction z as [|c z IH]; simpl.
  - now destruct s.
  - exact IH.
Qed.

Lemma split_from_occurrence (sep s : string) :
  sep <> "" ->
  split_from 0 (sep ++ s) sep = ("", fst (split_from 0 s sep) :: snd (split_from 0 s sep)).
Proof.
  intros Hsep. destruct sep as [|a sep]; [congruence|].
  change (String a sep ++ s) with (String a (sep ++ s)).
  cbn [split_from]. change (String a (sep ++ s)) with (String a sep ++ s).
  rewrite startswith_app.
  replace (String.length (String a sep) - 1) with (String.length sep)
    by (simpl; lia).
  rewrite split_from_skip. now destruct (split_from 0 s _).
Qed.

(** Without an occurrence of the separator there is one piece. *)
Lemma split_from_none (sep s : string) :
  contains sep s = false -> split_from 0 s sep = (s, []).
Proof.
  induction s as [|c s IH]; intros H; [reflexivity|].
  rewrite contains_cons in H. apply orb_false_iff in H as [H1 H2].
  cbn [split_from]. rewrite H1, (IH H2). reflexivity.
Qed.

(** The occurrence of [p ++ chr d] that follows [x] is the first one when
    none starts inside [x]. *)
Lemma split_from_first (p : string) (d : ascii) (x y : string) :
  contains (p ++ chr d) (x ++ p) = false ->
  split_from 0 (x ++ (p ++ chr d) ++ y) (p ++ chr d)
  = (x, fst (split_from 0 y (p ++ chr d))
        :: snd (split_from 0 y (p ++ chr d))).
Proof.
  intros H. induction x as [|c x IH].
  - change ("" ++ (p ++ chr d) ++ y) with ((p ++ chr d) ++ y).
    apply split_from_occurrence. destruct p; discriminate.
  - change (String c x ++ p) with (String c (x ++ p)) in H.
    rewrite contains_cons in H. apply orb_false_iff in H as [H1 H2].
    change (String c x ++ (p ++ chr d) ++ y)
      with (String c (x ++ (p ++ chr d) ++ y)).
    cbn [split_from].
    replace (String c (x ++ (p ++ chr d) ++ y))
      with (String c (x ++ p) ++ (chr d ++ y))
      by (simpl; now rewrite !append_assoc).
    rewrite startswith_app_long, H1.
    + replace (String c (x ++ p) ++ (chr d ++ y))
        with (String c (x ++ (p ++ chr d) ++ y))
        by (simpl; now rewrite !append_assoc).
      change (String c (x ++ (p ++ chr d) ++ y))
        with (String c x ++ (p ++ chr d) ++ y).
      simpl append at 1. rewrite (IH H2). reflexivity.
    + simpl. rewrite !length_append. simpl. lia.
Qed.

(** *** Markers that end in their only [d] *)

Lemma startswith_upto (d : ascii) (p z y : string) :
  has_char d p = false ->
  startswith ((z ++ chr d) ++ y) (p ++ chr d)
  = startswith (z ++ chr d) (p ++ chr d).
Proof.
  intros Hp. revert z. induction p as [|a p IH]; intros z.
  - destruct z as [|c z]; simpl; now rewrite ?startswith_nil.
  - simpl in Hp. apply orb_false_iff in Hp as [Ha Hp].
    destruct z as [|c z]; simpl.
    + now rewrite Ha.
    + now rewrite (IH Hp).
Qed.

(** An occurrence of such a marker does not reach across a [d]. *)
Lemma contains_upto (d : ascii) (p z y : string) :
  has_char d p = false ->
  contains (p ++ chr d) ((z ++ chr d) ++ y)
  = contains (p ++ chr d) (z ++ chr d) || contains (p ++ chr d) y.
Proof.
  intros Hp. induction z as [|c z IH].
  - assert (E0 : contains (p ++ chr d) "" = false)
      by (destruct p; reflexivity).
    pose proof (startswith_upto d p "" y Hp) as E1.
    change (("" ++ chr d) ++ y) with (String d y) in *.
    change ("" ++ chr d) with (String d "") in *.
    now rewrite !contains_cons, E0, E1, orb_false_r.
  - change ((String c z ++ chr d) ++ y) with (String c ((z ++ chr d) ++ y)).
    change (String c z ++ chr d) with (String c (z ++ chr d)).
    rewrite !contains_cons, IH.
    change (String c ((z ++ chr d) ++ y)) with ((String c z ++ chr d) ++ y).
    rewrite startswith_upto by exact Hp.
    now rewrite orb_assoc.
Qed.

(** *** [replace] *)

Lemma replace_from_skip (old new z s : string) :
  replace_from (String.length z) (z ++ s) old new = replace_from 0 s old new.
Proof.
  induction z as [|c z IH]; simpl.
  - now destruct s.
  - exact IH.
Qed.

Lemma replace_occurrence (old new s : string) :
  old <> "" -> replace (old ++ s) old new = new ++ replace s old new.
Proof.
  intros Hold. destruct old as [|a old]; [congruence|]. unfold replace.
  change (String a old ++ s) with (String a (old ++ s)).
  cbn [replace_from]. change (String a (old ++ s)) with (String a old ++ s).
  rewrite startswith_app.
  replace (String.length (String a old) - 1) with (String.length old)
    by (simpl; lia).
  now rewrite replace_from_skip.
Qed.

Lemma replace_none (old new s : string) :
  contains old s = false -> replace s old new = s.
Proof.
  unfold replace. induction s as [|c s IH]; intros H; [reflexivity|].
  rewrite contains_cons in H. apply orb_false_iff in H as [H1 H2].
  cbn [replace_from]. now rewrite H1, (IH H2).
Qed.

(** A string without the first character [h] of [old] and of [new] starts
    the replaced text exactly when it starts the original one. *)
Lemma startswith_replace (h : ascii) (old new m s : string) :
  has_char h m = false ->
  startswith (replace_from 0 s (String h old) (String h new)) m
  = startswith s m.
Proof.
  intros Hm. revert s. induction m as [|a m IH]; intros s.
  - now rewrite !startswith_nil.
  - simpl in Hm. apply orb_false_iff in Hm as [Ha Hm].
    destruct s as [|c s]; [reflexivity|].
    cbn [replace_from].
    destruct (startswith (String c s) (String h old)) eqn:E.
    + simpl in E. apply andb_true_iff in E as [E _].
      apply Ascii.eqb_eq in E. subst c. simpl. now rewrite Ha.
    + simpl. now rewrite (IH Hm).
Qed.

(** Replacing [old] by [new] creates no occurrence of such a string, when
    none reaches into or out of [new]. *)
Lemma contains_replace_from (h : ascii) (old new m : string) :
  has_char h m = false ->
  (forall t, contains m (String h new ++ t) = contains m t) ->
  forall s k,
    contains m (replace_from k s (String h old) (String h new)) = true ->
    contains m (drop k s) = true.
Proof.
  intros Hm Hnew. induction s as [|c s IH]; intros k H.
  - destruct k; exact H.
  - destruct k as [|k]; [|exact (IH k H)].
    cbn [replace_from] in H. simpl drop.
    destruct (startswith (String c s) (String h old)) eqn:E.
    + rewrite Hnew in H. apply contains_tail.
      apply (contains_drop m (String.length (String h old) - 1)).
      now apply IH.
    + rewrite contains_cons in H. apply orb_true_iff in H as [H|H].
      * apply contains_startswith.
        rewrite <- (startswith_replace h old new m) by exact Hm.
        cbn [replace_from]. now rewrite E.
      * apply contains_tail. exact (IH 0 H).
Qed.

(** *** [drop_last] *)

Lemma substring_prefix (a b : string) :
  substring 0 (String.length a) (a ++ b) = a.
Proof.
  induction a as [|c a IH]; simpl.
  - now destruct b.
  - now rewrite IH.
Qed.

Lemma drop_last_app (n : nat) (a b : string) :
  String.length b = n -> drop_last n (a ++ b) = a.
Proof.
  intros <-. unfold drop_last. rewrite length_append.
  replace (String.length a + String.length b - String.length b)
    with (String.length a) by lia.
  apply substring_prefix.
Qed.

End PyStrFacts.
Import PyStrFacts.

(** The operations on small inputs. *)

Example replace_prefix :
  replace "https://github.com/o/r/blob/main/x" GITHUB_PREFIX RAW_FILE_PREFIX
  = "https://raw.githubusercontent.com/o/r/blob/main/x".
Proof. reflexivity. Qed.

Example split_pieces : split "a//b//c/" "//" = ["a"; "b"; "c/"].
Proof. reflexivity. Qed.

Example split_empty : split "" ":" = [""].
Proof. reflexivity. Qed.

Example split_ws_tokens :
  split_ws "  groupId   'com.x'  " = ["groupId"; "'com.x'"].
Proof. reflexivity. Qed.

Example strip_quotes : strip SQUOTE "''com.x'" = "com.x".
Proof. reflexivity. Qed.

Example splitlines_endings :
  splitlines ("a" ++ chr CR ++ nl ++ "b" ++ nl ++ nl ++ "c" ++ nl)
  = ["a"; "b"; ""; "c"].
Proof. reflexivity. Qed.

Example str_list_quotes :
  str_list ["g1:a1"; "it's"; "a\b"]
  = "['g1:a1', " ++ chr DQUOTE ++ "it's" ++ chr DQUOTE ++ ", 'a\\b']".
Proof. reflexivity. Qed.

Example drop_last_short : drop_last 5 "abcdefg" = "ab" /\ drop_last 5 "abc" = "".
Proof. split; reflexivity. Qed.

Example endswith_suffix :
  endswith "a/pom.xml" POM_FILE_SUFFIX = true
  /\ endswith "a/pom.xml.bak" POM_FILE_SUFFIX = false.
Proof. split; reflexivity. Qed.

(* ================================================================= *)
(** ** Running [get_file_from_github] *)

Lemma append_cons_nonempty (a : string) (c : ascii) (b : string) :
  a ++ String c b <> "".
Proof. destruct a; discriminate. Qed.

Lemma raw_file_url_nonempty (url u : string) :
  raw_file_url url = Some u -> u <> "".
Proof.
  unfold raw_file_url, chosen_marker. intros H.
  destruct (contains "master/" _).
  - destruct (split _ "master/") as [|s0 [|s1 l]]; try discriminate.
    injection H as <-. apply append_cons_nonempty.
  - destruct (contains "main/" _); [|discriminate].
    destruct (split _ "main/") as [|s0 [|s1 l]]; try discriminate.
    injection H as <-. apply append_cons_nonempty.
Qed.

(** No recognized marker in a location leaves none in the rewritten one. *)
Lemma contains_marker_replace (m url : string) :
  m = "master/" \/ m = "main/" ->
  contains m (replace url GITHUB_PREFIX RAW_FILE_PREFIX) = true ->
  contains m url = true.
Proof.
  intros Hm H. unfold replace in H.
  apply (contains_replace_from "h" "ttps://github.com/"
           "ttps://raw.githubusercontent.com/" m) with (k := 0) in H.
  - exact H.
  - destruct Hm as [-> | ->]; reflexivity.
  - intros t. destruct Hm as [-> | ->]; reflexivity.
Qed.

Lemma raw_file_url_no_marker (url : string) :
  contains "master/" url = false -> contains "main/" url = false ->
  raw_file_url url = None.
Proof.
  intros H1 H2. unfold raw_file_url, chosen_marker.
  destruct (contains "master/" (replace url _ _)) eqn:E1.
  - apply contains_marker_replace in E1; [congruence | now left].
  - destruct (contains "main/" (replace url _ _)) eqn:E2; [|reflexivity].
    apply contains_marker_replace in E2; [congruence | now right].
Qed.

Section ScriptFacts.

Variable remote : nat -> string -> option response.
Variable fromstring : string -> option element.

Lemma raw_file_url_loop_run (url : string) (st : state) :
  raw_file_url_loop ["master/"; "main/"]
    (replace url GITHUB_PREFIX RAW_FILE_PREFIX) "" st
  = (Ret (match raw_file_url url with Some u => u | None => "" end), st).
Proof.
  unfold raw_file_url, chosen_marker. cbn [raw_file_url_loop].
  set (w := replace url GITHUB_PREFIX RAW_FILE_PREFIX).
  destruct (contains "master/" w) eqn:E1.
  - destruct (split_two "master/" w) as (s0 & s1 & l & ->);
      [discriminate | exact E1 | reflexivity].
  - destruct (contains "main/" w) eqn:E2; [|reflexivity].
    destruct (split_two "main/" w) as (s0 & s1 & l & ->);
      [discriminate | exact E2 | reflexivity].
Qed.

(** [get_file_from_github] makes no request when it builds no URL, and
    otherwise exactly one, to the URL it built. *)
Lemma get_file_from_github_run (url : string) (st : state) :
  get_file_from_github remote url st
  = match raw_file_url url with
    | None => (Ret None, st)
    | Some u =>
        (fetched (remote (List.length (requests st)) u), requested u st)
    end.
Proof.
  unfold get_file_from_github, bind. rewrite raw_file_url_loop_run.
  destruct (raw_file_url url) as [u|] eqn:E; [|reflexivity].
  apply raw_file_url_nonempty in E. apply String.eqb_neq in E. rewrite E.
  unfold requests_get, fetched, requested.
  destruct (remote _ u) as [[code body]|]; [|reflexivity].
  simpl. destruct (code =? 200)%Z; reflexivity.
Qed.

End ScriptFacts.

(* ================================================================= *)
(** ** The remote fetcher *)

(** C7.  [get_file_from_github] on a location without [master/] and without
    [main/] returns [None] and leaves the state as it was: no request is
    made.  When it does build a URL it makes one request, to that URL; an
    answer with a status other than 200 gives [None] (a value, not an
    exception) and an answer with status 200 gives its body. *)
Theorem get_file_from_github_absent_or_body
    (remote : nat -> string -> option response) (url : string) (st : state) :
  (contains "master/" url = false -> contains "main/" url = false ->
   get_file_from_github remote url st = (Ret None, st))
  /\ (forall u code body,
        raw_file_url url = Some u ->
        remote (List.length (requests st)) u = Some (Response code body) ->
        get_file_from_github remote url st
        = (Ret (if (code =? 200)%Z then Some body else None), requested u st)).
Proof.
  split.
  - intros H1 H2. rewrite get_file_from_github_run.
    now rewrite (raw_file_url_no_marker url H1 H2).
  - intros u code body Hu Hr. rewrite get_file_from_github_run, Hu, Hr.
    unfold fetched. simpl. now destruct (code =? 200)%Z.
Qed.

Lemma get_file_from_github_absent_or_body_witness :
  get_file_from_github example_remote
    "https://github.com/org/repo/blob/develop/LICENSE" example_state
  = (Ret None, example_state)
  /\ get_file_from_github example_remote
       "https://github.com/org/repo/blob/main/LICENSE" example_state
     = (Ret (Some "MIT"),
        requested "https://raw.githubusercontent.com/org/repo/main/LICENSE"
          example_state)
  /\ get_file_from_github example_remote
       "https://github.com/org/lib/blob/master/LICENSE" example_state
     = (Ret None,
        requested "https://raw.githubusercontent.com/org/lib/master/LICENSE"
          example_state).
Proof.
  split; [|split].
  - apply (get_file_from_github_absent_or_body example_remote
             "https://github.com/org/repo/blob/develop/LICENSE" example_state);
      reflexivity.
  - apply (proj2 (get_file_from_github_absent_or_body example_remote
                    "https://github.com/org/repo/blob/main/LICENSE"
                    example_state) _ 200%Z "MIT"); reflexivity.
  - apply (proj2 (get_file_from_github_absent_or_body example_remote
                    "https://github.com/org/lib/blob/master/LICENSE"
                    example_state) _ 404%Z "404: Not Found"); reflexivity.
Defined.

(* ================================================================= *)
(** ** The length check *)

(** C4.  When the two lists differ in length, [main] prints the length
    diagnostic and exits with status 1, whatever the lists hold.  Nothing
    else changes: no URL was requested (so no descriptor was fetched or
    parsed) and no file was written. *)
Theorem main_length_mismatch
    (remote : nat -> string -> option response)
    (fromstring : string -> option element)
    (maven_artifacts_file third_party_notices_file : string) (update : bool)
    (maven_artifacts pom_gradle_filelist : list string) (st : state) :
  List.length maven_artifacts <> List.length pom_gradle_filelist ->
  main remote fromstring maven_artifacts_file third_party_notices_file update
    maven_artifacts pom_gradle_filelist st
  = (Exit 1, printed (length_mismatch_message maven_artifacts_file) st).
Proof.
  intros H. apply Nat.eqb_neq in H.
  unfold main, main_reconcile, bind. now rewrite H.
Qed.

Lemma main_length_mismatch_witness :
  main example_remote example_fromstring "maven_artifacts.bzl"
    "THIRD_PARTY_NOTICES" false ["g1:a1:1.0"; "g2:a2:1.0"]
    ["https://github.com/org/repo/blob/main/pom.xml"] example_state
  = (Exit 1,
     printed (length_mismatch_message "maven_artifacts.bzl") example_state).
Proof.
  apply main_length_mismatch. simpl. lia.
Defined.

(* ================================================================= *)
(** ** What never touches the files *)

Create HintDb frame.

Lemma keeps_files_ret {A : Type} (a : A) : keeps_files (ret a).
Proof. intros st. reflexivity. Qed.

Lemma keeps_files_raise {A : Type} (e : exn) : keeps_files (@raise A e).
Proof. intros st. reflexivity. Qed.

Lemma keeps_files_sys_exit {A : Type} (code : Z) :
  keeps_files (@sys_exit A code).
Proof. intros st. reflexivity. Qed.

Lemma keeps_files_print (args : list string) : keeps_files (print args).
Proof. intros st. reflexivity. Qed.

Lemma keeps_files_read_file (path : string) : keeps_files (read_file path).
Proof. intros st. unfold read_file. now destruct (files st path). Qed.

Lemma keeps_files_list_getitem {A : Type} (l : list A) (i : nat) :
  keeps_files (list_getitem l i).
Proof. intros st. unfold list_getitem. now destruct (nth_error l i). Qed.

Lemma keeps_files_dict_getitem {V : Type} (d : dict V) (k : string) :
  keeps_files (dict_getitem d k).
Proof. intros st. unfold dict_getitem. now destruct (dict_get d k). Qed.

Lemma keeps_files_list_last (l : list string) : keeps_files (list_last l).
Proof. intros st. now destruct l. Qed.

Lemma keeps_files_bind {A B : Type} (m : M A) (k : A -> M B) :
  keeps_files m -> (forall a, keeps_files (k a)) -> keeps_files (bind m k).
Proof.
  intros Hm Hk st. unfold bind. specialize (Hm st).
  destruct (m st) as [[a|code|e] st']; simpl in *;
    [now rewrite Hk | exact Hm | exact Hm].
Qed.

#[global] Hint Resolve keeps_files_ret keeps_files_raise keeps_files_sys_exit
  keeps_files_print keeps_files_read_file keeps_files_list_getitem
  keeps_files_dict_getitem keeps_files_list_last : frame.

(** One step through a computation: past a [bind], or into the branches of
    a test. *)
Ltac frame_step :=
  match goal with
  | |- keeps_files (bind _ _) => apply keeps_files_bind; [|intros]
  | |- keeps_files (match ?x with _ => _ end) => destruct x
  end.

Ltac frame := repeat frame_step; auto with frame.

Section Frame.

Variable remote : nat -> string -> option response.
Variable fromstring : string -> option element.

Lemma keeps_files_requests_get (url : string) :
  keeps_files (requests_get remote url).
Proof. intros st. unfold requests_get. now destruct (remote _ url). Qed.

Lemma keeps_files_ET_fromstring (content : string) :
  keeps_files (ET_fromstring fromstring content).
Proof. unfold ET_fromstring. frame. Qed.

Lemma keeps_files_find_in (x : option element) (path : string)
    (ns : dict string) : keeps_files (find_in x path ns).
Proof. unfold find_in. frame. Qed.

Lemma keeps_files_text_in (x : option element) : keeps_files (text_in x).
Proof. unfold text_in. frame. Qed.

Hint Resolve keeps_files_requests_get keeps_files_ET_fromstring
  keeps_files_find_in keeps_files_text_in : frame.

Lemma keeps_files_raw_file_url_loop (branch_roots : list string)
    (w raw_file_url : string) :
  keeps_files (raw_file_url_loop branch_roots w raw_file_url).
Proof.
  induction branch_roots as [|br l IH]; cbn [raw_file_url_loop]; frame.
Qed.

Hint Resolve keeps_files_raw_file_url_loop : frame.

Lemma keeps_files_get_file_from_github (url : string) :
  keeps_files (get_file_from_github remote url).
Proof. unfold get_file_from_github. frame. Qed.

Hint Resolve keeps_files_get_file_from_github : frame.

Lemma keeps_files_get_pom_artifact_name (url : string) :
  keeps_files (get_pom_artifact_name remote fromstring url).
Proof. unfold get_pom_artifact_name. frame. Qed.

Lemma keeps_files_get_grad_rval (line : string) :
  keeps_files (get_grad_rval line).
Proof. unfold get_grad_rval. frame. Qed.

Hint Resolve keeps_files_get_pom_artifact_name keeps_files_get_grad_rval
  : frame.

Lemma keeps_files_gradle_loop (lines : list string) :
  forall group_id artifact_id,
    keeps_files (gradle_loop lines group_id artifact_id).
Proof.
  induction lines as [|line lines IH]; intros g a; cbn [gradle_loop]; frame.
Qed.

Hint Resolve keeps_files_gradle_loop : frame.

Lemma keeps_files_get_gradle_artifact_name (url : string) :
  keeps_files (get_gradle_artifact_name remote url).
Proof. unfold get_gradle_artifact_name. frame. Qed.

Lemma keeps_files_github_root_loop (branch_roots : list string) (url : string) :
  forall github_root,
    keeps_files (github_root_loop branch_roots url github_root).
Proof.
  induction branch_roots as [|br l IH]; intros r; cbn [github_root_loop];
    frame.
Qed.

Hint Resolve keeps_files_get_gradle_artifact_name
  keeps_files_github_root_loop : frame.

Lemma keeps_files_get_github_root_url (url : string) :
  keeps_files (get_github_root_url url).
Proof. unfold get_github_root_url. frame. Qed.

Lemma keeps_files_license_loop (license_filenames : list string)
    (root : string) :
  forall license_content license_url,
    keeps_files (license_loop remote license_filenames root license_content
                   license_url).
Proof.
  induction license_filenames as [|f l IH]; intros c u; cbn [license_loop];
    frame.
Qed.

Hint Resolve keeps_files_get_github_root_url keeps_files_license_loop : frame.

Lemma keeps_files_get_license_from_pom (url : string) :
  keeps_files (get_license_from_pom remote url).
Proof. unfold get_license_from_pom. frame. Qed.

Hint Resolve keeps_files_get_license_from_pom : frame.

Lemma keeps_files_pom_gradle_loop (pom_gradle_filelist : list string) :
  forall acc d,
    keeps_files (pom_gradle_loop remote fromstring pom_gradle_filelist acc d).
Proof.
  induction pom_gradle_filelist as [|url l IH]; intros acc d;
    cbn [pom_gradle_loop]; frame.
Qed.

Lemma keeps_files_maven_loop (maven_artifacts : list string) :
  forall acc, keeps_files (maven_loop maven_artifacts acc).
Proof.
  induction maven_artifacts as [|x l IH]; intros acc; cbn [maven_loop]; frame.
Qed.

Lemma keeps_files_package_loop (packages : list string) (idx : dict string) :
  forall l2p l2c, keeps_files (package_loop remote packages idx l2p l2c).
Proof.
  induction packages as [|x l IH]; intros l2p l2c; cbn [package_loop]; frame.
Qed.

Lemma keeps_files_notices_loop (license_urls : list string)
    (l2p : dict (list string)) (l2c : dict string) :
  forall content, keeps_files (notices_loop license_urls l2p l2c content).
Proof.
  induction license_urls as [|x l IH]; intros content; cbn [notices_loop];
    frame.
Qed.

Hint Resolve keeps_files_pom_gradle_loop keeps_files_maven_loop
  keeps_files_package_loop keeps_files_notices_loop : frame.

Lemma keeps_files_main_reconcile (maven_artifacts_file : string)
    (maven_artifacts pom_gradle_filelist : list string) :
  keeps_files (main_reconcile remote fromstring maven_artifacts_file
                 maven_artifacts pom_gradle_filelist).
Proof. unfold main_reconcile. frame. Qed.

Lemma keeps_files_main_aggregate (packages : list string) (idx : dict string) :
  keeps_files (main_aggregate remote packages idx).
Proof. unfold main_aggregate. frame. Qed.

Lemma keeps_files_main_sync_check (path content : string) :
  keeps_files (main_sync false path content).
Proof. unfold main_sync. frame. Qed.

Hint Resolve keeps_files_main_reconcile keeps_files_main_aggregate
  keeps_files_main_sync_check : frame.

(** A run without [--update] leaves every file as it found it. *)
Lemma keeps_files_main_check
    (maven_artifacts_file third_party_notices_file : string)
    (maven_artifacts pom_gradle_filelist : list string) :
  keeps_files (main remote fromstring maven_artifacts_file
                 third_party_notices_file false maven_artifacts
                 pom_gradle_filelist).
Proof. unfold main. frame. Qed.

End Frame.

(* ================================================================= *)
(** ** Writing or comparing the notices file *)

(** What [main_sync] does.  Without [--update] it leaves every file as it
    is: it exits with status 0 when the text read from the notices file, that
    is the file's content with every CR LF and every lone CR turned into LF,
    equals the new text, prints the remedy and exits with status 1 when it
    differs, and raises when there is no such file.  With [--update] it
    writes the new text to the notices file, touches no other file, and
    exits with status 0, also when the file held that text already.  A run
    of [main] without [--update] leaves every file as it found it, however
    it ends. *)
Theorem main_sync_check_or_write
    (remote : nat -> string -> option response)
    (fromstring : string -> option element)
    (maven_artifacts_file : string)
    (maven_artifacts pom_gradle_filelist : list string)
    (third_party_notices_file third_party_notices_content : string)
    (st : state) :
  main_sync false third_party_notices_file third_party_notices_content st
  = match files st third_party_notices_file with
    | None => (Raise FileNotFoundError, st)
    | Some old =>
        if String.eqb (universal_newlines old) third_party_notices_content
        then (Exit 0, st)
        else (Exit 1,
              State (requests st) (stdout st ++ drift_messages) (files st))
    end
  /\ fst (main_sync true third_party_notices_file
            third_party_notices_content st) = Exit 0
  /\ (forall p,
        files (snd (main_sync true third_party_notices_file
                      third_party_notices_content st)) p
        = if String.eqb p third_party_notices_file
          then Some third_party_notices_content
          else files st p)
  /\ files (snd (main remote fromstring maven_artifacts_file
                   third_party_notices_file false maven_artifacts
                   pom_gradle_filelist st))
     = files st.
Proof.
  split; [|split; [|split]].
  - unfold main_sync, bind, read_file.
    destruct (files st third_party_notices_file) as [old|]; [|reflexivity].
    destruct (String.eqb _ _); [reflexivity|].
    unfold print, sys_exit. simpl. now rewrite <- !app_assoc.
  - reflexivity.
  - reflexivity.
  - apply keeps_files_main_check.
Qed.

(** C9.  The comparison of check mode is not byte for byte: line 229 reads
    the notices file through [open(...).read()], which turns every CR LF
    into LF, while line 224 writes the text as it is.  With a LICENSE served
    with CR LF line endings, a run with [--update] writes the notices with
    their CR LF; the run without [--update] that follows finds the file
    byte for byte equal to the notices, and still prints the remedy and
    exits with status 1.  The other way round, the same file compared with
    the notices that have LF endings, which differ from it, exits with
    status 0. *)
Theorem main_sync_check_carriage_return :
  files (snd (main example_crlf_remote example_fromstring
                "maven_artifacts.bzl" "THIRD_PARTY_NOTICES" true
                ["g1:a1:1.0"]
                ["https://github.com/org/repo/blob/main/pom.xml"]
                example_state)) "THIRD_PARTY_NOTICES"
  = Some example_crlf_notices
  /\ fst (main example_crlf_remote example_fromstring
            "maven_artifacts.bzl" "THIRD_PARTY_NOTICES" false
            ["g1:a1:1.0"]
            ["https://github.com/org/repo/blob/main/pom.xml"]
            (snd (main example_crlf_remote example_fromstring
                    "maven_artifacts.bzl" "THIRD_PARTY_NOTICES" true
                    ["g1:a1:1.0"]
                    ["https://github.com/org/repo/blob/main/pom.xml"]
                    example_state)))
     = Exit 1
  /\ files example_crlf_synced "THIRD_PARTY_NOTICES"
     = Some example_crlf_notices
  /\ main_sync false "THIRD_PARTY_NOTICES" example_crlf_notices
       example_crlf_synced
     = (Exit 1, State [] drift_messages (files example_crlf_synced))
  /\ example_lf_notices <> example_crlf_notices
  /\ main_sync false "THIRD_PARTY_NOTICES" example_lf_notices
       example_crlf_synced
     = (Exit 0, example_crlf_synced).
Proof.
  repeat split; try reflexivity. discriminate.
Qed.

(* ================================================================= *)
(** ** The license locator *)

Lemma github_root_loop_run (url : string) (st : state) :
  github_root_loop ["master/"; "main/"] url "" st = (Ret (github_root url), st).
Proof.
  unfold github_root. cbn [github_root_loop]. unfold split.
  destruct (contains "master/" url); destruct (contains "main/" url);
    repeat (destruct (split_from 0 url _)); reflexivity.
Qed.

Lemma github_root_marker (url : string) :
  contains "master/" url || contains "main/" url = true ->
  github_root url <> "".
Proof.
  unfold github_root. intros H.
  destruct (contains "main/" url); [apply append_cons_nonempty|].
  destruct (contains "master/" url); [apply append_cons_nonempty|].
  discriminate.
Qed.

Lemma get_github_root_url_run (url : string) (st : state) :
  get_github_root_url url st
  = if contains "master/" url || contains "main/" url
    then (Ret (github_root url), st)
    else (Exit 1, printed (no_root_message url) st).
Proof.
  unfold get_github_root_url, bind. rewrite github_root_loop_run.
  destruct (contains "master/" url || contains "main/" url) eqn:E.
  - apply github_root_marker, String.eqb_neq in E. now rewrite E.
  - apply orb_false_iff in E as [E1 E2]. unfold github_root.
    now rewrite E1, E2.
Qed.

(** C3.  [get_license_from_pom] on a reference without a branch marker
    prints the missing-root diagnostic and exits with status 1.  Otherwise
    it probes [LICENSE] under the hosting root first: when that resolves,
    its location and content are returned in the state reached by that one
    probe, whatever [COPYING] holds; when it does not, [COPYING] is probed,
    and returned when it resolves; when neither resolves the run prints the
    missing-license diagnostic, which differs from the missing-root one, and
    exits with status 1. *)
Theorem get_license_from_pom_order
    (remote : nat -> string -> option response) (url : string) (st : state) :
  (contains "master/" url = false -> contains "main/" url = false ->
   get_license_from_pom remote url st
   = (Exit 1, printed (no_root_message url) st))
  /\ (contains "master/" url || contains "main/" url = true ->
      forall st1,
        (forall content,
           get_file_from_github remote (github_root url ++ "LICENSE") st
           = (Ret (Some content), st1) ->
           get_license_from_pom remote url st
           = (Ret (github_root url ++ "LICENSE", content), st1))
        /\ (get_file_from_github remote (github_root url ++ "LICENSE") st
            = (Ret None, st1) ->
            forall st2,
              (forall content,
                 get_file_from_github remote (github_root url ++ "COPYING") st1
                 = (Ret (Some content), st2) ->
                 get_license_from_pom remote url st
                 = (Ret (github_root url ++ "COPYING", content), st2))
              /\ (get_file_from_github remote (github_root url ++ "COPYING") st1
                  = (Ret None, st2) ->
                  get_license_from_pom remote url st
                  = (Exit 1, printed (no_license_message url) st2))))
  /\ no_root_message url <> no_license_message url.
Proof.
  split; [|split].
  - intros H1 H2. unfold get_license_from_pom, bind.
    now rewrite get_github_root_url_run, H1, H2.
  - intros Hm st1. unfold get_license_from_pom, bind.
    rewrite get_github_root_url_run, Hm. cbn [license_loop]. unfold bind.
    split.
    + intros content H. now rewrite H.
    + intros H st2. rewrite H. split.
      * intros content H'. now rewrite H'.
      * intros H'. now rewrite H'.
  - unfold no_root_message, no_license_message. simpl. discriminate.
Qed.

Lemma get_license_from_pom_order_witness :
  get_license_from_pom example_remote
    "https://github.com/org/repo/blob/develop/pom.xml" example_state
  = (Exit 1,
     printed (no_root_message "https://github.com/org/repo/blob/develop/pom.xml")
       example_state)
  /\ get_license_from_pom example_remote
       "https://github.com/org/repo/blob/main/pom.xml" example_state
     = (Ret ("https://github.com/org/repo/blob/main/LICENSE", "MIT"),
        requested "https://raw.githubusercontent.com/org/repo/main/LICENSE"
          example_state)
  /\ get_license_from_pom example_remote
       "https://github.com/org/lib/blob/master/build.gradle" example_state
     = (Ret ("https://github.com/org/lib/blob/master/COPYING", "GPL"),
        requested "https://raw.githubusercontent.com/org/lib/master/COPYING"
          (requested "https://raw.githubusercontent.com/org/lib/master/LICENSE"
             example_state))
  /\ get_license_from_pom example_remote
       "https://github.com/org/none/blob/main/pom.xml" example_state
     = (Exit 1,
        printed (no_license_message "https://github.com/org/none/blob/main/pom.xml")
          (requested "https://raw.githubusercontent.com/org/none/main/COPYING"
             (requested "https://raw.githubusercontent.com/org/none/main/LICENSE"
                example_state))).
Proof.
  split; [|split; [|split]].
  - apply (get_license_from_pom_order example_remote
             "https://github.com/org/repo/blob/develop/pom.xml" example_state);
      reflexivity.
  - apply (proj1 (proj2 (get_license_from_pom_order example_remote
             "https://github.com/org/repo/blob/main/pom.xml" example_state)));
      reflexivity.
  - refine (proj1 (proj2 (proj1 (proj2 (get_license_from_pom_order
             example_remote
             "https://github.com/org/lib/blob/master/build.gradle"
             example_state)) eq_refl _) eq_refl _) "GPL" eq_refl).
  - refine (proj2 (proj2 (proj1 (proj2 (get_license_from_pom_order
             example_remote
             "https://github.com/org/none/blob/main/pom.xml"
             example_state)) eq_refl _) eq_refl _) eq_refl).
Defined.

(* ================================================================= *)
(** ** The descriptor parsers *)

(** C6.  Once the POM is fetched and parsed, [get_pom_artifact_name] takes
    the group from the [groupId] child of the root's [parent] child and the
    artifact from the root's [artifactId] child.  When the root has no
    [parent] child, or that child has no [groupId] child, or the root has no
    [artifactId] child, the run ends with an uncaught [AttributeError]
    (exit status 1) in the state the fetch left; a [groupId] child of the
    root itself is never consulted. *)
Theorem get_pom_artifact_name_parent_only
    (remote : nat -> string -> option response)
    (fromstring : string -> option element)
    (url content : string) (root : element) (st st1 : state) :
  get_file_from_github remote url st = (Ret (Some content), st1) ->
  fromstring content = Some root ->
  (forall parent group artifact,
     find root "mvn:parent" mvn = Some parent ->
     find parent "mvn:groupId" mvn = Some group ->
     find root "mvn:artifactId" mvn = Some artifact ->
     get_pom_artifact_name remote fromstring url st
     = (Ret (str_option (text_of group) ++ ":" ++ str_option (text_of artifact)),
        st1))
  /\ (find root "mvn:parent" mvn = None
      \/ (exists parent, find root "mvn:parent" mvn = Some parent
                         /\ find parent "mvn:groupId" mvn = None)
      \/ find root "mvn:artifactId" mvn = None ->
      get_pom_artifact_name remote fromstring url st
      = (Raise AttributeError, st1)
      /\ exit_status (fst (get_pom_artifact_name remote fromstring url st)) = 1%Z).
Proof.
  intros Hfetch Hparse.
  assert (Hrun : get_pom_artifact_name remote fromstring url st
                 = (group_elt <- find_in (find root "mvn:parent" mvn)
                                   "mvn:groupId" mvn ;;
                    group_id <- text_in group_elt ;;
                    artifact_id <- text_in (find root "mvn:artifactId" mvn) ;;
                    ret (str_option group_id ++ ":" ++ str_option artifact_id))
                     st1).
  { unfold get_pom_artifact_name at 1. unfold bind at 1. rewrite Hfetch.
    unfold bind at 1. unfold ET_fromstring. rewrite Hparse. reflexivity. }
  split.
  - intros parent group artifact Hp Hg Ha. rewrite Hrun, Hp.
    unfold bind, find_in, ret. rewrite Hg. simpl. now rewrite Ha.
  - intros H.
    assert (E : get_pom_artifact_name remote fromstring url st
                = (Raise AttributeError, st1)).
    { rewrite Hrun. destruct H as [Hp | [(parent & Hp & Hg) | Ha]].
      - now rewrite Hp.
      - rewrite Hp. unfold bind, find_in, ret. now rewrite Hg.
      - rewrite Ha. unfold bind.
        destruct (find root "mvn:parent" mvn) as [parent|]; [|reflexivity].
        simpl. destruct (find parent "mvn:groupId" mvn); reflexivity. }
    now rewrite E.
Qed.

Lemma get_pom_artifact_name_parent_only_witness :
  get_pom_artifact_name example_remote example_fromstring
    "https://github.com/org/repo/blob/main/pom.xml" example_state
  = (Ret "g1:a1",
     requested "https://raw.githubusercontent.com/org/repo/main/pom.xml"
       example_state)
  /\ get_pom_artifact_name example_remote example_fromstring
       "https://github.com/org/flat/blob/main/pom.xml" example_state
     = (Raise AttributeError,
        requested "https://raw.githubusercontent.com/org/flat/main/pom.xml"
          example_state).
Proof.
  split.
  - refine (proj1 (get_pom_artifact_name_parent_only example_remote
                     example_fromstring
                     "https://github.com/org/repo/blob/main/pom.xml"
                     example_pom example_root example_state _ eq_refl eq_refl)
              _ _ _ eq_refl eq_refl eq_refl).
  - refine (proj1 (proj2 (get_pom_artifact_name_parent_only example_remote
                     example_fromstring
                     "https://github.com/org/flat/blob/main/pom.xml"
                     example_flat_pom example_flat_root example_state _
                     eq_refl eq_refl)
              (or_introl eq_refl))).
Defined.

(** *** The gradle scan *)

Lemma last_cons {A : Type} (x : A) (l : list A) (d : A) :
  List.last (x :: l) d = List.last l x.
Proof.
  revert x d. induction l as [|y l IH]; intros x d; [reflexivity|].
  change (List.last (x :: y :: l) d) with (List.last (y :: l) d).
  now rewrite (IH y d), (IH y x).
Qed.

Lemma find_snoc {A : Type} (f : A -> bool) (l : list A) (x : A) :
  List.find f (l ++ [x])
  = match List.find f l with
    | Some y => Some y
    | None => if f x then Some x else None
    end.
Proof.
  induction l as [|y l IH]; simpl; [reflexivity|].
  destruct (f y); [reflexivity | exact IH].
Qed.

(** Only a line of whitespace splits into no token. *)
Lemma split_ws_from_nil (cur s : string) :
  split_ws_from cur s = [] -> cur = "" /\ all_space s = true.
Proof.
  revert cur. induction s as [|c s IH]; intros cur H.
  - destruct cur; [now split | discriminate].
  - cbn [split_ws_from] in H. simpl. destruct (isspace c).
    + destruct cur; [|discriminate]. split; [reflexivity|].
      exact (proj2 (IH "" H)).
    + apply IH in H as [H _]. now apply append_cons_nonempty in H.
Qed.

Lemma contains_not_all_space (a : ascii) (t s : string) :
  isspace a = false -> contains (String a t) s = true -> all_space s = false.
Proof.
  intros Ha. induction s as [|c s IH]; intros H; [discriminate|].
  rewrite contains_cons in H. simpl. apply orb_true_iff in H as [H|H].
  - simpl in H. apply andb_true_iff in H as [H _].
    apply Ascii.eqb_eq in H. subst c. now rewrite Ha.
  - rewrite (IH H). apply andb_false_r.
Qed.

(** On a line that contains a token, [get_grad_rval] raises nothing. *)
Lemma get_grad_rval_run (a : ascii) (t line : string) (st : state) :
  isspace a = false -> contains (String a t) line = true ->
  get_grad_rval line st = (Ret (strip SQUOTE (last_token line)), st).
Proof.
  intros Ha H. unfold get_grad_rval, last_token, bind, list_last.
  destruct (split_ws line) as [|x l] eqn:E.
  - apply split_ws_from_nil in E as [_ E].
    now rewrite (contains_not_all_space a t line Ha H) in E.
  - now rewrite last_cons.
Qed.

Lemma gradle_field_cons (token line : string) (lines : list string)
    (otherwise : string) :
  gradle_field token (line :: lines) otherwise
  = gradle_field token lines
      (if contains token line then strip SQUOTE (last_token line)
       else otherwise).
Proof.
  unfold gradle_field, last_line_with. simpl rev. rewrite find_snoc.
  destruct (List.find (contains token) (rev lines)); [reflexivity|].
  now destruct (contains token line).
Qed.

Lemma gradle_loop_run (lines : list string) (group_id artifact_id : string)
    (st : state) :
  gradle_loop lines group_id artifact_id st
  = (Ret (gradle_field "groupId" lines group_id,
          gradle_field "artifactId" lines artifact_id), st).
Proof.
  revert group_id artifact_id.
  induction lines as [|line lines IH]; intros group_id artifact_id;
    [reflexivity|].
  rewrite !gradle_field_cons. cbn [gradle_loop]. unfold bind.
  destruct (contains "groupId" line) eqn:Eg;
    destruct (contains "artifactId" line) eqn:Ea;
    unfold ret; cbv beta iota;
    try rewrite (get_grad_rval_run "g"%char "roupId" line st eq_refl Eg);
    cbv beta iota;
    try rewrite (get_grad_rval_run "a"%char "rtifactId" line st eq_refl Ea);
    apply IH.
Qed.

(** C5.  The scan of a gradle file raises nothing and prints nothing,
    whatever the content: the group is the last whitespace-delimited token,
    stripped of single quotes, of the last line that contains [groupId], and
    the empty string when no line does; the same holds for the artifact and
    [artifactId].  [get_gradle_artifact_name] returns the two joined by a
    colon once the file is fetched. *)
Theorem get_gradle_artifact_name_last_line
    (remote : nat -> string -> option response)
    (url content : string) (st st1 : state) :
  (forall st',
     gradle_loop (splitlines content) "" "" st'
     = (Ret (gradle_field "groupId" (splitlines content) "",
             gradle_field "artifactId" (splitlines content) ""), st'))
  /\ (get_file_from_github remote url st = (Ret (Some content), st1) ->
      get_gradle_artifact_name remote url st
      = (Ret (gradle_field "groupId" (splitlines content) "" ++ ":"
              ++ gradle_field "artifactId" (splitlines content) ""), st1)).
Proof.
  split.
  - intros st'. apply gradle_loop_run.
  - intros H. unfold get_gradle_artifact_name, bind.
    now rewrite H, gradle_loop_run.
Qed.

Lemma get_gradle_artifact_name_last_line_witness :
  get_gradle_artifact_name example_remote
    "https://github.com/org/lib/blob/master/build.gradle" example_state
  = (Ret "com.example:lib",
     requested "https://raw.githubusercontent.com/org/lib/master/build.gradle"
       example_state).
Proof.
  apply (proj2 (get_gradle_artifact_name_last_line example_remote
                  "https://github.com/org/lib/blob/master/build.gradle"
                  example_gradle example_state _)).
  reflexivity.
Defined.

(* ================================================================= *)
(** ** Reconciling the two lists *)

Lemma maven_loop_run (maven_artifacts acc : list string) (st : state) :
  maven_loop maven_artifacts acc st
  = match truncated_all maven_artifacts with
    | Some ts => (Ret (acc ++ ts)%list, st)
    | None => (Raise IndexError, st)
    end.
Proof.
  revert acc. induction maven_artifacts as [|x l IH]; intros acc.
  - simpl. now rewrite app_nil_r.
  - cbn [maven_loop truncated_all]. unfold truncated.
    destruct (split x ":") as [|s0 [|s1 rest]] eqn:E.
    + destruct (split_head ":" x) as (h & t & E'). congruence.
    + reflexivity.
    + unfold bind. simpl. rewrite IH.
      destruct (truncated_all l); [|reflexivity].
      now rewrite <- app_assoc.
Qed.

Section Reconcile.

Variable remote : nat -> string -> option response.
Variable fromstring : string -> option element.

(** A completed loop over the descriptors appended one name per descriptor
    and set one key per name, in order. *)
Lemma pom_gradle_loop_index (pom_gradle_filelist : list string) :
  forall acc d st G idx st1,
    pom_gradle_loop remote fromstring pom_gradle_filelist acc d st
    = (Ret (G, idx), st1) ->
    exists G',
      G = (acc ++ G')%list
      /\ List.length G' = List.length pom_gradle_filelist
      /\ idx = fold_left (fun d gu => dict_set d (fst gu) (snd gu))
                 (combine G' pom_gradle_filelist) d.
Proof.
  induction pom_gradle_filelist as [|url l IH]; intros acc d st G idx st1 H.
  - injection H as <- <- <-. exists []. now rewrite app_nil_r.
  - cbn [pom_gradle_loop] in H. unfold bind in H.
    destruct (endswith url POM_FILE_SUFFIX).
    + destruct (get_pom_artifact_name remote fromstring url st)
        as [[tmp|code|e] st']; try discriminate.
      apply IH in H as (G' & -> & Hlen & ->).
      exists (tmp :: G'). rewrite <- app_assoc. simpl.
      now rewrite Hlen.
    + destruct (endswith url GRADLE_FILE_SUFFIX); [|discriminate].
      destruct (get_gradle_artifact_name remote url st)
        as [[tmp|code|e] st']; try discriminate.
      apply IH in H as (G' & -> & Hlen & ->).
      exists (tmp :: G'). rewrite <- app_assoc. simpl.
      now rewrite Hlen.
Qed.

(** What [main_reconcile] does once the loop over the descriptors has
    completed. *)
Lemma main_reconcile_run (maven_artifacts_file : string)
    (maven_artifacts pom_gradle_filelist G : list string)
    (idx : dict string) (st st1 : state) :
  List.length maven_artifacts = List.length pom_gradle_filelist ->
  pom_gradle_loop remote fromstring pom_gradle_filelist [] [] st
  = (Ret (G, idx), st1) ->
  main_reconcile remote fromstring maven_artifacts_file maven_artifacts
    pom_gradle_filelist st
  = match truncated_all maven_artifacts with
    | None => (Raise IndexError, st1)
    | Some M =>
        if list_eq_dec string_dec G M then (Ret (G, idx), st1)
        else (Exit 1,
              State (requests st1) (stdout st1 ++ mismatch_messages G M)
                (files st1))
    end.
Proof.
  intros Hlen Hloop. apply Nat.eqb_eq in Hlen.
  unfold main_reconcile. unfold bind at 1. rewrite Hlen. cbn [negb].
  unfold ret at 1. cbv beta iota. unfold bind at 1. rewrite Hloop.
  unfold bind at 1. rewrite maven_loop_run.
  destruct (truncated_all maven_artifacts) as [M|]; [|reflexivity].
  simpl app. unfold bind at 1.
  destruct (list_eq_dec string_dec G M); [reflexivity|].
  unfold print, sys_exit, mismatch_messages. simpl.
  now rewrite <- !app_assoc.
Qed.

End Reconcile.

(** C1.  With lists of equal length, once every descriptor has given its
    name (the list [G], one name per descriptor, in order) and every declared
    entry has been cut to its first two segments (the list [M], in order),
    [main] prints the mismatch diagnostic and exits with status 1 whenever
    [G] and [M] are not the same list, element by element.  In particular a
    reordering of the declared list whose names no longer line up with [G]
    is reported. *)
Theorem main_coordinate_mismatch
    (remote : nat -> string -> option response)
    (fromstring : string -> option element)
    (maven_artifacts_file third_party_notices_file : string) (update : bool)
    (maven_artifacts pom_gradle_filelist G : list string)
    (idx : dict string) (st st1 : state) :
  List.length maven_artifacts = List.length pom_gradle_filelist ->
  pom_gradle_loop remote fromstring pom_gradle_filelist [] [] st
  = (Ret (G, idx), st1) ->
  (forall M,
     truncated_all maven_artifacts = Some M -> G <> M ->
     main remote fromstring maven_artifacts_file third_party_notices_file
       update maven_artifacts pom_gradle_filelist st
     = (Exit 1,
        State (requests st1) (stdout st1 ++ mismatch_messages G M)
          (files st1)))
  /\ (forall reordered M',
        Permutation maven_artifacts reordered ->
        truncated_all reordered = Some M' -> G <> M' ->
        main remote fromstring maven_artifacts_file third_party_notices_file
          update reordered pom_gradle_filelist st
        = (Exit 1,
           State (requests st1) (stdout st1 ++ mismatch_messages G M')
             (files st1))).
Proof.
  intros Hlen Hloop.
  assert (Hmain : forall maven M,
            List.length maven = List.length pom_gradle_filelist ->
            truncated_all maven = Some M -> G <> M ->
            main remote fromstring maven_artifacts_file
              third_party_notices_file update maven pom_gradle_filelist st
            = (Exit 1,
               State (requests st1) (stdout st1 ++ mismatch_messages G M)
                 (files st1))).
  { intros maven M Hl HM Hne. unfold main. unfold bind at 1.
    rewrite (main_reconcile_run remote fromstring maven_artifacts_file
               maven pom_gradle_filelist G idx st st1 Hl Hloop), HM.
    now destruct (list_eq_dec string_dec G M). }
  split.
  - intros M. now apply Hmain.
  - intros reordered M' Hperm. apply Hmain.
    now rewrite <- (Permutation_length Hperm).
Qed.

Lemma main_coordinate_mismatch_witness :
  main example_remote example_fromstring "maven_artifacts.bzl"
    "THIRD_PARTY_NOTICES" false ["com.example:lib:2.0"; "g1:a1:1.0"]
    example_poms example_state
  = (Exit 1,
     State (requests example_fetched)
       (stdout example_fetched
        ++ mismatch_messages ["g1:a1"; "com.example:lib"]
             ["com.example:lib"; "g1:a1"])
       (files example_fetched)).
Proof.
  refine (proj2 (main_coordinate_mismatch example_remote example_fromstring
                   "maven_artifacts.bzl" "THIRD_PARTY_NOTICES" false
                   example_maven example_poms ["g1:a1"; "com.example:lib"]
                   [("g1:a1", "https://github.com/org/repo/blob/main/pom.xml");
                    ("com.example:lib",
                     "https://github.com/org/lib/blob/master/build.gradle")]
                   example_state example_fetched eq_refl eq_refl)
            ["com.example:lib:2.0"; "g1:a1:1.0"]
            ["com.example:lib"; "g1:a1"] _ eq_refl _).
  - apply perm_swap.
  - discriminate.
Defined.

(** *** The index *)

Lemma dict_get_none {V : Type} (d : dict V) (k : string) :
  ~ In k (dict_keys d) -> dict_get d k = None.
Proof.
  induction d as [|[k' v] d IH]; intros H; [reflexivity|].
  simpl in *. destruct (String.eqb k' k) eqn:E.
  - apply String.eqb_eq in E. tauto.
  - apply IH. tauto.
Qed.

(** Setting a key that is not there appends the item. *)
Lemma dict_set_fresh {V : Type} (d : dict V) (k : string) (v : V) :
  ~ In k (dict_keys d) -> dict_set d k v = (d ++ [(k, v)])%list.
Proof.
  induction d as [|[k' v'] d IH]; intros H; [reflexivity|].
  simpl in *. destruct (String.eqb k' k) eqn:E.
  - apply String.eqb_eq in E. tauto.
  - rewrite IH by tauto. reflexivity.
Qed.

Lemma dict_keys_app {V : Type} (d d' : dict V) :
  dict_keys (d ++ d')%list = (dict_keys d ++ dict_keys d')%list.
Proof. apply map_app. Qed.

(** Setting pairwise different new keys one after the other appends the
    items in that order. *)
Lemma dict_set_all_fresh (keys values : list string) :
  forall d : dict string,
    NoDup (dict_keys d ++ keys) ->
    fold_left (fun d gu => dict_set d (fst gu) (snd gu)) (combine keys values) d
    = (d ++ combine keys values)%list.
Proof.
  revert values. induction keys as [|k keys IH]; intros values d Hnd.
  - simpl. now rewrite app_nil_r.
  - destruct values as [|v values]; [simpl; now rewrite app_nil_r|].
    simpl. rewrite dict_set_fresh.
    + rewrite IH.
      * now rewrite <- app_assoc.
      * rewrite dict_keys_app. simpl. now rewrite <- app_assoc.
    + apply NoDup_remove_2 in Hnd. intros Hin. apply Hnd.
      apply in_or_app. now left.
Qed.

(** C8.  With lists of equal length, when every descriptor has given its
    name (the list [G], in order), every declared entry cut to its first two
    segments is the name at the same position, and no name occurs twice,
    [main_reconcile] succeeds: it returns [G] and the index, prints nothing
    and leaves the state as the fetches left it.  The index holds exactly one
    item per list element: item [i] maps name [i] to descriptor [i]. *)
Theorem main_reconcile_index
    (remote : nat -> string -> option response)
    (fromstring : string -> option element)
    (maven_artifacts_file : string)
    (maven_artifacts pom_gradle_filelist G : list string)
    (idx : dict string) (st st1 : state) :
  List.length maven_artifacts = List.length pom_gradle_filelist ->
  pom_gradle_loop remote fromstring pom_gradle_filelist [] [] st
  = (Ret (G, idx), st1) ->
  truncated_all maven_artifacts = Some G ->
  NoDup G ->
  main_reconcile remote fromstring maven_artifacts_file maven_artifacts
    pom_gradle_filelist st
  = (Ret (G, idx), st1)
  /\ idx = combine G pom_gradle_filelist
  /\ List.length idx = List.length pom_gradle_filelist
  /\ dict_keys idx = G.
Proof.
  intros Hlen Hloop Htrunc Hnd.
  assert (Hidx : idx = combine G pom_gradle_filelist
                 /\ List.length G = List.length pom_gradle_filelist).
  { destruct (pom_gradle_loop_index remote fromstring _ _ _ _ _ _ _ Hloop)
      as (G' & HG & HlenG & Hfold).
    simpl in HG. subst G'. split; [|exact HlenG].
    rewrite Hfold. now rewrite dict_set_all_fresh. }
  destruct Hidx as [Hidx HlenG]. split; [|split; [|split]].
  - rewrite (main_reconcile_run remote fromstring maven_artifacts_file
               maven_artifacts pom_gradle_filelist G idx st st1 Hlen Hloop).
    rewrite Htrunc. now destruct (list_eq_dec string_dec G G).
  - exact Hidx.
  - rewrite Hidx, length_combine, HlenG. apply Nat.min_id.
  - rewrite Hidx. unfold dict_keys.
    clear - HlenG. revert pom_gradle_filelist HlenG.
    induction G as [|g G IH]; intros [|u l] H; try discriminate;
      [reflexivity|].
    simpl. f_equal. apply IH. now injection H.
Qed.

Lemma main_reconcile_index_witness :
  main_reconcile example_remote example_fromstring "maven_artifacts.bzl"
    example_maven example_poms example_state
  = (Ret (["g1:a1"; "com.example:lib"], combine ["g1:a1"; "com.example:lib"] example_poms),
     example_fetched).
Proof.
  refine (proj1 (main_reconcile_index example_remote example_fromstring
                   "maven_artifacts.bzl" example_maven example_poms
                   ["g1:a1"; "com.example:lib"]
                   (combine ["g1:a1"; "com.example:lib"] example_poms)
                   example_state example_fetched eq_refl eq_refl eq_refl _)).
  repeat constructor; simpl; intuition discriminate.
Defined.

(** Two descriptors with one name: the second item replaces the first, and
    the index holds one item for the two list elements. *)
Example main_reconcile_collision :
  fst (main_reconcile example_remote example_fromstring "maven_artifacts.bzl"
         ["com.example:lib:1.0"; "com.example:lib:2.0"]
         ["https://github.com/org/lib/blob/master/build.gradle";
          "https://github.com/org/lib/blob/master/build.gradle"]
         example_state)
  = Ret (["com.example:lib"; "com.example:lib"],
         [("com.example:lib",
           "https://github.com/org/lib/blob/master/build.gradle")]).
Proof. reflexivity. Qed.

(* ================================================================= *)
(** ** Grouping by license location *)

Lemma first_seen_in (x : string) (l : list string) :
  In x (first_seen l) <-> In x l.
Proof.
  induction l as [|y l IH]; simpl; [tauto|].
  rewrite filter_In, IH, negb_true_iff, String.eqb_neq.
  destruct (string_dec y x); [tauto|].
  intuition congruence.
Qed.

Lemma first_seen_nodup (l : list string) : NoDup (first_seen l).
Proof.
  induction l as [|y l IH]; simpl; constructor.
  - rewrite filter_In, negb_true_iff, String.eqb_neq. tauto.
  - now apply NoDup_filter.
Qed.

Lemma first_seen_snoc_unseen (l : list string) (x : string) :
  ~ In x l -> first_seen (l ++ [x]) = (first_seen l ++ [x])%list.
Proof.
  induction l as [|y l IH]; intros H; [reflexivity|].
  simpl app. cbn [first_seen]. rewrite IH by (intros Hin; apply H; now right).
  rewrite filter_app. cbn [filter].
  destruct (String.eqb x y) eqn:E; [|reflexivity].
  apply String.eqb_eq in E. exfalso. apply H. now left.
Qed.

Lemma first_seen_snoc_seen (l : list string) (x : string) :
  In x l -> first_seen (l ++ [x]) = first_seen l.
Proof.
  induction l as [|y l IH]; intros H; [contradiction|].
  simpl app. cbn [first_seen]. f_equal.
  destruct (in_dec string_dec x l) as [Hin|Hin].
  - now rewrite IH.
  - destruct H as [H|H]; [subst y | contradiction].
    rewrite first_seen_snoc_unseen by exact Hin.
    rewrite filter_app. cbn [filter]. rewrite String.eqb_refl. simpl.
    apply app_nil_r.
Qed.

Lemma dict_get_tabulate {V : Type} (f : string -> V) (keys : list string)
    (k : string) :
  In k keys -> dict_get (map (fun u => (u, f u)) keys) k = Some (f k).
Proof.
  induction keys as [|u keys IH]; intros H; [contradiction|].
  simpl. destruct (String.eqb u k) eqn:E.
  - apply String.eqb_eq in E. now subst.
  - apply IH. destruct H as [H|H]; [|exact H].
    apply String.eqb_neq in E. congruence.
Qed.

Lemma dict_keys_tabulate {V : Type} (f : string -> V) (keys : list string) :
  dict_keys (map (fun u => (u, f u)) keys) = keys.
Proof.
  unfold dict_keys. rewrite map_map. simpl. apply map_id.
Qed.

(** Setting a key of a dictionary that lists each key once changes the
    value at that key only. *)
Lemma dict_set_tabulate {V : Type} (f : string -> V) (keys : list string)
    (k : string) (v : V) :
  NoDup keys -> In k keys ->
  dict_set (map (fun u => (u, f u)) keys) k v
  = map (fun u => (u, if String.eqb u k then v else f u)) keys.
Proof.
  induction keys as [|u keys IH]; intros Hnd Hin; [contradiction|].
  inversion Hnd as [|? ? Hu Hnd']; subst. simpl.
  destruct (String.eqb u k) eqn:E.
  - apply String.eqb_eq in E. subst u. f_equal.
    apply map_ext_in. intros a Ha.
    destruct (String.eqb a k) eqn:E'; [|reflexivity].
    apply String.eqb_eq in E'. now subst.
  - f_equal. apply IH; [exact Hnd'|].
    destruct Hin as [H|H]; [|exact H].
    apply String.eqb_neq in E. congruence.
Qed.

Lemma packages_at_snoc (u : string) (entries : list entry) (e : entry) :
  packages_at u (entries ++ [e])
  = (packages_at u entries
     ++ (if String.eqb (location e) u then [fst e] else []))%list.
Proof.
  unfold packages_at. rewrite filter_app, map_app. simpl.
  now destruct (String.eqb (location e) u).
Qed.

Lemma packages_at_unseen (u : string) (entries : list entry) :
  ~ In u (map location entries) -> packages_at u entries = [].
Proof.
  unfold packages_at. induction entries as [|e entries IH]; intros H;
    [reflexivity|].
  simpl in *. destruct (String.eqb (location e) u) eqn:E.
  - apply String.eqb_eq in E. tauto.
  - apply IH. tauto.
Qed.

Lemma content_at_snoc_seen (u : string) (entries : list entry) (e : entry) :
  In u (map location entries) ->
  content_at u (entries ++ [e]) = content_at u entries.
Proof.
  unfold content_at. rewrite find_snoc. intros H.
  destruct (List.find _ entries) eqn:E; [reflexivity|].
  exfalso. apply in_map_iff in H as (e' & He' & Hin).
  apply (find_none _ _ E) in Hin. rewrite He', String.eqb_refl in Hin.
  discriminate.
Qed.

Lemma content_at_snoc_unseen (entries : list entry) (e : entry) :
  ~ In (location e) (map location entries) ->
  content_at (location e) (entries ++ [e]) = snd (snd e).
Proof.
  unfold content_at. rewrite find_snoc. intros H.
  destruct (List.find _ entries) as [e'|] eqn:E.
  - exfalso. apply find_some in E as [Hin E]. apply String.eqb_eq in E.
    apply H. rewrite <- E. now apply in_map.
  - now rewrite String.eqb_refl.
Qed.

(** The two dictionaries after the loop over the packages are the groups
    of the specification: one item per distinct location, in first-seen
    order, with the packages and the content of that location. *)
Lemma group_step_all (entries : list entry) :
  fold_left group_step entries ([], [])
  = (map (fun u => (u, packages_at u entries)) (locations entries),
     map (fun u => (u, content_at u entries)) (locations entries)).
Proof.
  induction entries as [|e entries IH] using rev_ind; [reflexivity|].
  rewrite fold_left_app, IH. simpl. unfold group_step. simpl fst. simpl snd.
  unfold locations. rewrite map_app. simpl map.
  destruct (in_dec string_dec (location e) (map location entries))
    as [Hin|Hin];
    [rewrite first_seen_snoc_seen by exact Hin
    |rewrite first_seen_snoc_unseen by exact Hin];
    fold (locations entries).
  - assert (Hin' : In (location e) (locations entries))
      by now apply first_seen_in.
    rewrite (dict_get_tabulate _ _ _ Hin').
    rewrite dict_set_tabulate by (exact Hin' || apply first_seen_nodup).
    f_equal.
    + apply map_ext. intros u. rewrite packages_at_snoc.
      rewrite (String.eqb_sym (location e) u).
      destruct (String.eqb u (location e)) eqn:E.
      * apply String.eqb_eq in E. now subst.
      * now rewrite app_nil_r.
    + apply map_ext_in. intros u Hu.
      rewrite content_at_snoc_seen; [reflexivity|].
      now apply first_seen_in.
  - assert (Hin' : ~ In (location e) (locations entries))
      by (intros H; apply Hin; now apply first_seen_in).
    rewrite dict_get_none by now rewrite dict_keys_tabulate.
    rewrite !dict_set_fresh by now rewrite dict_keys_tabulate.
    rewrite !map_app. simpl.
    rewrite packages_at_snoc, String.eqb_refl, packages_at_unseen by exact Hin.
    rewrite content_at_snoc_unseen by exact Hin.
    f_equal; f_equal.
    + apply map_ext_in. intros u Hu. rewrite packages_at_snoc.
      destruct (String.eqb (location e) u) eqn:E.
      * apply String.eqb_eq in E. subst u. contradiction.
      * now rewrite app_nil_r.
    + apply map_ext_in. intros u Hu.
      rewrite content_at_snoc_seen; [reflexivity|].
      now apply first_seen_in.
Qed.

(** Adding one package to the group of one location adds it once to the
    packages of all groups together. *)
Lemma concat_groups_insert (f : string -> list string) (u p : string)
    (keys : list string) :
  NoDup keys -> In u keys ->
  Permutation
    (concat (map (fun k => (f k ++ (if String.eqb u k then [p] else []))%list)
               keys))
    (p :: concat (map f keys)).
Proof.
  induction keys as [|k keys IH]; intros Hnd Hin; [contradiction|].
  inversion Hnd as [|? ? Hk Hnd']; subst. cbn [map concat].
  destruct (String.eqb u k) eqn:E.
  - apply String.eqb_eq in E. subst k.
    replace (map (fun k => (f k ++ (if String.eqb u k then [p] else []))%list)
               keys) with (map f keys).
    + rewrite <- app_assoc. simpl. symmetry. apply Permutation_middle.
    + apply map_ext_in. intros a Ha.
      destruct (String.eqb u a) eqn:E'; [|now rewrite app_nil_r].
      apply String.eqb_eq in E'. now subst.
  - rewrite app_nil_r. apply String.eqb_neq in E.
    destruct Hin as [Hin|Hin]; [congruence|].
    rewrite (IH Hnd' Hin). symmetry. apply Permutation_middle.
Qed.

(** The headers of all blocks together list every entry's package once. *)
Lemma packages_at_partition (entries : list entry) :
  Permutation
    (concat (map (fun u => packages_at u entries) (locations entries)))
    (map fst entries).
Proof.
  induction entries as [|e entries IH] using rev_ind; [constructor|].
  unfold locations. rewrite !map_app.
  change (map location [e]) with [location e].
  change (map fst [e]) with [fst e].
  destruct (in_dec string_dec (location e) (map location entries))
    as [Hin|Hin];
    [rewrite first_seen_snoc_seen by exact Hin
    |rewrite first_seen_snoc_unseen by exact Hin];
    fold (locations entries).
  - rewrite (map_ext _ _ (fun u => packages_at_snoc u entries e)).
    rewrite concat_groups_insert
      by (apply first_seen_nodup || now apply first_seen_in).
    rewrite IH. apply Permutation_cons_append.
  - rewrite map_app, concat_app. simpl.
    rewrite packages_at_snoc, String.eqb_refl, packages_at_unseen by exact Hin.
    simpl. apply Permutation_app_tail.
    replace (map (fun u => packages_at u (entries ++ [e])) (locations entries))
      with (map (fun u => packages_at u entries) (locations entries));
      [exact IH|].
    apply map_ext_in. intros u Hu. rewrite packages_at_snoc.
    destruct (String.eqb (location e) u) eqn:E; [|now rewrite app_nil_r].
    apply String.eqb_eq in E. subst u. exfalso. apply Hin.
    now apply first_seen_in.
Qed.

Lemma map_fst_combine {A B : Type} (l : list A) (l' : list B) :
  List.length l = List.length l' -> map fst (combine l l') = l.
Proof.
  revert l'. induction l as [|x l IH]; intros [|y l'] H; try discriminate;
    [reflexivity|].
  simpl. f_equal. apply IH. now injection H.
Qed.

Section Aggregate.

Variable remote : nat -> string -> option response.

(** The loop over the packages, once every license has resolved. *)
Lemma package_loop_run (packages : list string)
    (package_name_to_pom : dict string) :
  forall license_url_to_package license_url_to_content st licenses st1,
    resolve_all remote packages package_name_to_pom st
    = (Ret licenses, st1) ->
    package_loop remote packages package_name_to_pom
      license_url_to_package license_url_to_content st
    = (Ret (fold_left group_step (combine packages licenses)
              (license_url_to_package, license_url_to_content)), st1).
Proof.
  induction packages as [|package packages IH];
    intros P C st licenses st1 H.
  - injection H as <- <-. reflexivity.
  - cbn [resolve_all package_loop] in *. unfold bind, dict_getitem in *.
    destruct (dict_get package_name_to_pom package) as [pom|];
      [|discriminate].
    unfold ret at 1 in H. unfold ret at 1. cbv beta iota in *.
    destruct (get_license_from_pom remote pom st)
      as [[[license_url license_content]|code|e] st']; try discriminate.
    destruct (resolve_all remote packages package_name_to_pom st')
      as [[lics|code|e] st''] eqn:Hrest; try discriminate.
    injection H as <- <-.
    simpl combine. cbn [fold_left]. unfold group_step at 2.
    unfold location, dict_in. simpl fst. simpl snd.
    destruct (dict_get P license_url) as [l|].
    + unfold ret at 1. cbv beta iota. now apply IH.
    + now apply IH.
Qed.

(** Every package gets one license. *)
Lemma resolve_all_length (packages : list string)
    (package_name_to_pom : dict string) :
  forall st licenses st1,
    resolve_all remote packages package_name_to_pom st = (Ret licenses, st1) ->
    List.length packages = List.length licenses.
Proof.
  induction packages as [|package packages IH]; intros st licenses st1 H.
  - now injection H as <- <-.
  - cbn [resolve_all] in H. unfold bind, dict_getitem in H.
    destruct (dict_get package_name_to_pom package) as [pom|];
      [|discriminate].
    unfold ret at 1 in H. cbv beta iota in H.
    destruct (get_license_from_pom remote pom st)
      as [[lic|code|e] st']; try discriminate.
    destruct (resolve_all remote packages package_name_to_pom st')
      as [[lics|code|e] st''] eqn:Hrest; try discriminate.
    injection H as <- <-. simpl. f_equal. exact (IH _ _ _ Hrest).
Qed.

End Aggregate.

Lemma concat_all_cons (x : string) (l : list string) :
  concat_all (x :: l) = x ++ concat_all l.
Proof. reflexivity. Qed.

(** The loop over the license locations appends one block per location. *)
Lemma notices_loop_run (packages_of : string -> list string)
    (content_of : string -> string) (license_urls : list string)
    (license_url_to_package : dict (list string))
    (license_url_to_content : dict string) :
  (forall u, In u license_urls ->
             dict_get license_url_to_package u = Some (packages_of u)
             /\ dict_get license_url_to_content u = Some (content_of u)) ->
  forall third_party_notices_content st,
    notices_loop license_urls license_url_to_package license_url_to_content
      third_party_notices_content st
    = (Ret (third_party_notices_content
            ++ concat_all
                 (map (fun u => block (packages_of u) (content_of u))
                    license_urls)), st).
Proof.
  induction license_urls as [|u license_urls IH]; intros H acc st.
  - simpl. now rewrite append_nil_r.
  - cbn [notices_loop]. unfold bind, dict_getitem.
    destruct (H u (or_introl eq_refl)) as [-> ->].
    unfold ret at 1 2. cbv beta iota.
    rewrite IH by (intros u' Hu'; apply H; now right).
    cbn [map]. rewrite concat_all_cons. unfold block.
    now rewrite !append_assoc.
Qed.

(** C2.  Once the license of every package has resolved, [main_aggregate]
    returns the notices of the specification for the packages paired with
    their licenses: one block per distinct license location, the blocks in
    the order in which the locations are first seen; the header of a block is
    [License for package(s): ] and the Python list form of the packages
    resolved to its location, in list order; then come a blank line, the
    content first resolved at the location, and [SPACER].  No location has
    two blocks, every resolved location has one, and the headers of all
    blocks together list every element of the package list exactly once. *)
Theorem main_aggregate_groups
    (remote : nat -> string -> option response)
    (artifact_list_from_github : list string)
    (package_name_to_pom : dict string)
    (licenses : list (string * string)) (st st1 : state) :
  resolve_all remote artifact_list_from_github package_name_to_pom st
  = (Ret licenses, st1) ->
  let entries := combine artifact_list_from_github licenses in
  main_aggregate remote artifact_list_from_github package_name_to_pom st
  = (Ret (notices entries), st1)
  /\ notices entries
     = concat_all
         (map (fun u =>
                 "License for package(s): "
                 ++ str_list (packages_at u entries) ++ (nl ++ nl)
                 ++ content_at u entries ++ SPACER)
            (locations entries))
  /\ NoDup (locations entries)
  /\ (forall e, In e entries -> In (location e) (locations entries))
  /\ Permutation
       (concat (map (fun u => packages_at u entries) (locations entries)))
       artifact_list_from_github.
Proof.
  intros H entries. split; [|split; [|split; [|split]]].
  - unfold main_aggregate. unfold bind at 1.
    rewrite (package_loop_run remote _ _ [] [] st licenses st1 H).
    fold entries. rewrite group_step_all.
    rewrite dict_keys_tabulate.
    rewrite (notices_loop_run (fun u => packages_at u entries)
               (fun u => content_at u entries)).
    + reflexivity.
    + intros u Hu. split.
      * now apply (dict_get_tabulate (fun u => packages_at u entries)).
      * now apply (dict_get_tabulate (fun u => content_at u entries)).
  - reflexivity.
  - apply first_seen_nodup.
  - intros e He. apply first_seen_in. now apply in_map.
  - rewrite packages_at_partition. unfold entries.
    rewrite map_fst_combine; [reflexivity|].
    exact (resolve_all_length remote _ _ _ _ _ H).
Qed.

Lemma main_aggregate_groups_witness :
  main_aggregate example_remote ["g1:a1"; "com.example:lib"; "g1:a2"]
    [("g1:a1", "https://github.com/org/repo/blob/main/pom.xml");
     ("com.example:lib", "https://github.com/org/lib/blob/master/build.gradle");
     ("g1:a2", "https://github.com/org/repo/blob/main/sub/build.gradle")]
    example_state
  = (Ret ("License for package(s): ['g1:a1', 'g1:a2']" ++ nl ++ nl
          ++ "MIT" ++ SPACER
          ++ "License for package(s): ['com.example:lib']" ++ nl ++ nl
          ++ "GPL" ++ SPACER),
     requested "https://raw.githubusercontent.com/org/repo/main/LICENSE"
       (requested "https://raw.githubusercontent.com/org/lib/master/COPYING"
          (requested "https://raw.githubusercontent.com/org/lib/master/LICENSE"
             (requested "https://raw.githubusercontent.com/org/repo/main/LICENSE"
                example_state)))).
Proof.
  exact (proj1 (main_aggregate_groups example_remote
                  ["g1:a1"; "com.example:lib"; "g1:a2"]
                  [("g1:a1", "https://github.com/org/repo/blob/main/pom.xml");
                   ("com.example:lib",
                    "https://github.com/org/lib/blob/master/build.gradle");
                   ("g1:a2",
                    "https://github.com/org/repo/blob/main/sub/build.gradle")]
                  [("https://github.com/org/repo/blob/main/LICENSE", "MIT");
                   ("https://github.com/org/lib/blob/master/COPYING", "GPL");
                   ("https://github.com/org/repo/blob/main/LICENSE", "MIT")]
                  example_state _ eq_refl)).
Defined.

(* ================================================================= *)
(** ** The rewritten URL *)

Lemma contains_upto_cons (d : ascii) (p z y : string) :
  has_char d p = false ->
  contains (p ++ chr d) (z ++ String d y)
  = contains (p ++ chr d) (z ++ chr d) || contains (p ++ chr d) y.
Proof.
  intros Hp. rewrite <- (contains_upto d p z y Hp).
  now rewrite append_assoc.
Qed.

(** Where a marker can occur in a rewritten location of the usual form. *)
Lemma contains_marker_form (m org repo tail : string) :
  m = "master/" \/ m = "main/" ->
  contains m (RAW_FILE_PREFIX ++ org ++ "/" ++ repo ++ "/blob/" ++ tail)
  = contains m (org ++ "/") || contains m (repo ++ "/") || contains m tail.
Proof.
  intros Hm.
  assert (Hform : exists p, m = p ++ chr "/" /\ has_char "/" p = false
                            /\ contains m RAW_FILE_PREFIX = false
                            /\ contains m "blob/" = false).
  { destruct Hm as [-> | ->]; [exists "master" | exists "main"];
      repeat split; reflexivity. }
  destruct Hform as (p & -> & Hp & HR & Hb).
  change (RAW_FILE_PREFIX ++ org ++ "/" ++ repo ++ "/blob/" ++ tail)
    with ("https://raw.githubusercontent.com"
          ++ String "/" (org ++ String "/" (repo ++ String "/"
               ("blob" ++ String "/" tail)))).
  match goal with |- _ = ?r => set (rhs := r) end.
  rewrite !(contains_upto_cons "/" p) by exact Hp.
  change ("https://raw.githubusercontent.com" ++ chr "/")
    with RAW_FILE_PREFIX.
  change ("blob" ++ chr "/") with "blob/".
  rewrite HR, Hb. subst rhs. simpl orb. now rewrite orb_assoc.
Qed.

(** The URL built when the first occurrence of the chosen marker [p/] in
    the rewritten location is the one after [x]. *)
Lemma raw_file_url_first (url x y p : string) :
  replace url GITHUB_PREFIX RAW_FILE_PREFIX = x ++ (p ++ chr "/") ++ y ->
  chosen_marker (replace url GITHUB_PREFIX RAW_FILE_PREFIX)
  = Some (p ++ chr "/") ->
  contains (p ++ chr "/") (x ++ p) = false ->
  raw_file_url url
  = Some (drop_last 5 x ++ (p ++ chr "/")
          ++ fst (split_from 0 y (p ++ chr "/"))).
Proof.
  intros Hw Hm Hfirst. unfold raw_file_url. rewrite Hm. unfold split.
  now rewrite Hw, (split_from_first p "/" x y Hfirst).
Qed.

Lemma chosen_marker_cases (w br : string) :
  chosen_marker w = Some br ->
  (br = "master" ++ chr "/" \/ br = "main" ++ chr "/").
Proof.
  unfold chosen_marker. intros H.
  destruct (contains "master/" w); [injection H as <-; now left|].
  destruct (contains "main/" w); [injection H as <-; now right|].
  discriminate.
Qed.

(** What [get_file_from_github] requests.  For a location
    [https://github.com/<org>/<repo>/blob/<marker><rest>] in which [master/]
    occurs neither in [<org>/], nor in [<repo>/], nor in [<rest>] (and, when
    the marker is [main/], [main/] does not either) and in which
    [https://github.com/] does not occur again, the one request goes to
    [https://raw.githubusercontent.com/<org>/<repo>/<marker><rest>].  For
    any location at all: when the marker chosen in the rewritten location
    first occurs after the text [x], the one request goes to [x] without its
    last five characters (without all of them when there are fewer),
    whatever they are, then the marker, then the text after it up to the
    marker's next occurrence: [split(br)] of line 38 cuts at every
    occurrence and line 39 keeps the pieces 0 and 1 only, so what follows a
    second occurrence is lost. *)
Theorem get_file_from_github_rewrite
    (remote : nat -> string -> option response) (st : state) :
  (forall org repo marker rest,
     marker = "master/" \/ marker = "main/" ->
     marker_free "master/" org repo rest = true ->
     (marker = "main/" -> marker_free "main/" org repo rest = true) ->
     contains GITHUB_PREFIX (org ++ "/" ++ repo ++ "/blob/" ++ marker ++ rest)
     = false ->
     let u := RAW_FILE_PREFIX ++ org ++ "/" ++ repo ++ "/" ++ marker ++ rest in
     get_file_from_github remote
       (GITHUB_PREFIX ++ org ++ "/" ++ repo ++ "/blob/" ++ marker ++ rest) st
     = (fetched (remote (List.length (requests st)) u), requested u st))
  /\ (forall url x y br,
        replace url GITHUB_PREFIX RAW_FILE_PREFIX = x ++ br ++ y ->
        chosen_marker (replace url GITHUB_PREFIX RAW_FILE_PREFIX) = Some br ->
        contains br (x ++ drop_last 1 br) = false ->
        let u := drop_last 5 x ++ br ++ fst (split_from 0 y br) in
        get_file_from_github remote url st
        = (fetched (remote (List.length (requests st)) u), requested u st)).
Proof.
  assert (General : forall url x y br,
            replace url GITHUB_PREFIX RAW_FILE_PREFIX = x ++ br ++ y ->
            chosen_marker (replace url GITHUB_PREFIX RAW_FILE_PREFIX)
            = Some br ->
            contains br (x ++ drop_last 1 br) = false ->
            raw_file_url url
            = Some (drop_last 5 x ++ br ++ fst (split_from 0 y br))).
  { intros url x y br Hw Hm Hfirst.
    destruct (chosen_marker_cases _ _ Hm) as [-> | ->];
      now apply raw_file_url_first. }
  split.
  - intros org repo marker rest Hmarker Hmaster Hmain Hprefix u.
    rewrite get_file_from_github_run.
    set (tail := org ++ "/" ++ repo ++ "/blob/" ++ marker ++ rest) in *.
    assert (Hw : replace (GITHUB_PREFIX ++ tail) GITHUB_PREFIX RAW_FILE_PREFIX
                 = (RAW_FILE_PREFIX ++ org ++ "/" ++ repo ++ "/blob/")
                   ++ marker ++ rest).
    { rewrite replace_occurrence by discriminate.
      rewrite (replace_none _ _ _ Hprefix). unfold tail.
      now rewrite !append_assoc. }
    unfold marker_free in Hmaster.
    apply andb_true_iff in Hmaster as [Hmaster Hm3].
    apply andb_true_iff in Hmaster as [Hm1 Hm2].
    apply negb_true_iff in Hm1, Hm2, Hm3.
    assert (Hchosen : chosen_marker
                        (replace (GITHUB_PREFIX ++ tail) GITHUB_PREFIX
                           RAW_FILE_PREFIX) = Some marker).
    { rewrite Hw, !append_assoc. unfold chosen_marker.
      rewrite !contains_marker_form by tauto. rewrite Hm1, Hm2.
      destruct Hmarker as [-> | ->].
      - now rewrite contains_prefix.
      - specialize (Hmain eq_refl). unfold marker_free in Hmain.
        apply andb_true_iff in Hmain as [Hmain Hn3].
        apply andb_true_iff in Hmain as [Hn1 Hn2].
        apply negb_true_iff in Hn1, Hn2, Hn3.
        change ("main/" ++ rest) with ("main" ++ String "/" rest).
        rewrite (contains_upto_cons "/" "master") by reflexivity.
        change ("master" ++ chr "/") with "master/".
        rewrite Hm3.
        change (contains "master/" ("main" ++ chr "/")) with false.
        cbn [orb].
        change ("main" ++ String "/" rest) with ("main/" ++ rest).
        now rewrite contains_prefix, orb_true_r. }
    assert (Hfirst : contains marker
                       ((RAW_FILE_PREFIX ++ org ++ "/" ++ repo ++ "/blob/")
                        ++ drop_last 1 marker) = false).
    { rewrite !append_assoc, contains_marker_form by exact Hmarker.
      destruct Hmarker as [-> | ->].
      - now rewrite Hm1, Hm2.
      - specialize (Hmain eq_refl). unfold marker_free in Hmain.
        apply andb_true_iff in Hmain as [Hmain Hn3].
        apply andb_true_iff in Hmain as [Hn1 Hn2].
        apply negb_true_iff in Hn1, Hn2.
        now rewrite Hn1, Hn2. }
    rewrite (General _ _ _ _ Hw Hchosen Hfirst).
    assert (Hrest : contains marker rest = false).
    { destruct Hmarker as [-> | ->]; [exact Hm3|].
      specialize (Hmain eq_refl). unfold marker_free in Hmain.
      apply andb_true_iff in Hmain as [_ Hn3]. now apply negb_true_iff. }
    rewrite (split_from_none _ _ Hrest). simpl fst.
    replace (RAW_FILE_PREFIX ++ org ++ "/" ++ repo ++ "/blob/")
      with ((RAW_FILE_PREFIX ++ org ++ "/" ++ repo ++ "/") ++ "blob/")
      by now rewrite !append_assoc.
    rewrite drop_last_app by reflexivity.
    unfold u. now rewrite !append_assoc.
  - intros url x y br Hw Hm Hfirst u.
    now rewrite get_file_from_github_run, (General _ _ _ _ Hw Hm Hfirst).
Qed.

Lemma get_file_from_github_rewrite_witness :
  get_file_from_github example_remote
    (GITHUB_PREFIX ++ "org" ++ "/" ++ "repo" ++ "/blob/" ++ "main/" ++ "LICENSE")
    example_state
  = (Ret (Some "MIT"),
     requested "https://raw.githubusercontent.com/org/repo/main/LICENSE"
       example_state)
  /\ get_file_from_github example_remote
       "https://github.com/org/repo/blob/main/main/LICENSE" example_state
     = (Ret None,
        requested "https://raw.githubusercontent.com/org/repo/main/"
          example_state).
Proof.
  split.
  - refine (proj1 (get_file_from_github_rewrite example_remote example_state)
              "org" "repo" "main/" "LICENSE" (or_intror eq_refl) eq_refl
              (fun _ => eq_refl) eq_refl).
  - refine (proj2 (get_file_from_github_rewrite example_remote example_state)
              "https://github.com/org/repo/blob/main/main/LICENSE"
              "https://raw.githubusercontent.com/org/repo/blob/" "main/LICENSE"
              "main/" eq_refl eq_refl eq_refl).
Defined.

(** The location [https://github.com/org/repo/blob/main/main/LICENSE]
    (marker [main/], rest [main/LICENSE]) is requested as
    [https://raw.githubusercontent.com/org/repo/main/], not as
    [https://raw.githubusercontent.com/org/repo/main/main/LICENSE].  And on
    [s://main/x], where only four characters precede the marker, those four
    are deleted. *)
Example get_file_from_github_rewrite_short_or_repeated :
  requests (snd (get_file_from_github example_remote
                   (GITHUB_PREFIX ++ "org" ++ "/" ++ "repo" ++ "/blob/"
                    ++ "main/" ++ "main/LICENSE") example_state))
  = ["https://raw.githubusercontent.com/org/repo/main/"]
  /\ requests (snd (get_file_from_github example_remote
                      (GITHUB_PREFIX ++ "org" ++ "/" ++ "repo" ++ "/blob/"
                       ++ "main/" ++ "main/LICENSE") example_state))
     <> [RAW_FILE_PREFIX ++ "org" ++ "/" ++ "repo" ++ "/"
         ++ "main/" ++ "main/LICENSE"]
  /\ requests (snd (get_file_from_github example_remote "s://main/x"
                      example_state))
     = ["main/x"].
Proof.
  split; [reflexivity | split; [discriminate | reflexivity]].
Qed.

(** C10.  The rewrite loses what follows a second occurrence of the marker.
    The descriptor [https://github.com/org/repo/blob/main/src/main/pom.xml]
    has the form [https://github.com/<org>/<repo>/blob/<marker><rest>] with
    the marker [main/] and the rest [src/main/pom.xml], and the file is there
    at [https://raw.githubusercontent.com/org/repo/main/src/main/pom.xml];
    the one request goes to
    [https://raw.githubusercontent.com/org/repo/main/src/], the fetch yields
    nothing, and [get_pom_artifact_name] reports an error and exits with
    status 1. *)
Theorem get_file_from_github_marker_twice :
  example_nested_remote 0
    (RAW_FILE_PREFIX ++ "org" ++ "/" ++ "repo" ++ "/" ++ "main/"
     ++ "src/main/pom.xml")
  = ok example_pom
  /\ get_file_from_github example_nested_remote
       (GITHUB_PREFIX ++ "org" ++ "/" ++ "repo" ++ "/blob/" ++ "main/"
        ++ "src/main/pom.xml") example_state
     = (Ret None,
        requested "https://raw.githubusercontent.com/org/repo/main/src/"
          example_state)
  /\ requests (snd (get_file_from_github example_nested_remote
                      "https://github.com/org/repo/blob/main/src/main/pom.xml"
                      example_state))
     <> ["https://raw.githubusercontent.com/org/repo/main/src/main/pom.xml"]
  /\ get_pom_artifact_name example_nested_remote example_fromstring
       "https://github.com/org/repo/blob/main/src/main/pom.xml" example_state
     = (Exit 1,
        State ["https://raw.githubusercontent.com/org/repo/main/src/"]
          ["Github Returned Error status when reading : https://github.com/org/repo/blob/main/src/main/pom.xml"]
          (files example_state)).
Proof.
  split; [reflexivity | split; [reflexivity | split; [discriminate|]]].
  reflexivity.
Qed.

(* ================================================================= *)
(** ** A whole run *)

(** The declared list [g1:a1:1.0] with the POM of [org/repo]: with
    [--update] the run writes one block and exits with status 0; a run
    without [--update] on the written file exits with status 0 too, and on a
    missing file it raises. *)
Example main_update_then_check :
  fst (main example_remote example_fromstring "maven_artifacts.bzl"
         "THIRD_PARTY_NOTICES" true ["g1:a1:1.0"]
         ["https://github.com/org/repo/blob/main/pom.xml"] example_state)
  = Exit 0
  /\ files (snd (main example_remote example_fromstring "maven_artifacts.bzl"
                   "THIRD_PARTY_NOTICES" true ["g1:a1:1.0"]
                   ["https://github.com/org/repo/blob/main/pom.xml"]
                   example_state)) "THIRD_PARTY_NOTICES"
     = Some ("License for package(s): ['g1:a1']" ++ nl ++ nl ++ "MIT" ++ SPACER)
  /\ fst (main example_remote example_fromstring "maven_artifacts.bzl"
            "THIRD_PARTY_NOTICES" false ["g1:a1:1.0"]
            ["https://github.com/org/repo/blob/main/pom.xml"]
            (snd (main example_remote example_fromstring "maven_artifacts.bzl"
                    "THIRD_PARTY_NOTICES" true ["g1:a1:1.0"]
                    ["https://github.com/org/repo/blob/main/pom.xml"]
                    example_state)))
     = Exit 0
  /\ fst (main example_remote example_fromstring "maven_artifacts.bzl"
            "THIRD_PARTY_NOTICES" false ["g1:a1:1.0"]
            ["https://github.com/org/repo/blob/main/pom.xml"] example_state)
     = Raise FileNotFoundError.
Proof. repeat split; reflexivity. Qed.

(* ================================================================= *)
(** ** More on [get_grad_rval] *)

Lemma split_ws_from_blank (s : string) :
  all_space s = true -> split_ws_from "" s = [].
Proof.
  induction s as [|c s IH]; intros H; [reflexivity|].
  simpl in H. apply andb_true_iff in H as [Hc Hs].
  cbn [split_ws_from]. rewrite Hc. now apply IH.
Qed.

(** [get_grad_rval] on any line. *)
Lemma get_grad_rval_cases (line : string) (st : state) :
  get_grad_rval line st
  = if all_space line then (Raise IndexError, st)
    else (Ret (strip SQUOTE (last_token line)), st).
Proof.
  unfold get_grad_rval, last_token, bind, list_last.
  destruct (all_space line) eqn:E.
  - unfold split_ws. now rewrite split_ws_from_blank.
  - destruct (split_ws line) as [|x l] eqn:Es.
    + apply split_ws_from_nil in Es as [_ Es]. congruence.
    + now rewrite last_cons.
Qed.

(** X1.  [get_grad_rval] raises [IndexError] exactly on the lines that hold
    nothing but whitespace (the empty line among them); on every other line
    it returns the last token without its single quotes.  It prints nothing
    and requests nothing. *)
Theorem get_grad_rval_blank (line : string) (st : state) :
  get_grad_rval line st
  = if all_space line then (Raise IndexError, st)
    else (Ret (strip SQUOTE (last_token line)), st).
Proof. apply get_grad_rval_cases. Qed.

Lemma has_space_app (a b : string) :
  has_space (a ++ b) = has_space a || has_space b.
Proof.
  induction a as [|c a IH]; simpl; [reflexivity|].
  now rewrite IH, orb_assoc.
Qed.

(** The tokens of [str.split()] hold no whitespace. *)
Lemma split_ws_from_tokens (s : string) :
  forall cur,
    has_space cur = false ->
    Forall (fun t => has_space t = false) (split_ws_from cur s).
Proof.
  induction s as [|c s IH]; intros cur Hcur; cbn [split_ws_from].
  - destruct cur; constructor; [exact Hcur | constructor].
  - destruct (isspace c) eqn:Ec.
    + destruct cur; [now apply IH|].
      constructor; [exact Hcur | now apply IH].
    + apply IH. rewrite has_space_app. simpl. now rewrite Hcur, Ec.
Qed.

Lemma last_in {A : Type} (x : A) (l : list A) : In (List.last l x) (x :: l).
Proof.
  revert x. induction l as [|y l IH]; intros x; [now left|].
  right. rewrite last_cons. apply IH.
Qed.

Lemma has_space_lstrip (c : ascii) (s : string) :
  has_space s = false -> has_space (lstrip c s) = false.
Proof.
  induction s as [|a s IH]; intros H; [reflexivity|].
  cbn [has_space] in H. apply orb_false_iff in H as [Ha Hs].
  cbn [lstrip]. destruct (Ascii.eqb a c); [now apply IH|].
  cbn [has_space]. now rewrite Ha, Hs.
Qed.

Lemma has_space_rstrip (c : ascii) (s : string) :
  has_space s = false -> has_space (rstrip c s) = false.
Proof.
  induction s as [|a s IH]; intros H; [reflexivity|].
  cbn [has_space] in H. apply orb_false_iff in H as [Ha Hs].
  specialize (IH Hs).
  cbn [rstrip]. destruct (rstrip c s) as [|b r].
  - destruct (Ascii.eqb a c); [reflexivity|]. simpl. now rewrite Ha.
  - change (has_space (String a (String b r)))
      with (isspace a || has_space (String b r)).
    now rewrite Ha, IH.
Qed.

Lemma lstrip_head (c : ascii) (s : string) :
  startswith (lstrip c s) (chr c) = false.
Proof.
  induction s as [|a s IH]; [reflexivity|].
  simpl. destruct (Ascii.eqb a c) eqn:E; [exact IH|].
  simpl. rewrite Ascii.eqb_sym. now rewrite E.
Qed.

Lemma rstrip_head (c : ascii) (s : string) :
  startswith s (chr c) = false -> startswith (rstrip c s) (chr c) = false.
Proof.
  destruct s as [|a s]; intros H; [reflexivity|].
  cbn [rstrip]. simpl in H. rewrite startswith_nil, andb_true_r in H.
  destruct (rstrip c s).
  - rewrite Ascii.eqb_sym, H. simpl. now rewrite H.
  - simpl. now rewrite H.
Qed.

Lemma rstrip_last (c : ascii) (s : string) :
  endswith (rstrip c s) (chr c) = false.
Proof.
  induction s as [|a s IH]; [reflexivity|].
  cbn [rstrip]. destruct (rstrip c s) as [|b r].
  - destruct (Ascii.eqb a c) eqn:E; [reflexivity|].
    simpl. rewrite E. reflexivity.
  - change (endswith (String a (String b r)) (chr c))
      with (String.eqb (String a (String b r)) (chr c)
            || endswith (String b r) (chr c)).
    rewrite IH.
    replace (String.eqb (String a (String b r)) (chr c)) with false;
      [reflexivity|].
    symmetry. apply String.eqb_neq. discriminate.
Qed.

(** X2.  Whatever the line, a value [get_grad_rval] returns holds no
    whitespace, does not start with a single quote and does not end with
    one. *)
Theorem get_grad_rval_value (line value : string) (st st' : state) :
  get_grad_rval line st = (Ret value, st') ->
  has_space value = false
  /\ startswith value "'" = false
  /\ endswith value "'" = false.
Proof.
  rewrite get_grad_rval_cases. destruct (all_space line); [discriminate|].
  intros H. injection H as <- _. unfold strip. split; [|split].
  - apply has_space_rstrip, has_space_lstrip.
    unfold last_token.
    pose proof (split_ws_from_tokens line "" eq_refl) as Htok.
    fold (split_ws line) in Htok.
    destruct (split_ws line) as [|x l]; [reflexivity|].
    rewrite last_cons. rewrite Forall_forall in Htok.
    apply Htok, last_in.
  - apply (rstrip_head SQUOTE), lstrip_head.
  - apply (rstrip_last SQUOTE).
Qed.

Lemma get_grad_rval_value_witness :
  has_space "com.example" = false
  /\ startswith "com.example" "'" = false
  /\ endswith "com.example" "'" = false.
Proof.
  apply (get_grad_rval_value "  groupId = 'com.example'" "com.example"
           example_state example_state).
  reflexivity.
Defined.

Lemma split_ws_from_token (t : string) :
  forall cur,
    has_space t = false -> cur ++ t <> "" ->
    split_ws_from cur t = [cur ++ t].
Proof.
  induction t as [|c t IH]; intros cur Ht Hne.
  - rewrite append_nil_r in *. simpl. destruct cur; [congruence | reflexivity].
  - cbn [has_space] in Ht. apply orb_false_iff in Ht as [Hc Ht].
    cbn [split_ws_from]. rewrite Hc. rewrite IH.
    + now rewrite append_assoc.
    + exact Ht.
    + rewrite append_assoc. apply append_cons_nonempty.
Qed.

(** The last token of a line that ends in whitespace and a token. *)
Lemma split_ws_from_last (sp : ascii) (t : string) :
  isspace sp = true -> has_space t = false -> t <> "" ->
  forall s cur d, List.last (split_ws_from cur (s ++ String sp t)) d = t.
Proof.
  intros Hsp Ht Hne. induction s as [|c s IH]; intros cur d.
  - change ("" ++ String sp t) with (String sp t).
    cbn [split_ws_from]. rewrite Hsp.
    rewrite (split_ws_from_token t "" Ht Hne).
    now destruct cur.
  - change (String c s ++ String sp t) with (String c (s ++ String sp t)).
    cbn [split_ws_from]. destruct (isspace c).
    + destruct cur; [apply IH|]. rewrite last_cons. apply IH.
    + apply IH.
Qed.

Lemma rstrip_snoc (c : ascii) (s : string) :
  rstrip c (s ++ chr c) = rstrip c s.
Proof.
  induction s as [|a s IH]; simpl.
  - now rewrite Ascii.eqb_refl.
  - now rewrite IH.
Qed.

Lemma rstrip_clean (c : ascii) (s : string) :
  endswith s (chr c) = false -> rstrip c s = s.
Proof.
  induction s as [|a s IH]; intros H; [reflexivity|].
  cbn [endswith] in H. apply orb_false_iff in H as [H1 H2].
  cbn [rstrip]. rewrite (IH H2). destruct s as [|b s]; [|reflexivity].
  destruct (Ascii.eqb a c) eqn:E; [|reflexivity].
  apply Ascii.eqb_eq in E. subst a. unfold chr in H1.
  now rewrite String.eqb_refl in H1.
Qed.

(** X3.  A line that ends in whitespace and a value in single quotes gives
    that value back, whatever stands before: the value must be non-empty,
    hold no whitespace, and neither start nor end with a single quote. *)
Theorem get_grad_rval_quoted (key value : string) (st : state) :
  value <> "" ->
  has_space value = false ->
  startswith value "'" = false ->
  endswith value "'" = false ->
  get_grad_rval (key ++ " '" ++ value ++ "'") st = (Ret value, st).
Proof.
  intros Hne Hsp Hhead Hlast.
  assert (Htok : has_space ("'" ++ value ++ "'") = false).
  { simpl. rewrite has_space_app, Hsp. reflexivity. }
  assert (Hline : all_space (key ++ " '" ++ value ++ "'") = false).
  { clear - key. induction key as [|c key IH]; [reflexivity|].
    simpl. rewrite andb_false_iff. now right. }
  rewrite get_grad_rval_cases, Hline. unfold last_token, split_ws.
  change (key ++ " '" ++ value ++ "'")
    with (key ++ String " " ("'" ++ value ++ "'")).
  rewrite (split_ws_from_last " " ("'" ++ value ++ "'") eq_refl Htok)
    by discriminate.
  unfold strip. change ("'" ++ value ++ "'") with (String "'" (value ++ "'")).
  cbn [lstrip]. change (Ascii.eqb "'" SQUOTE) with true. cbv iota.
  destruct value as [|a v]; [congruence|].
  cbn [startswith] in Hhead. rewrite startswith_nil, andb_true_r in Hhead.
  change (String a v ++ "'") with (String a (v ++ "'")).
  cbn [lstrip]. rewrite Ascii.eqb_sym in Hhead.
  change (Ascii.eqb a SQUOTE) with (Ascii.eqb a "'"). rewrite Hhead.
  change (String a (v ++ "'")) with (String a v ++ chr SQUOTE).
  now rewrite rstrip_snoc, (rstrip_clean SQUOTE (String a v) Hlast).
Qed.

Lemma get_grad_rval_quoted_witness :
  get_grad_rval ("  groupId =" ++ " '" ++ "com.example" ++ "'") example_state
  = (Ret "com.example", example_state).
Proof.
  apply get_grad_rval_quoted; [discriminate | reflexivity ..].
Defined.

(* ================================================================= *)
(** ** A descriptor that cannot be fetched *)

(** X4.  The two parsers treat a descriptor that cannot be fetched
    differently.  For a location without a branch marker (no request is
    made) and for one answered with a status other than 200,
    [get_pom_artifact_name] prints its diagnostic and exits with status 1,
    while [get_gradle_artifact_name] ends in an uncaught [AttributeError]
    and prints nothing. *)
Theorem descriptor_unfetched
    (remote : nat -> string -> option response)
    (fromstring : string -> option element) (url : string) (st : state) :
  (contains "master/" url = false -> contains "main/" url = false ->
   get_pom_artifact_name remote fromstring url st
   = (Exit 1,
      printed ("Github Returned Error status when reading :" ++ " " ++ url) st)
   /\ get_gradle_artifact_name remote url st = (Raise AttributeError, st))
  /\ (forall u code body,
        raw_file_url url = Some u ->
        remote (List.length (requests st)) u = Some (Response code body) ->
        code <> 200%Z ->
        get_pom_artifact_name remote fromstring url st
        = (Exit 1,
           printed ("Github Returned Error status when reading :" ++ " " ++ url)
             (requested u st))
        /\ get_gradle_artifact_name remote url st
           = (Raise AttributeError, requested u st)).
Proof.
  split.
  - intros H1 H2.
    unfold get_pom_artifact_name, get_gradle_artifact_name, bind.
    rewrite get_file_from_github_run, (raw_file_url_no_marker url H1 H2).
    now split.
  - intros u code body Hu Hr Hcode.
    unfold get_pom_artifact_name, get_gradle_artifact_name, bind.
    rewrite get_file_from_github_run, Hu, Hr. unfold fetched. simpl.
    apply Z.eqb_neq in Hcode. rewrite Hcode. now split.
Qed.

Lemma descriptor_unfetched_witness :
  (get_pom_artifact_name example_remote example_fromstring
     "https://github.com/org/repo/blob/develop/pom.xml" example_state
   = (Exit 1,
      printed ("Github Returned Error status when reading :" ++ " "
               ++ "https://github.com/org/repo/blob/develop/pom.xml")
        example_state)
   /\ get_gradle_artifact_name example_remote
        "https://github.com/org/repo/blob/develop/pom.xml" example_state
      = (Raise AttributeError, example_state))
  /\ get_gradle_artifact_name example_remote
       "https://github.com/org/none/blob/main/build.gradle" example_state
     = (Raise AttributeError,
        requested "https://raw.githubusercontent.com/org/none/main/build.gradle"
          example_state).
Proof.
  split.
  - apply (proj1 (descriptor_unfetched example_remote example_fromstring
                    "https://github.com/org/repo/blob/develop/pom.xml"
                    example_state)); reflexivity.
  - refine (proj2 (proj2 (descriptor_unfetched example_remote
                            example_fromstring
                            "https://github.com/org/none/blob/main/build.gradle"
                            example_state) _ 404%Z "404: Not Found"
                     eq_refl eq_refl _)).
    discriminate.
Defined.

(* ================================================================= *)
(** ** More on the hosting root *)

Lemma startswith_rest (s p : string) :
  startswith s p = true -> exists rest, s = p ++ rest.
Proof.
  revert s. induction p as [|a p IH]; intros s H.
  - now exists s.
  - destruct s as [|b s]; [discriminate|].
    simpl in H. apply andb_true_iff in H as [Hab H].
    apply Ascii.eqb_eq in Hab. subst b.
    destruct (IH s H) as [rest ->]. now exists rest.
Qed.

Lemma startswith_longer (a b p : string) :
  startswith a p = true -> startswith (a ++ b) p = true.
Proof.
  revert a. induction p as [|x p IH]; intros a H.
  - apply startswith_nil.
  - destruct a as [|y a]; [discriminate|].
    simpl in *. apply andb_true_iff in H as [Hxy H].
    now rewrite Hxy, (IH a H).
Qed.

(** The first piece of a split is the text before the first occurrence of
    the separator. *)
Lemma split_from_first_piece (sep s : string) :
  sep <> "" ->
  contains sep s = true ->
  exists rest,
    s = fst (split_from 0 s sep) ++ sep ++ rest
    /\ contains sep (fst (split_from 0 s sep)) = false.
Proof.
  intros Hsep. induction s as [|c s IH]; intros H.
  - destruct sep; [congruence | discriminate].
  - cbn [split_from]. rewrite contains_cons in H.
    destruct (startswith (String c s) sep) eqn:E.
    + destruct (startswith_rest _ _ E) as [rest Hrest].
      destruct (split_from (String.length sep - 1) s sep) as [h t].
      exists rest. split; [exact Hrest|].
      simpl. destruct sep; [congruence | reflexivity].
    + simpl in H. destruct (IH H) as (rest & Hs & Hfirst).
      destruct (split_from 0 s sep) as [h t]. simpl fst in *.
      exists rest. split; [simpl; now rewrite <- Hs|].
      rewrite contains_cons, Hfirst, orb_false_r.
      destruct (startswith (String c h) sep) eqn:E'; [|reflexivity].
      apply (startswith_longer _ (sep ++ rest)) in E'.
      simpl in E'. rewrite <- Hs in E'. simpl in E. congruence.
Qed.

(** X5.  A hosting root that [get_github_root_url] returns is a prefix of
    the location, ends with a branch marker, and holds that marker nowhere
    else; the marker is [main/] whenever the location contains [main/], even
    when [master/] comes first in it.  The state is left as it was. *)
Theorem get_github_root_url_prefix (url root : string) (st st' : state) :
  get_github_root_url url st = (Ret root, st') ->
  st' = st
  /\ exists before br rest,
       (br = "master/" \/ br = "main/")
       /\ root = before ++ br
       /\ url = root ++ rest
       /\ contains br before = false
       /\ (contains "main/" url = true -> br = "main/").
Proof.
  rewrite get_github_root_url_run.
  destruct (contains "master/" url || contains "main/" url) eqn:E;
    [|discriminate].
  intros H. injection H as <- <-. split; [reflexivity|].
  unfold github_root. destruct (contains "main/" url) eqn:Emain.
  - destruct (split_from_first_piece "main/" url) as (rest & Hs & Hf);
      [discriminate | exact Emain |].
    exists (fst (split_from 0 url "main/")), "main/", rest.
    repeat split; auto. now rewrite append_assoc.
  - rewrite orb_false_r in E. rewrite E.
    destruct (split_from_first_piece "master/" url) as (rest & Hs & Hf);
      [discriminate | exact E |].
    exists (fst (split_from 0 url "master/")), "master/", rest.
    repeat split; auto; [now rewrite append_assoc | discriminate].
Qed.

Lemma get_github_root_url_prefix_witness :
  example_state = example_state
  /\ exists before br rest,
       (br = "master/" \/ br = "main/")
       /\ "https://github.com/org/repo/blob/master/main/" = before ++ br
       /\ "https://github.com/org/repo/blob/master/main/pom.xml"
          = "https://github.com/org/repo/blob/master/main/" ++ rest
       /\ contains br before = false
       /\ (contains "main/"
             "https://github.com/org/repo/blob/master/main/pom.xml" = true ->
           br = "main/").
Proof.
  apply (get_github_root_url_prefix
           "https://github.com/org/repo/blob/master/main/pom.xml"
           "https://github.com/org/repo/blob/master/main/"
           example_state example_state).
  reflexivity.
Defined.

Lemma marker_free_parts (m org repo rest : string) :
  marker_free m org repo rest = true ->
  contains m (org ++ "/") = false
  /\ contains m (repo ++ "/") = false
  /\ contains m rest = false.
Proof.
  unfold marker_free. intros H.
  apply andb_true_iff in H as [H H3]. apply andb_true_iff in H as [H1 H2].
  now rewrite negb_true_iff in H1, H2, H3.
Qed.

(** Where a marker can occur in a hosted location of the usual form. *)
Lemma contains_marker_hosted (m org repo tail : string) :
  m = "master/" \/ m = "main/" ->
  contains m (GITHUB_PREFIX ++ org ++ "/" ++ repo ++ "/blob/" ++ tail)
  = contains m (org ++ "/") || contains m (repo ++ "/") || contains m tail.
Proof.
  intros Hm.
  assert (Hform : exists p, m = p ++ chr "/" /\ has_char "/" p = false
                            /\ contains m GITHUB_PREFIX = false
                            /\ contains m "blob/" = false).
  { destruct Hm as [-> | ->]; [exists "master" | exists "main"];
      repeat split; reflexivity. }
  destruct Hform as (p & -> & Hp & HG & Hb).
  change (GITHUB_PREFIX ++ org ++ "/" ++ repo ++ "/blob/" ++ tail)
    with ("https://github.com"
          ++ String "/" (org ++ String "/" (repo ++ String "/"
               ("blob" ++ String "/" tail)))).
  match goal with |- _ = ?r => set (rhs := r) end.
  rewrite !(contains_upto_cons "/" p) by exact Hp.
  change ("https://github.com" ++ chr "/") with GITHUB_PREFIX.
  change ("blob" ++ chr "/") with "blob/".
  rewrite HG, Hb. subst rhs. simpl orb. now rewrite orb_assoc.
Qed.

(** The hosting root of a location of the usual form. *)
Lemma github_root_hosted (org repo marker rest : string) (st : state) :
  marker = "master/" \/ marker = "main/" ->
  marker_free "master/" org repo rest = true ->
  marker_free "main/" org repo rest = true ->
  get_github_root_url
    (GITHUB_PREFIX ++ org ++ "/" ++ repo ++ "/blob/" ++ marker ++ rest) st
  = (Ret (GITHUB_PREFIX ++ org ++ "/" ++ repo ++ "/blob/" ++ marker), st).
Proof.
  intros Hmarker Hmaster Hmain.
  apply marker_free_parts in Hmaster as (Hm1 & Hm2 & Hm3).
  apply marker_free_parts in Hmain as (Hn1 & Hn2 & Hn3).
  set (x := GITHUB_PREFIX ++ org ++ "/" ++ repo ++ "/blob/").
  assert (Hx : forall tail,
            GITHUB_PREFIX ++ org ++ "/" ++ repo ++ "/blob/" ++ tail
            = x ++ tail).
  { intros tail. unfold x. now rewrite !append_assoc. }
  rewrite get_github_root_url_run. unfold github_root.
  rewrite !contains_marker_hosted by tauto.
  rewrite Hm1, Hm2, Hn1, Hn2. cbn [orb].
  destruct Hmarker as [-> | ->].
  - rewrite contains_prefix. cbn [orb].
    change ("master/" ++ rest) with ("master" ++ String "/" rest).
    rewrite (contains_upto_cons "/" "main") by reflexivity.
    change ("main" ++ chr "/") with "main/". rewrite Hn3.
    change (contains "main/" ("master" ++ chr "/")) with false. cbn [orb].
    change ("master" ++ String "/" rest) with (("master" ++ chr "/") ++ rest).
    rewrite (Hx (("master" ++ chr "/") ++ rest)).
    change (split_from 0 (x ++ ("master" ++ chr "/") ++ rest) "master/")
      with (split_from 0 (x ++ ("master" ++ chr "/") ++ rest)
              ("master" ++ chr "/")).
    rewrite (split_from_first "master" "/" x rest).
    + simpl fst. now rewrite (Hx "master/").
    + rewrite <- Hx, contains_marker_hosted by now left.
      change ("master" ++ chr "/") with "master/". now rewrite Hm1, Hm2.
  - rewrite contains_prefix, orb_true_r.
    change ("main/" ++ rest) with (("main" ++ chr "/") ++ rest).
    rewrite (Hx (("main" ++ chr "/") ++ rest)).
    change (split_from 0 (x ++ ("main" ++ chr "/") ++ rest) "main/")
      with (split_from 0 (x ++ ("main" ++ chr "/") ++ rest)
              ("main" ++ chr "/")).
    rewrite (split_from_first "main" "/" x rest).
    + simpl fst. now rewrite (Hx "main/").
    + rewrite <- Hx, contains_marker_hosted by now right.
      change ("main" ++ chr "/") with "main/". now rewrite Hn1, Hn2.
Qed.

(** X6.  For a location [https://github.com/<org>/<repo>/blob/<marker><rest>]
    in which neither marker occurs in [<org>/], [<repo>/] or [<rest>], the
    hosting root is the location up to and including the marker, whatever
    [<rest>] is: descriptors anywhere in one repository and branch have one
    hosting root, hence one license location. *)
Theorem get_github_root_url_hosted (org repo marker rest : string)
    (st : state) :
  marker = "master/" \/ marker = "main/" ->
  marker_free "master/" org repo rest = true ->
  marker_free "main/" org repo rest = true ->
  get_github_root_url
    (GITHUB_PREFIX ++ org ++ "/" ++ repo ++ "/blob/" ++ marker ++ rest) st
  = (Ret (GITHUB_PREFIX ++ org ++ "/" ++ repo ++ "/blob/" ++ marker), st).
Proof. apply github_root_hosted. Qed.

Lemma get_github_root_url_hosted_witness :
  get_github_root_url
    (GITHUB_PREFIX ++ "org" ++ "/" ++ "repo" ++ "/blob/" ++ "main/"
     ++ "sub/dir/build.gradle") example_state
  = (Ret (GITHUB_PREFIX ++ "org" ++ "/" ++ "repo" ++ "/blob/" ++ "main/"),
     example_state).
Proof.
  apply get_github_root_url_hosted; [now right | reflexivity | reflexivity].
Defined.

(* ================================================================= *)
(** ** More on the index *)

Lemma dict_get_set {V : Type} (d : dict V) (k k' : string) (v : V) :
  dict_get (dict_set d k v) k'
  = if String.eqb k k' then Some v else dict_get d k'.
Proof.
  induction d as [|[k0 v0] d IH]; simpl.
  - reflexivity.
  - destruct (String.eqb k0 k) eqn:E0; simpl.
    + apply String.eqb_eq in E0. subst k0.
      now destruct (String.eqb k k').
    + destruct (String.eqb k0 k') eqn:E1; [|exact IH].
      apply String.eqb_eq in E1. subst k0.
      rewrite String.eqb_sym in E0. now rewrite E0.
Qed.

Lemma dict_keys_set_seen {V : Type} (d : dict V) (k : string) (v : V) :
  In k (dict_keys d) -> dict_keys (dict_set d k v) = dict_keys d.
Proof.
  induction d as [|[k0 v0] d IH]; intros H; [contradiction|].
  simpl. destruct (String.eqb k0 k) eqn:E; [reflexivity|].
  simpl. f_equal. apply IH. destruct H as [H|H]; [|exact H].
  simpl in H. apply String.eqb_neq in E. congruence.
Qed.

(** Setting keys one after the other from the empty dictionary: the keys
    stand in first-seen order and each holds the value set last. *)
Lemma dict_set_all (items : list (string * string)) :
  let d := fold_left (fun d gu => dict_set d (fst gu) (snd gu)) items [] in
  dict_keys d = first_seen (map fst items)
  /\ forall k,
       dict_get d k
       = option_map snd
           (List.find (fun gu => String.eqb (fst gu) k) (rev items)).
Proof.
  induction items as [|[g u] items IH] using rev_ind; [now split|].
  cbv zeta in *. rewrite fold_left_app. cbn [fold_left fst snd].
  destruct IH as [IHk IHg]. split.
  - rewrite map_app. cbn [map fst].
    destruct (in_dec string_dec g (map fst items)) as [Hin|Hin].
    + rewrite first_seen_snoc_seen by exact Hin.
      rewrite dict_keys_set_seen; [exact IHk|].
      rewrite IHk. now apply first_seen_in.
    + rewrite first_seen_snoc_unseen by exact Hin.
      rewrite dict_set_fresh, dict_keys_app, IHk; [reflexivity|].
      rewrite IHk, first_seen_in. exact Hin.
  - intros k. rewrite dict_get_set, rev_app_distr. cbn [rev app List.find fst].
    destruct (String.eqb g k); [reflexivity | apply IHg].
Qed.

(** X7.  When the loop over the descriptors completes, the index holds one
    item per distinct derived name, in the order the names are first seen,
    and each name maps to the last descriptor that gave it: a later
    descriptor with the same name replaces the earlier one. *)
Theorem pom_gradle_loop_last_wins
    (remote : nat -> string -> option response)
    (fromstring : string -> option element)
    (pom_gradle_filelist G : list string) (idx : dict string)
    (st st1 : state) :
  pom_gradle_loop remote fromstring pom_gradle_filelist [] [] st
  = (Ret (G, idx), st1) ->
  List.length G = List.length pom_gradle_filelist
  /\ dict_keys idx = first_seen G
  /\ forall name,
       dict_get idx name
       = option_map snd
           (List.find (fun gu => String.eqb (fst gu) name)
              (rev (combine G pom_gradle_filelist))).
Proof.
  intros H.
  destruct (pom_gradle_loop_index remote fromstring _ _ _ _ _ _ _ H)
    as (G' & HG & Hlen & Hidx).
  simpl in HG. subst G'. split; [exact Hlen|].
  destruct (dict_set_all (combine G pom_gradle_filelist)) as [Hk Hg].
  rewrite <- Hidx in Hk, Hg. split; [|exact Hg].
  now rewrite Hk, map_fst_combine.
Qed.

Lemma pom_gradle_loop_last_wins_witness :
  List.length ["com.example:lib"; "g1:a1"; "com.example:lib"] = 3
  /\ dict_keys
       [("com.example:lib",
         "https://github.com/org/lib/blob/master/copy/build.gradle");
        ("g1:a1", "https://github.com/org/repo/blob/main/pom.xml")]
     = first_seen ["com.example:lib"; "g1:a1"; "com.example:lib"].
Proof.
  pose proof (pom_gradle_loop_last_wins
                (fun n url =>
                   if String.eqb url
                        "https://raw.githubusercontent.com/org/lib/master/copy/build.gradle"
                   then ok example_gradle else example_remote n url)
                example_fromstring
                ["https://github.com/org/lib/blob/master/build.gradle";
                 "https://github.com/org/repo/blob/main/pom.xml";
                 "https://github.com/org/lib/blob/master/copy/build.gradle"]
                ["com.example:lib"; "g1:a1"; "com.example:lib"]
                [("com.example:lib",
                  "https://github.com/org/lib/blob/master/copy/build.gradle");
                 ("g1:a1", "https://github.com/org/repo/blob/main/pom.xml")]
                example_state _ eq_refl) as H.
  split; [exact (proj1 H) | exact (proj1 (proj2 H))].
Defined.

(* ================================================================= *)
(** ** More on the two input lists *)

Section InputLists.

Variable remote : nat -> string -> option response.
Variable fromstring : string -> option element.

(** The loop over a list in two parts is the loop over the first part and
    then, from where that ended, over the second. *)
Lemma pom_gradle_loop_app (l1 l2 : list string) :
  forall acc d st,
    pom_gradle_loop remote fromstring (l1 ++ l2) acc d st
    = match pom_gradle_loop remote fromstring l1 acc d st with
      | (Ret (acc', d'), st') =>
          pom_gradle_loop remote fromstring l2 acc' d' st'
      | (Exit code, st') => (Exit code, st')
      | (Raise e, st') => (Raise e, st')
      end.
Proof.
  induction l1 as [|url l1 IH]; intros acc d st; [reflexivity|].
  simpl app. cbn [pom_gradle_loop]. unfold bind.
  destruct (endswith url POM_FILE_SUFFIX).
  - destruct (get_pom_artifact_name remote fromstring url st)
      as [[tmp|code|e] st']; [apply IH | reflexivity | reflexivity].
  - destruct (endswith url GRADLE_FILE_SUFFIX); [|reflexivity].
    destruct (get_gradle_artifact_name remote url st)
      as [[tmp|code|e] st']; [apply IH | reflexivity | reflexivity].
Qed.

End InputLists.

(** X8.  A descriptor reference that ends neither in [.xml] nor in
    [.gradle] stops the run with its diagnostic and exit status 1 at the
    moment the loop reaches it: the references before it have been fetched
    and parsed, the references after it are never touched, and the declared
    list is not looked at. *)
Theorem main_unrecognized_suffix
    (remote : nat -> string -> option response)
    (fromstring : string -> option element)
    (maven_artifacts_file third_party_notices_file : string) (update : bool)
    (maven_artifacts before after G : list string) (url : string)
    (idx : dict string) (st st1 : state) :
  List.length maven_artifacts = List.length (before ++ url :: after) ->
  pom_gradle_loop remote fromstring before [] [] st = (Ret (G, idx), st1) ->
  endswith url POM_FILE_SUFFIX = false ->
  endswith url GRADLE_FILE_SUFFIX = false ->
  main remote fromstring maven_artifacts_file third_party_notices_file update
    maven_artifacts (before ++ url :: after) st
  = (Exit 1,
     printed "Neither a Pom, nor a Gradle a file found in the list. exiting."
       st1).
Proof.
  intros Hlen Hloop Hpom Hgradle. apply Nat.eqb_eq in Hlen.
  unfold main. unfold bind at 1. unfold main_reconcile. unfold bind at 1.
  rewrite Hlen. cbn [negb]. unfold ret at 1. cbv beta iota.
  unfold bind at 1. rewrite pom_gradle_loop_app, Hloop.
  cbn [pom_gradle_loop]. now rewrite Hpom, Hgradle.
Qed.

Lemma main_unrecognized_suffix_witness :
  main example_remote example_fromstring "maven_artifacts.bzl"
    "THIRD_PARTY_NOTICES" false ["g1:a1:1.0"; "x:y:1"; "com.example:lib:2.0"]
    (["https://github.com/org/repo/blob/main/pom.xml"]
     ++ "https://github.com/org/repo/blob/main/build.sbt"
        :: ["https://github.com/org/lib/blob/master/build.gradle"])
    example_state
  = (Exit 1,
     printed "Neither a Pom, nor a Gradle a file found in the list. exiting."
       (requested "https://raw.githubusercontent.com/org/repo/main/pom.xml"
          example_state)).
Proof.
  apply (main_unrecognized_suffix example_remote example_fromstring
           "maven_artifacts.bzl" "THIRD_PARTY_NOTICES" false _ _ _
           ["g1:a1"] _
           [("g1:a1", "https://github.com/org/repo/blob/main/pom.xml")]);
    reflexivity.
Defined.

Lemma truncated_without_colon (artifact_name : string) :
  truncated artifact_name = None <-> contains ":" artifact_name = false.
Proof.
  unfold truncated, split. split; intros H.
  - destruct (contains ":" artifact_name) eqn:E; [|reflexivity].
    destruct (split_two ":" artifact_name) as (s0 & s1 & l & Hs);
      [discriminate | exact E |].
    unfold split in Hs. now rewrite Hs in H.
  - now rewrite (split_from_none _ _ H).
Qed.

Lemma truncated_all_none (maven_artifacts : list string) :
  truncated_all maven_artifacts = None
  <-> exists x, In x maven_artifacts /\ contains ":" x = false.
Proof.
  induction maven_artifacts as [|x l IH]; simpl.
  - split; [discriminate | intros (x & [] & _)].
  - destruct (truncated x) as [t|] eqn:Et.
    + destruct (truncated_all l) as [ts|].
      * split; [discriminate|]. intros (y & [Hy|Hy] & Hc).
        -- subst y. apply truncated_without_colon in Hc. congruence.
        -- assert (Hn : @None (list string) = None) by reflexivity.
           destruct IH as [_ IH].
           discriminate (IH (ex_intro _ y (conj Hy Hc))).
      * split; [|reflexivity]. intros _.
        destruct IH as [IH _]. destruct (IH eq_refl) as (y & Hy & Hc).
        exists y. split; [now right | exact Hc].
    + split; [|reflexivity]. intros _. exists x.
      split; [now left | now apply truncated_without_colon].
Qed.

(** X9.  With lists of equal length and every descriptor fetched and
    parsed, a declared entry that holds no colon ends the run in an uncaught
    [IndexError]: nothing is printed, and the descriptors have all been
    fetched by then. *)
Theorem main_declared_without_colon
    (remote : nat -> string -> option response)
    (fromstring : string -> option element)
    (maven_artifacts_file third_party_notices_file : string) (update : bool)
    (maven_artifacts pom_gradle_filelist G : list string)
    (idx : dict string) (st st1 : state) (artifact_name : string) :
  List.length maven_artifacts = List.length pom_gradle_filelist ->
  pom_gradle_loop remote fromstring pom_gradle_filelist [] [] st
  = (Ret (G, idx), st1) ->
  In artifact_name maven_artifacts ->
  contains ":" artifact_name = false ->
  main remote fromstring maven_artifacts_file third_party_notices_file update
    maven_artifacts pom_gradle_filelist st
  = (Raise IndexError, st1).
Proof.
  intros Hlen Hloop Hin Hcolon.
  assert (Hnone : truncated_all maven_artifacts = None).
  { apply truncated_all_none. now exists artifact_name. }
  unfold main. unfold bind at 1.
  now rewrite (main_reconcile_run remote fromstring maven_artifacts_file
                 maven_artifacts pom_gradle_filelist G idx st st1 Hlen Hloop),
    Hnone.
Qed.

Lemma main_declared_without_colon_witness :
  main example_remote example_fromstring "maven_artifacts.bzl"
    "THIRD_PARTY_NOTICES" false ["g1:a1:1.0"; "lib"] example_poms
    example_state
  = (Raise IndexError, example_fetched).
Proof.
  apply (main_declared_without_colon example_remote example_fromstring
           "maven_artifacts.bzl" "THIRD_PARTY_NOTICES" false
           ["g1:a1:1.0"; "lib"] example_poms ["g1:a1"; "com.example:lib"]
           (combine ["g1:a1"; "com.example:lib"] example_poms)
           example_state example_fetched "lib");
    [reflexivity | reflexivity | right; now left | reflexivity].
Defined.

Lemma split_from_colon (x y : string) :
  contains ":" x = false ->
  split_from 0 (x ++ ":" ++ y) ":"
  = (x, fst (split_from 0 y ":") :: snd (split_from 0 y ":")).
Proof.
  intros H. apply (split_from_first "" ":" x y). now rewrite append_nil_r.
Qed.

(** X10.  The loop over the declared entries keeps the group and the
    artifact of an entry and drops what follows: when the group and the
    artifact hold no colon, [group:artifact] is appended as it is and
    [group:artifact:more] is appended as [group:artifact], whatever [more]
    is (a version, or a classifier and a version); the loop then goes on
    with the next entry in the same state. *)
Theorem maven_loop_coordinate (group artifact : string)
    (maven_artifacts acc : list string) (st : state) :
  contains ":" group = false ->
  contains ":" artifact = false ->
  maven_loop ((group ++ ":" ++ artifact) :: maven_artifacts) acc st
  = maven_loop maven_artifacts (acc ++ [(group ++ ":" ++ artifact)%string])%list st
  /\ forall more,
       maven_loop ((group ++ ":" ++ artifact ++ ":" ++ more) :: maven_artifacts)
         acc st
       = maven_loop maven_artifacts (acc ++ [(group ++ ":" ++ artifact)%string])%list
           st.
Proof.
  intros Hg Ha. split.
  - cbn [maven_loop]. unfold split.
    now rewrite (split_from_colon group artifact Hg), (split_from_none _ _ Ha).
  - intros more. cbn [maven_loop]. unfold split.
    now rewrite (split_from_colon group _ Hg),
      (split_from_colon artifact more Ha).
Qed.

Lemma maven_loop_coordinate_witness :
  maven_loop [("com.example" ++ ":" ++ "lib" ++ ":" ++ "jar:sources:2.0")%string]
    [] example_state
  = (Ret [("com.example" ++ ":" ++ "lib")%string], example_state).
Proof.
  exact (proj2 (maven_loop_coordinate "com.example" "lib" [] [] example_state
                  eq_refl eq_refl) "jar:sources:2.0").
Defined.

(* ================================================================= *)
(** ** How a run can end *)

Create HintDb tidy.

Lemma tidy_ret {A : Type} (a : A) : tidy (ret a).
Proof. intros st. exact I. Qed.

Lemma tidy_sys_exit_1 {A : Type} : tidy (@sys_exit A 1).
Proof. intros st. reflexivity. Qed.

Lemma tidy_print (args : list string) : tidy (print args).
Proof. intros st. exact I. Qed.

Lemma tidy_raise {A : Type} (e : exn) : e <> KeyError -> tidy (@raise A e).
Proof. intros H st. exact H. Qed.

Lemma tidy_list_getitem {A : Type} (l : list A) (i : nat) :
  tidy (list_getitem l i).
Proof.
  intros st. unfold list_getitem.
  destruct (nth_error l i); simpl; [exact I | discriminate].
Qed.

Lemma tidy_list_last (l : list string) : tidy (list_last l).
Proof. intros st. destruct l; simpl; [discriminate | exact I]. Qed.

Lemma tidy_bind {A B : Type} (m : M A) (k : A -> M B) :
  tidy m -> (forall a, tidy (k a)) -> tidy (bind m k).
Proof.
  intros Hm Hk st. unfold bind. specialize (Hm st).
  destruct (m st) as [[a|code|e] st']; simpl in *;
    [apply Hk | exact Hm | exact Hm].
Qed.

#[global] Hint Resolve tidy_ret tidy_sys_exit_1 tidy_print tidy_list_getitem
  tidy_list_last : tidy.
#[global] Hint Extern 1 (tidy (raise _)) =>
  apply tidy_raise; discriminate : tidy.

Lemma dict_get_key {V : Type} (d : dict V) (k : string) :
  In k (dict_keys d) -> dict_get d k <> None.
Proof.
  induction d as [|[k' v] d IH]; intros H; [contradiction|].
  simpl in *. destruct (String.eqb k' k) eqn:E; [discriminate|].
  apply IH. destruct H as [H|H]; [|exact H].
  apply String.eqb_neq in E. congruence.
Qed.

Ltac tidy_step :=
  match goal with
  | |- tidy (bind _ _) => apply tidy_bind; [|intros]
  | |- tidy (match ?x with _ => _ end) => destruct x
  end.

Ltac tidy_all := repeat tidy_step; auto with tidy.

Section Tidy.

Variable remote : nat -> string -> option response.
Variable fromstring : string -> option element.

Lemma tidy_requests_get (url : string) : tidy (requests_get remote url).
Proof.
  intros st. unfold requests_get.
  destruct (remote _ url); simpl; [exact I | discriminate].
Qed.

Lemma tidy_ET_fromstring (content : string) :
  tidy (ET_fromstring fromstring content).
Proof. unfold ET_fromstring. tidy_all. Qed.

Lemma tidy_find_in (x : option element) (path : string) (ns : dict string) :
  tidy (find_in x path ns).
Proof. unfold find_in. tidy_all. Qed.

Lemma tidy_text_in (x : option element) : tidy (text_in x).
Proof. unfold text_in. tidy_all. Qed.

Hint Resolve tidy_requests_get tidy_ET_fromstring tidy_find_in tidy_text_in
  : tidy.

Lemma tidy_raw_file_url_loop (branch_roots : list string)
    (w raw_file_url : string) :
  tidy (raw_file_url_loop branch_roots w raw_file_url).
Proof.
  induction branch_roots as [|br l IH]; cbn [raw_file_url_loop]; tidy_all.
Qed.

Hint Resolve tidy_raw_file_url_loop : tidy.

Lemma tidy_get_file_from_github (url : string) :
  tidy (get_file_from_github remote url).
Proof. unfold get_file_from_github. tidy_all. Qed.

Hint Resolve tidy_get_file_from_github : tidy.

Lemma tidy_get_pom_artifact_name (url : string) :
  tidy (get_pom_artifact_name remote fromstring url).
Proof. unfold get_pom_artifact_name. tidy_all. Qed.

Lemma tidy_get_grad_rval (line : string) : tidy (get_grad_rval line).
Proof. unfold get_grad_rval. tidy_all. Qed.

Hint Resolve tidy_get_pom_artifact_name tidy_get_grad_rval : tidy.

Lemma tidy_gradle_loop (lines : list string) :
  forall group_id artifact_id, tidy (gradle_loop lines group_id artifact_id).
Proof.
  induction lines as [|line lines IH]; intros g a; cbn [gradle_loop];
    tidy_all.
Qed.

Hint Resolve tidy_gradle_loop : tidy.

Lemma tidy_get_gradle_artifact_name (url : string) :
  tidy (get_gradle_artifact_name remote url).
Proof. unfold get_gradle_artifact_name. tidy_all. Qed.

Lemma tidy_github_root_loop (branch_roots : list string) (url : string) :
  forall github_root, tidy (github_root_loop branch_roots url github_root).
Proof.
  induction branch_roots as [|br l IH]; intros r; cbn [github_root_loop];
    tidy_all.
Qed.

Hint Resolve tidy_get_gradle_artifact_name tidy_github_root_loop : tidy.

Lemma tidy_get_github_root_url (url : string) :
  tidy (get_github_root_url url).
Proof. unfold get_github_root_url. tidy_all. Qed.

Lemma tidy_license_loop (license_filenames : list string) (root : string) :
  forall license_content license_url,
    tidy (license_loop remote license_filenames root license_content
            license_url).
Proof.
  induction license_filenames as [|f l IH]; intros c u; cbn [license_loop];
    tidy_all.
Qed.

Hint Resolve tidy_get_github_root_url tidy_license_loop : tidy.

Lemma tidy_get_license_from_pom (url : string) :
  tidy (get_license_from_pom remote url).
Proof. unfold get_license_from_pom. tidy_all. Qed.

Lemma tidy_pom_gradle_loop (pom_gradle_filelist : list string) :
  forall acc d,
    tidy (pom_gradle_loop remote fromstring pom_gradle_filelist acc d).
Proof.
  induction pom_gradle_filelist as [|url l IH]; intros acc d;
    cbn [pom_gradle_loop]; tidy_all.
Qed.

Lemma tidy_maven_loop (maven_artifacts : list string) :
  forall acc, tidy (maven_loop maven_artifacts acc).
Proof.
  induction maven_artifacts as [|x l IH]; intros acc; cbn [maven_loop];
    tidy_all.
Qed.

Hint Resolve tidy_get_license_from_pom tidy_pom_gradle_loop tidy_maven_loop
  : tidy.

Lemma tidy_main_reconcile (maven_artifacts_file : string)
    (maven_artifacts pom_gradle_filelist : list string) :
  tidy (main_reconcile remote fromstring maven_artifacts_file
          maven_artifacts pom_gradle_filelist).
Proof. unfold main_reconcile. tidy_all. Qed.

(** The loop over the packages raises no [KeyError] when every package is a
    key of the index. *)
Lemma tidy_package_loop (packages : list string) (idx : dict string) :
  (forall p, In p packages -> In p (dict_keys idx)) ->
  forall l2p l2c, tidy (package_loop remote packages idx l2p l2c).
Proof.
  induction packages as [|package packages IH]; intros Hkeys l2p l2c;
    cbn [package_loop]; [tidy_all|].
  assert (IH' := IH (fun p Hp => Hkeys p (or_intror Hp))).
  unfold dict_getitem at 1.
  destruct (dict_get idx package) as [pom|] eqn:Eidx.
  - apply tidy_bind; [tidy_all|]. intros pom'.
    apply tidy_bind; [tidy_all|]. intros [license_url license_content].
    unfold dict_in, dict_getitem.
    destruct (dict_get l2p license_url); [|apply IH'].
    apply tidy_bind; [tidy_all | intros; apply IH'].
  - exfalso. exact (dict_get_key idx package
                      (Hkeys package (or_introl eq_refl)) Eidx).
Qed.

(** A loop over the packages that returns has resolved every license. *)
Lemma package_loop_resolved (packages : list string) (idx : dict string) :
  forall l2p l2c st grouped st2,
    package_loop remote packages idx l2p l2c st = (Ret grouped, st2) ->
    exists licenses,
      resolve_all remote packages idx st = (Ret licenses, st2).
Proof.
  induction packages as [|package packages IH];
    intros l2p l2c st grouped st2 H.
  - injection H as _ <-. now exists [].
  - cbn [package_loop resolve_all] in *. unfold bind, dict_getitem in *.
    destruct (dict_get idx package) as [pom|]; [|discriminate].
    unfold ret at 1 in H. unfold ret at 1. cbv beta iota in *.
    destruct (get_license_from_pom remote pom st)
      as [[[license_url license_content]|code|e] st']; try discriminate.
    unfold dict_in in H.
    assert (Hrest : exists licenses,
               resolve_all remote packages idx st' = (Ret licenses, st2)).
    { destruct (dict_get l2p license_url).
      - unfold ret at 1 in H. cbv beta iota in H. exact (IH _ _ _ _ _ H).
      - exact (IH _ _ _ _ _ H). }
    destruct Hrest as [licenses ->]. now eexists.
Qed.

(** [main_aggregate] in terms of the specification's notices. *)
Lemma main_aggregate_run (packages : list string) (idx : dict string)
    (licenses : list (string * string)) (st st2 : state) :
  resolve_all remote packages idx st = (Ret licenses, st2) ->
  main_aggregate remote packages idx st
  = (Ret (notices (combine packages licenses)), st2).
Proof.
  intros H. unfold main_aggregate. unfold bind at 1.
  rewrite (package_loop_run remote _ _ [] [] st licenses st2 H).
  rewrite group_step_all, dict_keys_tabulate.
  rewrite (notices_loop_run
             (fun u => packages_at u (combine packages licenses))
             (fun u => content_at u (combine packages licenses))).
  - reflexivity.
  - intros u Hu. split.
    + now apply (dict_get_tabulate
                   (fun u => packages_at u (combine packages licenses))).
    + now apply (dict_get_tabulate
                   (fun u => content_at u (combine packages licenses))).
Qed.

Lemma main_aggregate_returned (packages : list string) (idx : dict string)
    (content : string) (st st2 : state) :
  main_aggregate remote packages idx st = (Ret content, st2) ->
  exists licenses,
    resolve_all remote packages idx st = (Ret licenses, st2)
    /\ content = notices (combine packages licenses).
Proof.
  intros H.
  assert (Hres : exists licenses st',
             resolve_all remote packages idx st = (Ret licenses, st')).
  { unfold main_aggregate in H. unfold bind at 1 in H.
    destruct (package_loop remote packages idx [] [] st)
      as [[grouped|code|e] st'] eqn:Ep; try discriminate.
    destruct (package_loop_resolved _ _ _ _ _ _ _ Ep) as [licenses Hl].
    now exists licenses, st'. }
  destruct Hres as (licenses & st' & Hres).
  rewrite (main_aggregate_run _ _ _ _ _ Hres) in H.
  injection H as <- <-. now exists licenses.
Qed.

Lemma tidy_main_aggregate (packages : list string) (idx : dict string) :
  (forall p, In p packages -> In p (dict_keys idx)) ->
  tidy (main_aggregate remote packages idx).
Proof.
  intros Hkeys st.
  destruct (main_aggregate remote packages idx st) as [[content|code|e] st2]
    eqn:E; [exact I | |];
    unfold main_aggregate in E; unfold bind at 1 in E;
    pose proof (tidy_package_loop packages idx Hkeys [] [] st) as Hp;
    destruct (package_loop remote packages idx [] [] st)
      as [[[l2p l2c]|code'|e'] st'] eqn:Ep; simpl in Hp;
    try (injection E as <- _; exact Hp).
  - destruct (package_loop_resolved _ _ _ _ _ _ _ Ep) as [licenses Hl].
    pose proof (main_aggregate_run _ _ _ _ _ Hl) as Hrun.
    unfold main_aggregate in Hrun. unfold bind at 1 in Hrun.
    rewrite Ep in Hrun. congruence.
  - destruct (package_loop_resolved _ _ _ _ _ _ _ Ep) as [licenses Hl].
    pose proof (main_aggregate_run _ _ _ _ _ Hl) as Hrun.
    unfold main_aggregate in Hrun. unfold bind at 1 in Hrun.
    rewrite Ep in Hrun. congruence.
Qed.

(** What a returning [main_reconcile] has established. *)
Lemma main_reconcile_returned (maven_artifacts_file : string)
    (maven_artifacts pom_gradle_filelist G : list string)
    (idx : dict string) (st st1 : state) :
  main_reconcile remote fromstring maven_artifacts_file maven_artifacts
    pom_gradle_filelist st = (Ret (G, idx), st1) ->
  List.length maven_artifacts = List.length pom_gradle_filelist
  /\ pom_gradle_loop remote fromstring pom_gradle_filelist [] [] st
     = (Ret (G, idx), st1)
  /\ truncated_all maven_artifacts = Some G.
Proof.
  intros H.
  destruct (Nat.eq_dec (List.length maven_artifacts)
              (List.length pom_gradle_filelist)) as [Hlen|Hlen].
  - destruct (pom_gradle_loop remote fromstring pom_gradle_filelist [] [] st)
      as [[[G' idx']|code|e] st'] eqn:Hloop.
    + rewrite (main_reconcile_run remote fromstring maven_artifacts_file
                 maven_artifacts pom_gradle_filelist G' idx' st st' Hlen Hloop)
        in H.
      destruct (truncated_all maven_artifacts) as [M|]; [|discriminate].
      destruct (list_eq_dec string_dec G' M) as [->|]; [|discriminate].
      injection H as <- <- <-. now repeat split.
    + exfalso. apply Nat.eqb_eq in Hlen. revert H.
      unfold main_reconcile. unfold bind at 1. rewrite Hlen. cbn [negb].
      unfold ret at 1. cbv beta iota. unfold bind at 1. rewrite Hloop.
      discriminate.
    + exfalso. apply Nat.eqb_eq in Hlen. revert H.
      unfold main_reconcile. unfold bind at 1. rewrite Hlen. cbn [negb].
      unfold ret at 1. cbv beta iota. unfold bind at 1. rewrite Hloop.
      discriminate.
  - exfalso. apply Nat.eqb_neq in Hlen. revert H.
    unfold main_reconcile. unfold bind at 1. rewrite Hlen. discriminate.
Qed.

End Tidy.

(** X11.  A run in which the lengths agree, every descriptor gives its name,
    the names equal the declared entries cut to two segments, and every
    license resolves, is [main_sync] on the specification's notices for the
    names paired with their licenses, from the state the fetches left; with
    [--update] it therefore exits with status 0 and the notices file holds
    exactly those notices. *)
Theorem main_run
    (remote : nat -> string -> option response)
    (fromstring : string -> option element)
    (maven_artifacts_file third_party_notices_file : string)
    (maven_artifacts pom_gradle_filelist G : list string)
    (idx : dict string) (licenses : list (string * string))
    (st st1 st2 : state) :
  List.length maven_artifacts = List.length pom_gradle_filelist ->
  pom_gradle_loop remote fromstring pom_gradle_filelist [] [] st
  = (Ret (G, idx), st1) ->
  truncated_all maven_artifacts = Some G ->
  resolve_all remote G idx st1 = (Ret licenses, st2) ->
  (forall update,
     main remote fromstring maven_artifacts_file third_party_notices_file
       update maven_artifacts pom_gradle_filelist st
     = main_sync update third_party_notices_file
         (notices (combine G licenses)) st2)
  /\ fst (main remote fromstring maven_artifacts_file
            third_party_notices_file true maven_artifacts
            pom_gradle_filelist st) = Exit 0
  /\ files (snd (main remote fromstring maven_artifacts_file
                   third_party_notices_file true maven_artifacts
                   pom_gradle_filelist st)) third_party_notices_file
     = Some (notices (combine G licenses)).
Proof.
  intros Hlen Hloop Htrunc Hres.
  assert (Hmain : forall update,
            main remote fromstring maven_artifacts_file
              third_party_notices_file update maven_artifacts
              pom_gradle_filelist st
            = main_sync update third_party_notices_file
                (notices (combine G licenses)) st2).
  { intros update. unfold main. unfold bind at 1.
    rewrite (main_reconcile_run remote fromstring maven_artifacts_file
               maven_artifacts pom_gradle_filelist G idx st st1 Hlen Hloop),
      Htrunc.
    destruct (list_eq_dec string_dec G G) as [_|Hne]; [|congruence].
    unfold bind at 1.
    now rewrite (main_aggregate_run remote G idx licenses st1 st2 Hres). }
  split; [exact Hmain|]. rewrite (Hmain true). split.
  - reflexivity.
  - simpl. now rewrite String.eqb_refl.
Qed.

Lemma main_run_witness :
  fst (main example_remote example_fromstring "maven_artifacts.bzl"
         "THIRD_PARTY_NOTICES" true example_maven example_poms example_state)
  = Exit 0
  /\ files (snd (main example_remote example_fromstring "maven_artifacts.bzl"
                   "THIRD_PARTY_NOTICES" true example_maven example_poms
                   example_state)) "THIRD_PARTY_NOTICES"
     = Some ("License for package(s): ['g1:a1']" ++ nl ++ nl ++ "MIT"
             ++ SPACER
             ++ "License for package(s): ['com.example:lib']" ++ nl ++ nl
             ++ "GPL" ++ SPACER).
Proof.
  exact (proj2 (main_run example_remote example_fromstring
                  "maven_artifacts.bzl" "THIRD_PARTY_NOTICES"
                  example_maven example_poms ["g1:a1"; "com.example:lib"]
                  (combine ["g1:a1"; "com.example:lib"] example_poms)
                  [("https://github.com/org/repo/blob/main/LICENSE", "MIT");
                   ("https://github.com/org/lib/blob/master/COPYING", "GPL")]
                  example_state example_fetched _
                  eq_refl eq_refl eq_refl eq_refl)).
Defined.

(** X12.  Once the command line is parsed and the two lists are loaded
    (line 159 on), a run without [--update] exits with status 0 exactly when
    the lengths agree, every descriptor gives its name, the names equal the
    declared entries cut to two segments, every license resolves, and the
    text read from the notices file, as it was before the run, equals the
    specification's notices for the names paired with their licenses.  (A
    run that [argparse] ends at line 148 never gets there.) *)
Theorem main_check_succeeds
    (remote : nat -> string -> option response)
    (fromstring : string -> option element)
    (maven_artifacts_file third_party_notices_file : string)
    (maven_artifacts pom_gradle_filelist : list string) (st st' : state) :
  main remote fromstring maven_artifacts_file third_party_notices_file false
    maven_artifacts pom_gradle_filelist st = (Exit 0, st')
  <-> exists G idx st1 licenses old,
        List.length maven_artifacts = List.length pom_gradle_filelist
        /\ pom_gradle_loop remote fromstring pom_gradle_filelist [] [] st
           = (Ret (G, idx), st1)
        /\ truncated_all maven_artifacts = Some G
        /\ resolve_all remote G idx st1 = (Ret licenses, st')
        /\ files st third_party_notices_file = Some old
        /\ universal_newlines old = notices (combine G licenses).
Proof.
  split.
  - intros H. unfold main in H. unfold bind at 1 in H.
    pose proof (tidy_main_reconcile remote fromstring maven_artifacts_file
                  maven_artifacts pom_gradle_filelist st) as Htidy.
    pose proof (keeps_files_main_reconcile remote fromstring
                  maven_artifacts_file maven_artifacts pom_gradle_filelist st)
      as Hfiles1.
    destruct (main_reconcile remote fromstring maven_artifacts_file
                maven_artifacts pom_gradle_filelist st)
      as [[[G idx]|code|e] st1] eqn:Erec; simpl in Htidy, Hfiles1;
      [|injection H as -> _; discriminate | discriminate].
    apply main_reconcile_returned in Erec as (Hlen & Hloop & Htrunc).
    unfold bind at 1 in H.
    assert (Hkeys : forall p, In p G -> In p (dict_keys idx)).
    { destruct (pom_gradle_loop_index remote fromstring _ _ _ _ _ _ _ Hloop)
        as (G' & HG & HlenG & Hidx).
      simpl in HG. subst G'. intros p Hp.
      destruct (dict_set_all (combine G pom_gradle_filelist)) as [Hk _].
      rewrite <- Hidx in Hk. rewrite Hk, map_fst_combine by exact HlenG.
      now apply first_seen_in. }
    pose proof (tidy_main_aggregate remote G idx Hkeys st1) as Htidy2.
    pose proof (keeps_files_main_aggregate remote G idx st1) as Hfiles2.
    destruct (main_aggregate remote G idx st1) as [[content|code|e] st2]
      eqn:Eagg; simpl in Htidy2, Hfiles2;
      [|injection H as -> _; discriminate | discriminate].
    apply main_aggregate_returned in Eagg as (licenses & Hres & ->).
    unfold main_sync, bind, read_file in H.
    rewrite Hfiles2, Hfiles1 in H.
    destruct (files st third_party_notices_file) as [old|] eqn:Eold;
      [|discriminate].
    destruct (String.eqb (universal_newlines old)
                (notices (combine G licenses))) eqn:Eeq; [|discriminate].
    injection H as <-. apply String.eqb_eq in Eeq.
    now exists G, idx, st1, licenses, old.
  - intros (G & idx & st1 & licenses & old
            & Hlen & Hloop & Htrunc & Hres & Hold & Heq).
    unfold main. unfold bind at 1.
    rewrite (main_reconcile_run remote fromstring maven_artifacts_file
               maven_artifacts pom_gradle_filelist G idx st st1 Hlen Hloop),
      Htrunc.
    destruct (list_eq_dec string_dec G G) as [_|Hne]; [|congruence].
    unfold bind at 1.
    rewrite (main_aggregate_run remote G idx licenses st1 st' Hres).
    assert (Hfiles : files st' = files st).
    { pose proof (keeps_files_main_aggregate remote G idx st1) as H2.
      rewrite (main_aggregate_run remote G idx licenses st1 st' Hres) in H2.
      pose proof (keeps_files_pom_gradle_loop remote fromstring
                    pom_gradle_filelist [] [] st) as H1.
      rewrite Hloop in H1. simpl in H1, H2. congruence. }
    unfold main_sync, bind, read_file. rewrite Hfiles, Hold, Heq.
    now rewrite String.eqb_refl.
Qed.

(** X13.  Once the command line is parsed and the two lists are loaded
    (line 159 on), a run of [main] does not fall through to the end of the
    function: it exits with status 0 or 1, or an exception escapes, and that
    exception is never a [KeyError]: every key read from
    [package_name_to_pom], [license_url_to_package] and
    [license_url_to_content] (lines 203, 215 and 218) has been set before.
    (The exit with status 2 of line 148 and the [KeyError] of lines 156-157
    come before that point.) *)
Theorem main_ends
    (remote : nat -> string -> option response)
    (fromstring : string -> option element)
    (maven_artifacts_file third_party_notices_file : string) (update : bool)
    (maven_artifacts pom_gradle_filelist : list string) (st : state) :
  match fst (main remote fromstring maven_artifacts_file
               third_party_notices_file update maven_artifacts
               pom_gradle_filelist st) with
  | Ret _ => False
  | Exit code => code = 0%Z \/ code = 1%Z
  | Raise e => e <> KeyError
  end.
Proof.
  unfold main. unfold bind at 1.
  pose proof (tidy_main_reconcile remote fromstring maven_artifacts_file
                maven_artifacts pom_gradle_filelist st) as Htidy.
  destruct (main_reconcile remote fromstring maven_artifacts_file
              maven_artifacts pom_gradle_filelist st)
    as [[[G idx]|code|e] st1] eqn:Erec; simpl in Htidy;
    [|now right | exact Htidy].
  apply main_reconcile_returned in Erec as (Hlen & Hloop & Htrunc).
  assert (Hkeys : forall p, In p G -> In p (dict_keys idx)).
  { destruct (pom_gradle_loop_index remote fromstring _ _ _ _ _ _ _ Hloop)
      as (G' & HG & HlenG & Hidx).
    simpl in HG. subst G'. intros p Hp.
    destruct (dict_set_all (combine G pom_gradle_filelist)) as [Hk _].
    rewrite <- Hidx in Hk. rewrite Hk, map_fst_combine by exact HlenG.
    now apply first_seen_in. }
  unfold bind at 1.
  pose proof (tidy_main_aggregate remote G idx Hkeys st1) as Htidy2.
  destruct (main_aggregate remote G idx st1) as [[content|code|e] st2];
    simpl in Htidy2; [|now right | exact Htidy2].
  unfold main_sync, bind, read_file, write_file, sys_exit.
  destruct update; simpl; [now left|].
  destruct (files st2 third_party_notices_file); simpl; [|discriminate].
  destruct (String.eqb _ content); simpl; [now left | now right].
Qed.

Lemma main_check_succeeds_witness :
  fst (main example_remote example_fromstring "maven_artifacts.bzl"
         "THIRD_PARTY_NOTICES" false example_maven example_poms
         example_synced)
  = Exit 0.
Proof.
  destruct (main example_remote example_fromstring "maven_artifacts.bzl"
              "THIRD_PARTY_NOTICES" false example_maven example_poms
              example_synced) as [o st'] eqn:E.
  assert (H : (o, st')
              = (Exit 0,
                 requested "https://raw.githubusercontent.com/org/lib/master/COPYING"
                   (requested "https://raw.githubusercontent.com/org/lib/master/LICENSE"
                      (requested "https://raw.githubusercontent.com/org/repo/main/LICENSE"
                         (requested "https://raw.githubusercontent.com/org/lib/master/build.gradle"
                            (requested "https://raw.githubusercontent.com/org/repo/main/pom.xml"
                               example_synced)))))).
  { rewrite <- E.
    apply (proj2 (main_check_succeeds example_remote example_fromstring
                    "maven_artifacts.bzl" "THIRD_PARTY_NOTICES"
                    example_maven example_poms example_synced _)).
    exists ["g1:a1"; "com.example:lib"],
      (combine ["g1:a1"; "com.example:lib"] example_poms),
      (requested "https://raw.githubusercontent.com/org/lib/master/build.gradle"
         (requested "https://raw.githubusercontent.com/org/repo/main/pom.xml"
            example_synced)),
      [("https://github.com/org/repo/blob/main/LICENSE", "MIT");
       ("https://github.com/org/lib/blob/master/COPYING", "GPL")].
    eexists. repeat split; reflexivity. }
  now injection H as -> _.
Defined.

(* ================================================================= *)
(** ** The requests of a run *)

Create HintDb quiet.

Lemma within_le (k k' : nat) {A : Type} (m : M A) :
  within k m -> k <= k' -> within k' m.
Proof.
  intros H Hle st. destruct (H st) as (l & Hl & Hlen).
  exists l. split; [exact Hl | lia].
Qed.

(** The requests of two computations in a row add up; the bound on the
    second may rest on what the first returned. *)
Lemma within_bind_returned (k1 k2 : nat) {A B : Type} (m : M A)
    (f : A -> M B) :
  within k1 m ->
  (forall st a st', m st = (Ret a, st') -> within k2 (f a)) ->
  within (k1 + k2) (bind m f).
Proof.
  intros Hm Hf st. unfold bind. destruct (Hm st) as (l1 & Hl1 & Hlen1).
  destruct (m st) as [[a|code|e] st'] eqn:E; simpl in Hl1.
  - destruct (Hf st a st' E st') as (l2 & Hl2 & Hlen2).
    exists (l1 ++ l2)%list. rewrite Hl2, Hl1, app_assoc, length_app.
    split; [reflexivity | lia].
  - exists l1. split; [exact Hl1 | lia].
  - exists l1. split; [exact Hl1 | lia].
Qed.

Lemma within_bind (k1 k2 : nat) {A B : Type} (m : M A) (f : A -> M B) :
  within k1 m -> (forall a, within k2 (f a)) -> within (k1 + k2) (bind m f).
Proof. intros Hm Hf. apply within_bind_returned; auto. Qed.

Lemma within_same {A : Type} (m : M A) :
  (forall st, requests (snd (m st)) = requests st) -> within 0 m.
Proof.
  intros H st. exists []. rewrite app_nil_r. split; [apply H | simpl; lia].
Qed.

Lemma quiet_ret {A : Type} (a : A) : within 0 (ret a).
Proof. now apply within_same. Qed.

Lemma quiet_raise {A : Type} (e : exn) : within 0 (@raise A e).
Proof. now apply within_same. Qed.

Lemma quiet_sys_exit {A : Type} (code : Z) : within 0 (@sys_exit A code).
Proof. now apply within_same. Qed.

Lemma quiet_print (args : list string) : within 0 (print args).
Proof. now apply within_same. Qed.

Lemma quiet_read_file (path : string) : within 0 (read_file path).
Proof.
  apply within_same. intros st. unfold read_file.
  now destruct (files st path).
Qed.

Lemma quiet_write_file (path content : string) :
  within 0 (write_file path content).
Proof. now apply within_same. Qed.

Lemma quiet_list_getitem {A : Type} (l : list A) (i : nat) :
  within 0 (list_getitem l i).
Proof.
  apply within_same. intros st. unfold list_getitem.
  now destruct (nth_error l i).
Qed.

Lemma quiet_dict_getitem {V : Type} (d : dict V) (k : string) :
  within 0 (dict_getitem d k).
Proof.
  apply within_same. intros st. unfold dict_getitem.
  now destruct (dict_get d k).
Qed.

Lemma quiet_list_last (l : list string) : within 0 (list_last l).
Proof. apply within_same. intros st. now destruct l. Qed.

#[global] Hint Resolve quiet_ret quiet_raise quiet_sys_exit quiet_print
  quiet_read_file quiet_write_file quiet_list_getitem quiet_dict_getitem
  quiet_list_last : quiet.

(** One step through a computation that makes no request. *)
Ltac quiet_step :=
  match goal with
  | |- within 0 (bind _ _) => apply (within_bind 0 0); [|intros]
  | |- within 0 (match ?x with _ => _ end) => destruct x
  end.

Ltac quiet := repeat quiet_step; auto with quiet.

Lemma quiet_find_in (x : option element) (path : string) (ns : dict string) :
  within 0 (find_in x path ns).
Proof. unfold find_in. quiet. Qed.

Lemma quiet_text_in (x : option element) : within 0 (text_in x).
Proof. unfold text_in. quiet. Qed.

Lemma quiet_get_grad_rval (line : string) : within 0 (get_grad_rval line).
Proof. unfold get_grad_rval. quiet. Qed.

#[global] Hint Resolve quiet_find_in quiet_text_in quiet_get_grad_rval : quiet.

Lemma quiet_gradle_loop (lines : list string) :
  forall group_id artifact_id,
    within 0 (gradle_loop lines group_id artifact_id).
Proof.
  induction lines as [|line lines IH]; intros g a; cbn [gradle_loop]; quiet.
Qed.

Lemma quiet_github_root_loop (branch_roots : list string) (url : string) :
  forall github_root,
    within 0 (github_root_loop branch_roots url github_root).
Proof.
  induction branch_roots as [|br l IH]; intros r; cbn [github_root_loop];
    quiet.
Qed.

#[global] Hint Resolve quiet_gradle_loop quiet_github_root_loop : quiet.

Lemma quiet_get_github_root_url (url : string) :
  within 0 (get_github_root_url url).
Proof. unfold get_github_root_url. quiet. Qed.

Lemma quiet_maven_loop (maven_artifacts : list string) :
  forall acc, within 0 (maven_loop maven_artifacts acc).
Proof.
  induction maven_artifacts as [|x l IH]; intros acc; cbn [maven_loop]; quiet.
Qed.

Lemma quiet_notices_loop (license_urls : list string)
    (l2p : dict (list string)) (l2c : dict string) :
  forall content, within 0 (notices_loop license_urls l2p l2c content).
Proof.
  induction license_urls as [|x l IH]; intros content; cbn [notices_loop];
    quiet.
Qed.

Lemma quiet_main_sync (update : bool) (path content : string) :
  within 0 (main_sync update path content).
Proof. unfold main_sync. quiet. Qed.

#[global] Hint Resolve quiet_get_github_root_url quiet_maven_loop
  quiet_notices_loop quiet_main_sync : quiet.

Section Budget.

Variable remote : nat -> string -> option response.
Variable fromstring : string -> option element.

Lemma quiet_ET_fromstring (content : string) :
  within 0 (ET_fromstring fromstring content).
Proof. unfold ET_fromstring. quiet. Qed.

Hint Resolve quiet_ET_fromstring : quiet.

Lemma within_get_file_from_github (url : string) :
  within 1 (get_file_from_github remote url).
Proof.
  intros st. rewrite get_file_from_github_run.
  destruct (raw_file_url url) as [u|].
  - exists [u]. split; [reflexivity | simpl; lia].
  - exists []. rewrite app_nil_r. split; [reflexivity | simpl; lia].
Qed.

Lemma within_get_pom_artifact_name (url : string) :
  within 1 (get_pom_artifact_name remote fromstring url).
Proof.
  unfold get_pom_artifact_name.
  apply (within_bind 1 0); [apply within_get_file_from_github|].
  intros content. quiet.
Qed.

Lemma within_get_gradle_artifact_name (url : string) :
  within 1 (get_gradle_artifact_name remote url).
Proof.
  unfold get_gradle_artifact_name.
  apply (within_bind 1 0); [apply within_get_file_from_github|].
  intros content. quiet.
Qed.

Lemma within_license_loop (license_filenames : list string) (root : string) :
  forall license_content license_url,
    within (List.length license_filenames)
      (license_loop remote license_filenames root license_content
         license_url).
Proof.
  induction license_filenames as [|f l IH]; intros c u; cbn [license_loop].
  - apply quiet_ret.
  - apply (within_bind 1 (List.length l));
      [apply within_get_file_from_github|].
    intros [content|]; [|apply IH].
    apply (within_le 0); [apply quiet_ret | lia].
Qed.

Lemma within_get_license_from_pom (url : string) :
  within 2 (get_license_from_pom remote url).
Proof.
  unfold get_license_from_pom.
  apply (within_bind 0 2); [apply quiet_get_github_root_url|].
  intros root. apply (within_bind 2 0); [apply within_license_loop|].
  intros found. quiet.
Qed.

Lemma within_pom_gradle_loop (pom_gradle_filelist : list string) :
  forall acc d,
    within (List.length pom_gradle_filelist)
      (pom_gradle_loop remote fromstring pom_gradle_filelist acc d).
Proof.
  induction pom_gradle_filelist as [|url l IH]; intros acc d;
    cbn [pom_gradle_loop].
  - apply quiet_ret.
  - destruct (endswith url POM_FILE_SUFFIX).
    + apply (within_bind 1 (List.length l));
        [apply within_get_pom_artifact_name | intros; apply IH].
    + destruct (endswith url GRADLE_FILE_SUFFIX).
      * apply (within_bind 1 (List.length l));
          [apply within_get_gradle_artifact_name | intros; apply IH].
      * apply (within_le 0); [quiet | lia].
Qed.

Lemma within_package_loop (packages : list string) (idx : dict string) :
  forall l2p l2c,
    within (2 * List.length packages)
      (package_loop remote packages idx l2p l2c).
Proof.
  induction packages as [|package packages IH]; intros l2p l2c;
    cbn [package_loop].
  - apply quiet_ret.
  - apply (within_le (0 + (2 + 2 * List.length packages))); [|simpl; lia].
    apply within_bind; [apply quiet_dict_getitem|]. intros pom.
    apply within_bind; [apply within_get_license_from_pom|].
    intros [license_url license_content].
    destruct (dict_in license_url l2p); [|apply IH].
    apply (within_le (0 + 2 * List.length packages)); [|lia].
    apply within_bind; [apply quiet_dict_getitem | intros; apply IH].
Qed.

Lemma within_main_reconcile (maven_artifacts_file : string)
    (maven_artifacts pom_gradle_filelist : list string) :
  within (List.length pom_gradle_filelist)
    (main_reconcile remote fromstring maven_artifacts_file maven_artifacts
       pom_gradle_filelist).
Proof.
  unfold main_reconcile.
  apply (within_le (0 + (List.length pom_gradle_filelist + 0))); [|lia].
  apply within_bind; [quiet|]. intros _.
  apply within_bind; [apply within_pom_gradle_loop|].
  intros [G idx]. apply (within_bind 0 0); [apply quiet_maven_loop|].
  intros M. quiet.
Qed.

Lemma within_main_aggregate (packages : list string) (idx : dict string) :
  within (2 * List.length packages) (main_aggregate remote packages idx).
Proof.
  unfold main_aggregate.
  apply (within_le (2 * List.length packages + 0)); [|lia].
  apply within_bind; [apply within_package_loop|].
  intros [l2p l2c]. apply quiet_notices_loop.
Qed.

End Budget.

(** X14.  A run of [main] only adds to the log of requests, and adds at
    most three requests per descriptor reference: one for the descriptor
    and at most two for its license.  This holds however the run ends. *)
Theorem main_requests
    (remote : nat -> string -> option response)
    (fromstring : string -> option element)
    (maven_artifacts_file third_party_notices_file : string) (update : bool)
    (maven_artifacts pom_gradle_filelist : list string) (st : state) :
  exists l,
    requests (snd (main remote fromstring maven_artifacts_file
                     third_party_notices_file update maven_artifacts
                     pom_gradle_filelist st))
    = (requests st ++ l)%list
    /\ List.length l <= 3 * List.length pom_gradle_filelist.
Proof.
  revert st.
  change (within (3 * List.length pom_gradle_filelist)
            (main remote fromstring maven_artifacts_file
               third_party_notices_file update maven_artifacts
               pom_gradle_filelist)).
  unfold main.
  apply (within_le (List.length pom_gradle_filelist
                    + 2 * List.length pom_gradle_filelist)); [|lia].
  apply within_bind_returned; [apply within_main_reconcile|].
  intros st [G idx] st1 Hrec.
  apply main_reconcile_returned in Hrec as (_ & Hloop & _).
  destruct (pom_gradle_loop_index remote fromstring _ _ _ _ _ _ _ Hloop)
    as (G' & HG & HlenG & _).
  simpl in HG. subst G'. rewrite <- HlenG.
  apply (within_le (2 * List.length G + 0)); [|lia].
  apply within_bind; [apply within_main_aggregate|].
  intros content. apply quiet_main_sync.
Qed.

(* ================================================================= *)
(** ** Writing the notices and reading them back *)

Lemma universal_newlines_clean (s : string) :
  has_char CR s = false -> universal_newlines s = s.
Proof.
  induction s as [|c s IH]; intros H; [reflexivity|].
  cbn [has_char] in H. apply orb_false_iff in H as [Hc Hs].
  cbn [universal_newlines]. now rewrite Hc, (IH Hs).
Qed.

Lemma universal_newlines_no_cr_upto (n : nat) :
  forall s, String.length s <= n ->
            has_char CR (universal_newlines s) = false.
Proof.
  induction n as [|n IH]; intros s Hlen.
  - destruct s; [reflexivity | simpl in Hlen; lia].
  - destruct s as [|c s]; [reflexivity|].
    simpl in Hlen. cbn [universal_newlines].
    destruct (Ascii.eqb c CR) eqn:Ec.
    + destruct s as [|d s]; [reflexivity|].
      simpl in Hlen. destruct (Ascii.eqb d LF).
      * cbn [has_char]. rewrite IH by lia. reflexivity.
      * cbn [has_char]. rewrite IH by (simpl; lia). reflexivity.
    + cbn [has_char]. rewrite Ec, IH by lia. reflexivity.
Qed.

Lemma universal_newlines_no_cr (s : string) :
  has_char CR (universal_newlines s) = false.
Proof. now apply (universal_newlines_no_cr_upto (String.length s)). Qed.

(** X15.  Writing the notices and comparing them with the written file in
    the next run does not always agree: the comparison after [--update]
    exits with status 0 exactly when the notices hold no carriage return.
    A license served with CR LF line endings is written as it is and read
    back with LF endings, so the check reports a change. *)
Theorem main_sync_update_then_check
    (third_party_notices_file third_party_notices_content : string)
    (st : state) :
  fst (main_sync false third_party_notices_file third_party_notices_content
         (snd (main_sync true third_party_notices_file
                 third_party_notices_content st)))
  = if has_char CR third_party_notices_content then Exit 1 else Exit 0.
Proof.
  unfold main_sync at 1. unfold bind at 1. unfold read_file.
  replace (files (snd (main_sync true third_party_notices_file
                         third_party_notices_content st))
             third_party_notices_file)
    with (Some third_party_notices_content)
    by (simpl; now rewrite String.eqb_refl).
  destruct (has_char CR third_party_notices_content) eqn:E.
  - destruct (String.eqb (universal_newlines third_party_notices_content)
                third_party_notices_content) eqn:Eq; [|reflexivity].
    apply String.eqb_eq in Eq.
    pose proof (universal_newlines_no_cr third_party_notices_content) as H.
    rewrite Eq in H. congruence.
  - rewrite (universal_newlines_clean _ E), String.eqb_refl. reflexivity.
Qed.

(* ================================================================= *)
(** ** The command line of the benchmark *)

Lemma contains_without_head (c : ascii) (m s : string) :
  has_char c s = false -> contains (String c m) s = false.
Proof.
  induction s as [|a s IH]; intros H; [reflexivity|].
  cbn [has_char] in H. apply orb_false_iff in H as [Ha Hs].
  rewrite contains_cons, (IH Hs), orb_false_r.
  simpl. rewrite Ascii.eqb_sym. now rewrite Ha.
Qed.

Lemma has_char_app (c : ascii) (a b : string) :
  has_char c (a ++ b) = has_char c a || has_char c b.
Proof.
  induction a as [|x a IH]; simpl; [reflexivity|].
  now rewrite IH, orb_assoc.
Qed.

(** A segment without a percent sign is rendered as it is. *)
Lemma render_command_segment_plain (seg target bundle target_label : string) :
  has_char "%" seg = false ->
  render_command_segment seg target bundle target_label = seg.
Proof.
  intros H. unfold render_command_segment.
  assert (Hc : forall m, contains (String "%" m) seg = false)
    by (intros m; now apply contains_without_head).
  rewrite (replace_none "%binary%" _ seg) by apply Hc.
  rewrite (replace_none "%input%" _ seg) by apply Hc.
  now rewrite (replace_none "%output%" _ seg) by apply Hc.
Qed.

Lemma replace_binary (target : string) :
  replace "%binary%" "%binary%" target = target.
Proof. unfold replace. simpl. apply append_nil_r. Qed.

Lemma replace_input (path : string) :
  replace "--js=%input%" "%input%" path = "--js=" ++ path.
Proof. unfold replace. simpl. now rewrite append_nil_r. Qed.

Lemma replace_output (path : string) :
  replace "--js_output_file=%output%" "%output%" path
  = "--js_output_file=" ++ path.
Proof. unfold replace. simpl. now rewrite append_nil_r. Qed.

(** X16.  For a target and a bundle without a percent sign,
    [compile_command] is the fixed [bazel run] command with the target in
    place of [%binary%], the subject file of the bundle in place of
    [%input%] and the report file of the bundle and label in place of
    [%output%], followed by the extra arguments unchanged. *)
Theorem compile_command_rendered
    (target target_label bundle : string) (args : list string) :
  has_char "%" target = false ->
  has_char "%" bundle = false ->
  compile_command target target_label bundle args
  = (["bazel";
      "run";
      "--ui_event_filters=-info,-stdout,-stderr";
      "--noshow_progress";
      target;
      "--";
      "--compilation_level=SIMPLE";
      ("--js=" ++ "$(bazel info workspace)/native/bench/subjects/"
       ++ bundle ++ ".js")%string;
      ("--js_output_file=" ++ "$(bazel info workspace)/native/bench/reports/"
       ++ bundle ++ "." ++ target_label ++ ".min.js")%string;
      "2>";
      "/dev/null"] ++ args)%list.
Proof.
  intros Ht Hb. unfold compile_command, COMMAND_CLOSURE_SIMPLE.
  cbn [map]. f_equal.
  rewrite !render_command_segment_plain by reflexivity.
  repeat f_equal.
  - unfold render_command_segment.
    rewrite replace_binary.
    assert (Hc : forall m, contains (String "%" m) target = false)
      by (intros m; now apply contains_without_head).
    rewrite (replace_none "%input%" _ target) by apply Hc.
    now rewrite (replace_none "%output%" _ target) by apply Hc.
  - unfold render_command_segment.
    change (replace "--js=%input%" "%binary%" target) with "--js=%input%".
    rewrite replace_input. apply replace_none, contains_without_head.
    rewrite !has_char_app, Hb. reflexivity.
  - unfold render_command_segment.
    change (replace "--js_output_file=%output%" "%binary%" target)
      with "--js_output_file=%output%".
    match goal with
    | |- replace (replace _ _ ?x) _ _ = _ =>
        change (replace "--js_output_file=%output%" "%input%" x)
          with "--js_output_file=%output%"
    end.
    apply replace_output.
Qed.

Lemma compile_command_rendered_witness :
  compile_command "//:compiler_native" "native" "react" ["--debug"]
  = ["bazel";
     "run";
     "--ui_event_filters=-info,-stdout,-stderr";
     "--noshow_progress";
     "//:compiler_native";
     "--";
     "--compilation_level=SIMPLE";
     "--js=$(bazel info workspace)/native/bench/subjects/react.js";
     "--js_output_file=$(bazel info workspace)/native/bench/reports/react.native.min.js";
     "2>";
     "/dev/null";
     "--debug"].
Proof.
  apply (compile_command_rendered "//:compiler_native" "native" "react"
           ["--debug"]); reflexivity.
Defined.

(** A target that holds a later placeholder is rewritten too: the
    replacements run one after the other over the whole segment. *)
Example compile_command_placeholder_in_target :
  nth 4 (compile_command "%input%" "jvm" "react" []) ""
  = "$(bazel info workspace)/native/bench/subjects/react.js".
Proof. reflexivity. Qed.

(* ================================================================= *)
(** ** Where the license is looked for *)

(** A string that holds a character occurs only in text that holds it. *)
Lemma contains_needs_char (c : ascii) (old s : string) :
  has_char c old = true -> has_char c s = false -> contains old s = false.
Proof.
  intros Hold. induction s as [|a s IH]; intros Hs.
  - destruct old; [discriminate | reflexivity].
  - assert (Hs' := Hs). cbn [has_char] in Hs'.
    apply orb_false_iff in Hs' as [_ Htail].
    rewrite contains_cons, (IH Htail), orb_false_r.
    destruct (startswith (String a s) old) eqn:E; [|reflexivity].
    destruct (startswith_rest _ _ E) as [rest Hrest].
    rewrite Hrest, has_char_app, Hold in Hs. discriminate.
Qed.

(** The URL built for a location of the usual form. *)
Lemma raw_file_url_hosted (org repo marker rest : string) :
  marker = "master/" \/ marker = "main/" ->
  marker_free "master/" org repo rest = true ->
  marker_free "main/" org repo rest = true ->
  contains GITHUB_PREFIX (org ++ "/" ++ repo ++ "/blob/" ++ marker ++ rest)
  = false ->
  raw_file_url
    (GITHUB_PREFIX ++ org ++ "/" ++ repo ++ "/blob/" ++ marker ++ rest)
  = Some (RAW_FILE_PREFIX ++ org ++ "/" ++ repo ++ "/" ++ marker ++ rest).
Proof.
  intros Hmarker Hmaster Hmain Hprefix.
  apply marker_free_parts in Hmaster as (Hm1 & Hm2 & Hm3).
  apply marker_free_parts in Hmain as (Hn1 & Hn2 & Hn3).
  set (x := RAW_FILE_PREFIX ++ org ++ "/" ++ repo ++ "/blob/").
  assert (Hx : forall tail,
            RAW_FILE_PREFIX ++ org ++ "/" ++ repo ++ "/blob/" ++ tail
            = x ++ tail).
  { intros tail. unfold x. now rewrite !append_assoc. }
  assert (Hw : replace
                 (GITHUB_PREFIX ++ org ++ "/" ++ repo ++ "/blob/" ++ marker
                  ++ rest) GITHUB_PREFIX RAW_FILE_PREFIX
               = x ++ marker ++ rest).
  { rewrite replace_occurrence by discriminate.
    now rewrite (replace_none _ _ _ Hprefix), Hx. }
  assert (Hdrop : drop_last 5 x
                  = RAW_FILE_PREFIX ++ org ++ "/" ++ repo ++ "/").
  { unfold x.
    replace (RAW_FILE_PREFIX ++ org ++ "/" ++ repo ++ "/blob/")
      with ((RAW_FILE_PREFIX ++ org ++ "/" ++ repo ++ "/") ++ "blob/")
      by now rewrite !append_assoc.
    now apply drop_last_app. }
  assert (Hchosen : chosen_marker (x ++ marker ++ rest) = Some marker).
  { rewrite <- Hx. unfold chosen_marker.
    rewrite !contains_marker_form by tauto. rewrite Hm1, Hm2, Hn1, Hn2.
    cbn [orb]. destruct Hmarker as [-> | ->].
    - now rewrite contains_prefix.
    - change ("main/" ++ rest) with ("main" ++ String "/" rest).
      rewrite (contains_upto_cons "/" "master") by reflexivity.
      change ("master" ++ chr "/") with "master/". rewrite Hm3.
      change (contains "master/" ("main" ++ chr "/")) with false. cbn [orb].
      change ("main" ++ String "/" rest) with ("main/" ++ rest).
      now rewrite contains_prefix. }
  destruct Hmarker as [-> | ->].
  - rewrite (raw_file_url_first _ x rest "master").
    + change ("master" ++ chr "/") with "master/".
      rewrite (split_from_none _ _ Hm3). simpl fst.
      now rewrite Hdrop, !append_assoc.
    + exact Hw.
    + rewrite Hw. exact Hchosen.
    + rewrite <- Hx, contains_marker_form by now left.
      change ("master" ++ chr "/") with "master/". now rewrite Hm1, Hm2.
  - rewrite (raw_file_url_first _ x rest "main").
    + change ("main" ++ chr "/") with "main/".
      rewrite (split_from_none _ _ Hn3). simpl fst.
      now rewrite Hdrop, !append_assoc.
    + exact Hw.
    + rewrite Hw. exact Hchosen.
    + rewrite <- Hx, contains_marker_form by now right.
      change ("main" ++ chr "/") with "main/". now rewrite Hn1, Hn2.
Qed.

(** X17.  For a descriptor at
    [https://github.com/<org>/<repo>/blob/<marker><rest>], where neither
    marker occurs in [<org>/], [<repo>/] or [<rest>] and [<org>] and
    [<repo>] hold no colon, [get_license_from_pom] asks for
    [https://raw.githubusercontent.com/<org>/<repo>/<marker>LICENSE] and,
    only when that is answered with a status other than 200, for the same
    with [COPYING]: the license is looked for at the root of the branch,
    wherever in the repository the descriptor lies.  The location returned
    is the hosted one, [https://github.com/<org>/<repo>/blob/<marker>]
    followed by the file name. *)
Theorem get_license_from_pom_hosted
    (remote : nat -> string -> option response)
    (org repo marker rest : string) (st : state) :
  marker = "master/" \/ marker = "main/" ->
  marker_free "master/" org repo rest = true ->
  marker_free "main/" org repo rest = true ->
  has_char ":" org = false ->
  has_char ":" repo = false ->
  let url := GITHUB_PREFIX ++ org ++ "/" ++ repo ++ "/blob/" ++ marker ++ rest in
  let root := GITHUB_PREFIX ++ org ++ "/" ++ repo ++ "/blob/" ++ marker in
  let raw := RAW_FILE_PREFIX ++ org ++ "/" ++ repo ++ "/" ++ marker in
  let st1 := requested (raw ++ "LICENSE") st in
  let st2 := requested (raw ++ "COPYING") st1 in
  get_license_from_pom remote url st
  = match fetched (remote (List.length (requests st)) (raw ++ "LICENSE")) with
    | Ret (Some content) => (Ret (root ++ "LICENSE", content), st1)
    | Ret None =>
        match fetched (remote (List.length (requests st1)) (raw ++ "COPYING"))
        with
        | Ret (Some content) => (Ret (root ++ "COPYING", content), st2)
        | Ret None => (Exit 1, printed (no_license_message url) st2)
        | Exit code => (Exit code, st2)
        | Raise e => (Raise e, st2)
        end
    | Exit code => (Exit code, st1)
    | Raise e => (Raise e, st1)
    end.
Proof.
  intros Hmarker Hmaster Hmain Horg Hrepo url root raw st1 st2.
  assert (Hfile : forall file,
            has_char ":" file = false ->
            contains "master/" file = false ->
            contains "main/" file = false ->
            raw_file_url (root ++ file) = Some (raw ++ file)).
  { intros file Hcolon Hf1 Hf2. unfold root, raw. rewrite !append_assoc.
    apply marker_free_parts in Hmaster as (Hm1 & Hm2 & _).
    apply marker_free_parts in Hmain as (Hn1 & Hn2 & _).
    apply raw_file_url_hosted; [exact Hmarker | | |].
    - unfold marker_free. now rewrite Hm1, Hm2, Hf1.
    - unfold marker_free. now rewrite Hn1, Hn2, Hf2.
    - apply (contains_needs_char ":"); [reflexivity|].
      rewrite !has_char_app, Horg, Hrepo, Hcolon.
      destruct Hmarker as [-> | ->]; reflexivity. }
  unfold get_license_from_pom. unfold bind at 1. unfold url.
  rewrite (github_root_hosted org repo marker rest st Hmarker Hmaster Hmain).
  fold root. unfold bind at 1. cbn [license_loop]. unfold bind at 1.
  rewrite get_file_from_github_run, (Hfile "LICENSE") by reflexivity.
  fold st1.
  destruct (fetched (remote (List.length (requests st)) (raw ++ "LICENSE")))
    as [[content|]|code|e]; try reflexivity.
  unfold bind at 1.
  rewrite get_file_from_github_run, (Hfile "COPYING") by reflexivity.
  fold st2.
  destruct (fetched (remote (List.length (requests st1)) (raw ++ "COPYING")))
    as [[content|]|code|e]; reflexivity.
Qed.

Lemma get_license_from_pom_hosted_witness :
  get_license_from_pom example_remote
    (GITHUB_PREFIX ++ "org" ++ "/" ++ "lib" ++ "/blob/" ++ "master/"
     ++ "sub/dir/build.gradle") example_state
  = (Ret ("https://github.com/org/lib/blob/master/COPYING", "GPL"),
     requested "https://raw.githubusercontent.com/org/lib/master/COPYING"
       (requested "https://raw.githubusercontent.com/org/lib/master/LICENSE"
          example_state)).
Proof.
  apply (get_license_from_pom_hosted example_remote "org" "lib" "master/"
           "sub/dir/build.gradle" example_state);
    [now left | reflexivity ..].
Defined.

(* ================================================================= *)
(** ** What a run prints *)

Create HintDb loud.

Lemma loud_same {A : Type} (m : M A) :
  (forall st, stdout (snd (m st)) = stdout st
              /\ match fst (m st) with
                 | Exit code => code = 0%Z
                 | _ => True
                 end) ->
  loud m.
Proof.
  intros H st. destruct (H st) as [Hout Hexit]. exists [].
  rewrite app_nil_r. split; [exact Hout|].
  destruct (fst (m st)); [reflexivity | now right | reflexivity].
Qed.

Lemma loud_ret {A : Type} (a : A) : loud (ret a).
Proof. apply loud_same. intros st. now split. Qed.

Lemma loud_raise {A : Type} (e : exn) : loud (@raise A e).
Proof. apply loud_same. intros st. now split. Qed.

Lemma loud_sys_exit_0 {A : Type} : loud (@sys_exit A 0).
Proof. apply loud_same. intros st. now split. Qed.

Lemma loud_read_file (path : string) : loud (read_file path).
Proof.
  apply loud_same. intros st. unfold read_file.
  now destruct (files st path).
Qed.

Lemma loud_write_file (path content : string) :
  loud (write_file path content).
Proof. apply loud_same. intros st. now split. Qed.

Lemma loud_list_getitem {A : Type} (l : list A) (i : nat) :
  loud (list_getitem l i).
Proof.
  apply loud_same. intros st. unfold list_getitem.
  now destruct (nth_error l i).
Qed.

Lemma loud_dict_getitem {V : Type} (d : dict V) (k : string) :
  loud (dict_getitem d k).
Proof.
  apply loud_same. intros st. unfold dict_getitem.
  now destruct (dict_get d k).
Qed.

Lemma loud_list_last (l : list string) : loud (list_last l).
Proof. apply loud_same. intros st. now destruct l. Qed.

Lemma loud_bind {A B : Type} (m : M A) (k : A -> M B) :
  loud m -> (forall a, loud (k a)) -> loud (bind m k).
Proof.
  intros Hm Hk st. unfold bind. destruct (Hm st) as (l1 & Hl1 & Hend1).
  destruct (m st) as [[a|code|e] st'] eqn:E; simpl in Hl1, Hend1.
  - subst l1. rewrite app_nil_r in Hl1. destruct (Hk a st') as (l2 & Hl2 & Hend2).
    exists l2. rewrite Hl2, Hl1. now split.
  - exists l1. now split.
  - exists l1. now split.
Qed.

Lemma fatal_sys_exit_1 {A : Type} : fatal (@sys_exit A 1).
Proof. intros st. exists []. rewrite app_nil_r. now split. Qed.

Lemma fatal_print {A : Type} (args : list string) (m : M A) :
  fatal m -> fatal (bind (print args) (fun _ => m)).
Proof.
  intros Hm st. unfold bind, print.
  destruct (Hm (State (requests st) (stdout st ++ [join " " args]) (files st)))
    as (l & Hl & Hend).
  exists (join " " args :: l). simpl in Hl. rewrite Hl, <- app_assoc.
  now split.
Qed.

(** A diagnostic followed by an exit with status 1. *)
Lemma loud_print {A : Type} (args : list string) (m : M A) :
  fatal m -> loud (bind (print args) (fun _ => m)).
Proof.
  intros Hm st.
  destruct (fatal_print args m Hm st) as (l & Hl & Hend).
  assert (Hne : l <> []).
  { intros ->. rewrite app_nil_r in Hl. unfold bind, print in Hl.
    destruct (Hm (State (requests st) (stdout st ++ [join " " args])
                    (files st))) as (l' & Hl' & _).
    simpl in Hl, Hl'. rewrite Hl' in Hl.
    apply (f_equal (@List.length string)) in Hl.
    rewrite !length_app in Hl. simpl in Hl. lia. }
  exists l. split; [exact Hl|]. rewrite Hend. now left.
Qed.

#[global] Hint Resolve loud_ret loud_raise loud_sys_exit_0 loud_read_file
  loud_write_file loud_list_getitem loud_dict_getitem loud_list_last
  fatal_sys_exit_1 : loud.

Ltac loud_step :=
  match goal with
  | |- fatal (bind (print _) _) => apply fatal_print
  | |- loud (bind (print _) _) => apply loud_print
  | |- loud (bind _ _) => apply loud_bind; [|intros]
  | |- loud (match ?x with _ => _ end) => destruct x
  end.

Ltac loud_all := repeat loud_step; auto with loud.

Section Loud.

Variable remote : nat -> string -> option response.
Variable fromstring : string -> option element.

Lemma loud_requests_get (url : string) : loud (requests_get remote url).
Proof.
  apply loud_same. intros st. unfold requests_get.
  now destruct (remote _ url).
Qed.

Lemma loud_ET_fromstring (content : string) :
  loud (ET_fromstring fromstring content).
Proof. unfold ET_fromstring. loud_all. Qed.

Lemma loud_find_in (x : option element) (path : string) (ns : dict string) :
  loud (find_in x path ns).
Proof. unfold find_in. loud_all. Qed.

Lemma loud_text_in (x : option element) : loud (text_in x).
Proof. unfold text_in. loud_all. Qed.

Hint Resolve loud_requests_get loud_ET_fromstring loud_find_in loud_text_in
  : loud.

Lemma loud_raw_file_url_loop (branch_roots : list string)
    (w raw_file_url : string) :
  loud (raw_file_url_loop branch_roots w raw_file_url).
Proof.
  induction branch_roots as [|br l IH]; cbn [raw_file_url_loop]; loud_all.
Qed.

Hint Resolve loud_raw_file_url_loop : loud.

Lemma loud_get_file_from_github (url : string) :
  loud (get_file_from_github remote url).
Proof. unfold get_file_from_github. loud_all. Qed.

Hint Resolve loud_get_file_from_github : loud.

Lemma loud_get_pom_artifact_name (url : string) :
  loud (get_pom_artifact_name remote fromstring url).
Proof. unfold get_pom_artifact_name. loud_all. Qed.

Lemma loud_get_grad_rval (line : string) : loud (get_grad_rval line).
Proof. unfold get_grad_rval. loud_all. Qed.

Hint Resolve loud_get_pom_artifact_name loud_get_grad_rval : loud.

Lemma loud_gradle_loop (lines : list string) :
  forall group_id artifact_id, loud (gradle_loop lines group_id artifact_id).
Proof.
  induction lines as [|line lines IH]; intros g a; cbn [gradle_loop];
    loud_all.
Qed.

Hint Resolve loud_gradle_loop : loud.

Lemma loud_get_gradle_artifact_name (url : string) :
  loud (get_gradle_artifact_name remote url).
Proof. unfold get_gradle_artifact_name. loud_all. Qed.

Lemma loud_github_root_loop (branch_roots : list string) (url : string) :
  forall github_root, loud (github_root_loop branch_roots url github_root).
Proof.
  induction branch_roots as [|br l IH]; intros r; cbn [github_root_loop];
    loud_all.
Qed.

Hint Resolve loud_get_gradle_artifact_name loud_github_root_loop : loud.

Lemma loud_get_github_root_url (url : string) :
  loud (get_github_root_url url).
Proof. unfold get_github_root_url. loud_all. Qed.

Lemma loud_license_loop (license_filenames : list string) (root : string) :
  forall license_content license_url,
    loud (license_loop remote license_filenames root license_content
            license_url).
Proof.
  induction license_filenames as [|f l IH]; intros c u; cbn [license_loop];
    loud_all.
Qed.

Hint Resolve loud_get_github_root_url loud_license_loop : loud.

Lemma loud_get_license_from_pom (url : string) :
  loud (get_license_from_pom remote url).
Proof. unfold get_license_from_pom. loud_all. Qed.

Hint Resolve loud_get_license_from_pom : loud.

Lemma loud_pom_gradle_loop (pom_gradle_filelist : list string) :
  forall acc d,
    loud (pom_gradle_loop remote fromstring pom_gradle_filelist acc d).
Proof.
  induction pom_gradle_filelist as [|url l IH]; intros acc d;
    cbn [pom_gradle_loop]; loud_all.
Qed.

Lemma loud_maven_loop (maven_artifacts : list string) :
  forall acc, loud (maven_loop maven_artifacts acc).
Proof.
  induction maven_artifacts as [|x l IH]; intros acc; cbn [maven_loop];
    loud_all.
Qed.

Lemma loud_package_loop (packages : list string) (idx : dict string) :
  forall l2p l2c, loud (package_loop remote packages idx l2p l2c).
Proof.
  induction packages as [|x l IH]; intros l2p l2c; cbn [package_loop];
    loud_all.
Qed.

Lemma loud_notices_loop (license_urls : list string)
    (l2p : dict (list string)) (l2c : dict string) :
  forall content, loud (notices_loop license_urls l2p l2c content).
Proof.
  induction license_urls as [|x l IH]; intros content; cbn [notices_loop];
    loud_all.
Qed.

Hint Resolve loud_pom_gradle_loop loud_maven_loop loud_package_loop
  loud_notices_loop : loud.

Lemma loud_main_reconcile (maven_artifacts_file : string)
    (maven_artifacts pom_gradle_filelist : list string) :
  loud (main_reconcile remote fromstring maven_artifacts_file
          maven_artifacts pom_gradle_filelist).
Proof. unfold main_reconcile. loud_all. Qed.

Lemma loud_main_aggregate (packages : list string) (idx : dict string) :
  loud (main_aggregate remote packages idx).
Proof. unfold main_aggregate. loud_all. Qed.

Lemma loud_main_sync (update : bool) (path content : string) :
  loud (main_sync update path content).
Proof. unfold main_sync. loud_all. Qed.

Hint Resolve loud_main_reconcile loud_main_aggregate loud_main_sync : loud.

Lemma loud_main (maven_artifacts_file third_party_notices_file : string)
    (update : bool) (maven_artifacts pom_gradle_filelist : list string) :
  loud (main remote fromstring maven_artifacts_file third_party_notices_file
          update maven_artifacts pom_gradle_filelist).
Proof. unfold main. loud_all. Qed.

End Loud.

(** X18.  Once the command line is parsed and the two lists are loaded
    (line 159 on), [main] only adds lines to the output, and it prints a
    diagnostic exactly when it exits with status 1: from there a run that
    exits with status 0 and a run that ends in an uncaught exception print
    nothing.  (The help and the usage message of line 148 are printed before
    that point.) *)
Theorem main_prints
    (remote : nat -> string -> option response)
    (fromstring : string -> option element)
    (maven_artifacts_file third_party_notices_file : string) (update : bool)
    (maven_artifacts pom_gradle_filelist : list string) (st : state) :
  exists l,
    stdout (snd (main remote fromstring maven_artifacts_file
                   third_party_notices_file update maven_artifacts
                   pom_gradle_filelist st))
    = (stdout st ++ l)%list
    /\ (l <> []
        <-> fst (main remote fromstring maven_artifacts_file
                   third_party_notices_file update maven_artifacts
                   pom_gradle_filelist st) = Exit 1).
Proof.
  destruct (loud_main remote fromstring maven_artifacts_file
              third_party_notices_file update maven_artifacts
              pom_gradle_filelist st) as (l & Hl & Hend).
  exists l. split; [exact Hl|].
  destruct (fst (main remote fromstring maven_artifacts_file
                   third_party_notices_file update maven_artifacts
                   pom_gradle_filelist st)) as [a|code|e].
  - subst l. split; [congruence | discriminate].
  - destruct Hend as [[-> Hne] | [-> ->]].
    + now split.
    + split; [congruence | discriminate].
  - subst l. split; [congruence | discriminate].
Qed.
